(** * Isopod: credential resolver and multi-cluster orchestrator

    A shallow embedding of [main.go] (flag handling, command dispatch, the
    per-cluster loop and its exit statuses) and of the [gke] package
    (service-account and default-credential strategies, the shared cluster
    lookup and the CA-certificate decoding), together with the properties
    the specification states about them. *)

From Stdlib Require Import ZArith Zbitwise List String Ascii Bool Lia.
From Stdlib Require Import Strings.Byte DecimalString.
Import ListNotations.

Local Open Scope list_scope.
Local Open Scope string_scope.

(** ** Go's [encoding/base64], [StdEncoding]

    [buildKubeRestConf] calls [base64.StdEncoding.DecodeString]: the
    standard alphabet of RFC 4648 with [=] padding, not strict, [\r] and
    [\n] ignored.  The functions below follow the library's [Encode],
    [decodeQuantum] and [Decode]. *)
Module Base64.

Definition encodeStd : string :=
  "ABCDEFGHIJKLMNOPQRSTUVWXYZabcdefghijklmnopqrstuvwxyz0123456789+/".

(** [StdPadding]: the character [=]. *)
Definition padChar : byte := x3d.

Definition uint (b : byte) : Z := Z.of_N (Byte.to_N b).

(** The conversion [byte(v)] of an unsigned value: the low eight bits. *)
Definition byte_of (v : Z) : byte :=
  match Byte.of_N (Z.to_N (Z.land v 255)) with
  | Some b => b
  | None => x00
  end.

(** [enc.encode[v]]: the character of a six-bit value. *)
Definition encode (v : Z) : byte :=
  nth (Z.to_nat v) (list_byte_of_string encodeStd) x00.

Fixpoint index_of (c : byte) (l : list byte) (i : Z) : option Z :=
  match l with
  | [] => None
  | x :: l' => if Byte.eqb x c then Some i else index_of c l' (i + 1)
  end.

(** [enc.decodeMap[c]]: [NewEncoding] fills the table with [0xff] and then
    stores [i] at [encoder[i]]. *)
Definition decodeMap (c : byte) : Z :=
  match index_of c (list_byte_of_string encodeStd) 0 with
  | Some i => i
  | None => 255
  end.

(** [Encode]: three bytes give four characters; a last block of one or two
    bytes is padded. *)
Fixpoint Encode (src : list byte) : list byte :=
  match src with
  | [] => []
  | [b0] =>
      let val := Z.shiftl (uint b0) 16 in
      [ encode (Z.land (Z.shiftr val 18) 63);
        encode (Z.land (Z.shiftr val 12) 63);
        padChar; padChar ]
  | [b0; b1] =>
      let val := Z.lor (Z.shiftl (uint b0) 16) (Z.shiftl (uint b1) 8) in
      [ encode (Z.land (Z.shiftr val 18) 63);
        encode (Z.land (Z.shiftr val 12) 63);
        encode (Z.land (Z.shiftr val 6) 63);
        padChar ]
  | b0 :: b1 :: b2 :: rest =>
      let val := Z.lor (Z.lor (Z.shiftl (uint b0) 16) (Z.shiftl (uint b1) 8))
                       (uint b2) in
      encode (Z.land (Z.shiftr val 18) 63)
        :: encode (Z.land (Z.shiftr val 12) 63)
        :: encode (Z.land (Z.shiftr val 6) 63)
        :: encode (Z.land val 63)
        :: Encode rest
  end.

Definition EncodeToString (src : list byte) : string :=
  string_of_list_byte (Encode src).

(** [CorruptInputError(off)]: the offset of the offending input byte. *)
Inductive DecodeResult : Type :=
| Decoded (out : list byte)
| CorruptInputError (off : nat).

Definition CorruptInputError_Error (off : nat) : string :=
  "illegal base64 data at input byte "
  ++ NilEmpty.string_of_uint (Nat.to_uint off).

Definition isNewline (c : byte) : bool :=
  Byte.eqb c x0a || Byte.eqb c x0d.

(** The loops [for si < len(src) && (src[si] == '\n' || src[si] == '\r')]. *)
Fixpoint skipNewlines (src : list byte) (si : nat) : list byte * nat :=
  match src with
  | [] => ([], si)
  | c :: rest => if isNewline c then skipNewlines rest (S si) else (src, si)
  end.

(** The end of [decodeQuantum]: the six-bit values collected in [dbuf]
    (missing ones are zero) are assembled and [dlen - 1] bytes are kept. *)
Definition quantumBytes (dbuf : list Z) : list byte :=
  let d := fun i => nth i dbuf 0%Z in
  let val := Z.lor (Z.lor (Z.lor (Z.shiftl (d 0%nat) 18) (Z.shiftl (d 1%nat) 12))
                          (Z.shiftl (d 2%nat) 6)) (d 3%nat) in
  firstn (List.length dbuf - 1)
    [ byte_of (Z.shiftr val 16); byte_of (Z.shiftr val 8); byte_of (Z.shiftr val 0) ].

(** [Decode] runs [decodeQuantum] until the input is used up.  [si] is the
    index of the next input byte, [dbuf] the values read in the current
    quantum ([j] is its length) and [out] the bytes written so far. *)
Fixpoint decodeFrom (src : list byte) (si : nat) (dbuf : list Z)
         (out : list byte) : DecodeResult :=
  match src with
  | [] =>
      match dbuf with
      | [] => Decoded out
      | _ => CorruptInputError (si - List.length dbuf)
      end
  | c :: rest =>
      let si := S si in
      let v := decodeMap c in
      if negb (v =? 255)%Z then
        let dbuf := (dbuf ++ [v])%list in
        if (List.length dbuf =? 4)%nat
        then decodeFrom rest si [] (out ++ quantumBytes dbuf)%list
        else decodeFrom rest si dbuf out
      else if isNewline c then decodeFrom rest si dbuf out
      else if negb (Byte.eqb c padChar) then CorruptInputError (si - 1)
      else
        match List.length dbuf with
        | 0%nat | 1%nat => CorruptInputError (si - 1)
        | 2%nat =>
            let (r1, s1) := skipNewlines rest si in
            match r1 with
            | [] => CorruptInputError s1
            | c2 :: r2 =>
                if negb (Byte.eqb c2 padChar) then CorruptInputError (s1 - 1)
                else
                  let (r3, s3) := skipNewlines r2 (S s1) in
                  match r3 with
                  | [] => Decoded (out ++ quantumBytes dbuf)%list
                  | _ :: _ => CorruptInputError s3
                  end
            end
        | _ =>
            let (r3, s3) := skipNewlines rest si in
            match r3 with
            | [] => Decoded (out ++ quantumBytes dbuf)%list
            | _ :: _ => CorruptInputError s3
            end
        end
  end.

Definition DecodeString (s : string) : DecodeResult :=
  decodeFrom (list_byte_of_string s) 0 [] [].

End Base64.

(** ** Values, errors and effects *)

(** A Go [error] is kept as the text [%v] prints: every error made here
    comes from [fmt.Errorf], which formats the cause into the message. *)
Definition error : Type := string.

(** A Go result pair [(value, err)]. *)
Inductive result (A : Type) : Type :=
| Ok (a : A)
| Err (err : error).
Arguments Ok {A} a.
Arguments Err {A} err.

(** [err != nil] on a result pair. *)
Definition isErr {A} (r : result A) : bool :=
  match r with
  | Err _ => true
  | Ok _ => false
  end.

(** Opaque collaborator objects. *)
Inductive TokenSource : Type := MkTokenSource (id : nat).
Inductive Service : Type := ContainerSvc (ts : TokenSource).

(** [rest.Config], the fields [buildKubeRestConf] sets; [WrapTransport]
    holds the token source that [transport.TokenSourceWrapTransport]
    captures. *)
Record RestConfig : Type := {
  Host : string;
  CAData : list byte;
  WrapTransport : TokenSource;
  UserAgent : string
}.

(** The calls [gke] makes to the file system, the credential library and
    the management API. *)
Inductive CredEvent : Type :=
| EvReadFile (path : string)
| EvCredentialsFromJSON (b : list byte)
| EvDefaultTokenSource
| EvNewService (ts : TokenSource)
| EvClustersGet (name : string).

(** The calls [main] makes, in the order they are made; [EvCred] is a call
    made inside a vendor's [KubeConfig]. *)
Inductive Event : Type :=
| EvPrintln (text : string)
| EvUsage
| EvRunUnitTests (path : string)
| EvParseParams (s : string)
| EvRuntimeNew (entry : string)
| EvLoad (entry : string)
| EvForEachCluster
| EvKubeConfig (vendor : string)
| EvCred (c : CredEvent)
| EvVaultNewClient
| EvNewForConfig (host : string)
| EvAddonsNew (entry : string)
| EvAddonsLoad (vendor : string)
| EvAddonsRun (vendor : string) (cmd : string)
| EvLogErrorf (msg : string).

(** How a process ends when it does not return from [main]. *)
Inductive Termination : Type :=
| OsExit (code : Z)
| LogExitf (msg : string)
| LogFatalf (msg : string)
| Panicked (msg : string).

Inductive Outcome (A : Type) : Type :=
| Ret (a : A)
| Stop (t : Termination).
Arguments Ret {A} a.
Arguments Stop {A} t.

Definition panics {A} (o : Outcome A) : bool :=
  match o with
  | Stop (Panicked _) => true
  | _ => false
  end.

(** A computation that returns to its caller: the calls it made, and its
    value. *)
Module Calls.

Definition Calls (E A : Type) : Type := (list E * A)%type.

Definition ret {E A} (a : A) : Calls E A := ([], a).

Definition bind {E A B} (m : Calls E A) (f : A -> Calls E B) : Calls E B :=
  ((fst m ++ fst (f (snd m)))%list, snd (f (snd m))).

Definition call {E A} (ev : E) (answer : A) : Calls E A := ([ev], answer).

Declare Scope calls_scope.
Delimit Scope calls_scope with calls.
Notation "x <- m ;; k" := (bind m (fun x => k))
  (at level 61, m at next level, right associativity) : calls_scope.

End Calls.

(** A computation of [main]: the calls it made, and its value unless the
    process was stopped. *)
Definition Proc (E A : Type) : Type := (list E * Outcome A)%type.

Definition ret {E A} (a : A) : Proc E A := ([], Ret a).

Definition bind {E A B} (m : Proc E A) (f : A -> Proc E B) : Proc E B :=
  match snd m with
  | Ret a => ((fst m ++ fst (f a))%list, snd (f a))
  | Stop t => (fst m, Stop t)
  end.

Definition call {E A} (ev : E) (answer : A) : Proc E A := ([ev], Ret answer).

Definition stop {E A} (t : Termination) : Proc E A := ([], Stop t).

(** A callee that returns, its calls seen through [inj]. *)
Definition lift {E E' A} (inj : E -> E') (m : Calls.Calls E A) : Proc E' A :=
  (map inj (fst m), Ret (snd m)).

Declare Scope proc_scope.
Delimit Scope proc_scope with proc.
Notation "x <- m ;; k" := (bind m (fun x => k))
  (at level 61, m at next level, right associativity) : proc_scope.

(** ** Package [gke] *)
Module Gke.
Import Calls.
Local Open Scope calls_scope.

(** [container.Cluster], the fields read. *)
Record Cluster : Type := {
  Endpoint : string;
  ClusterCaCertificate : string
}.

(** What the file system, the credential library and the management API
    answer. *)
Record World : Type := {
  ReadFile : string -> result (list byte);
  CredentialsFromJSON : list byte -> result TokenSource;
  DefaultTokenSource : result TokenSource;
  NewService : TokenSource -> result Service;
  ClustersGet : Service -> string -> result Cluster
}.

Section Resolver.
Variable w : World.

Definition GoogleCredTokenSourceFromSAKey (svcAcctKeyFile : string)
  : Calls CredEvent (result TokenSource) :=
  r <- call (EvReadFile svcAcctKeyFile) (ReadFile w svcAcctKeyFile) ;;
  match r with
  | Err err =>
      ret (Err ("failed to read the SA key json file `" ++ svcAcctKeyFile
                ++ "': " ++ err))
  | Ok b =>
      r <- call (EvCredentialsFromJSON b) (CredentialsFromJSON w b) ;;
      match r with
      | Err err => ret (Err ("failed to extract credentials from json: " ++ err))
      | Ok tokenSource => ret (Ok tokenSource)
      end
  end.

Definition buildKubeRestConf
  (clusterName location project userAgent : string) (tokenSrc : TokenSource)
  : Calls CredEvent (result RestConfig) :=
  r <- call (EvNewService tokenSrc) (NewService w tokenSrc) ;;
  match r with
  | Err err => ret (Err ("failed to create the container service: " ++ err))
  | Ok containerSvc =>
      let name := "projects/" ++ project ++ "/locations/" ++ location
                  ++ "/clusters/" ++ clusterName in
      r <- call (EvClustersGet name) (ClustersGet w containerSvc name) ;;
      match r with
      | Err err => ret (Err ("failed to retrieve cluster info: " ++ err))
      | Ok cluster =>
          match Base64.DecodeString (ClusterCaCertificate cluster) with
          | Base64.CorruptInputError off =>
              ret (Err ("failed to base64 decode the cluster CA cert: "
                        ++ Base64.CorruptInputError_Error off))
          | Base64.Decoded caCert =>
              ret (Ok {| Host := "https://" ++ Endpoint cluster;
                         CAData := caCert;
                         WrapTransport := tokenSrc;
                         UserAgent := userAgent |})
          end
      end
  end.

Definition BuildKubeRestConfDefaultCred
  (clusterName location project userAgent : string)
  : Calls CredEvent (result RestConfig) :=
  r <- call EvDefaultTokenSource (DefaultTokenSource w) ;;
  match r with
  | Err err =>
      ret (Err ("failed to create the google DefaultTokenSource: " ++ err))
  | Ok tokenSrc =>
      buildKubeRestConf clusterName location project userAgent tokenSrc
  end.

Definition BuildKubeRestConfSACred
  (clusterName location project svcAcctKeyFile userAgent : string)
  : Calls CredEvent (result RestConfig) :=
  if (svcAcctKeyFile =? "")%string then
    BuildKubeRestConfDefaultCred clusterName location project userAgent
  else
    r <- GoogleCredTokenSourceFromSAKey svcAcctKeyFile ;;
    match r with
    | Err err =>
        ret (Err ("failed to get token source from service account: " ++ err))
    | Ok TokenSrc =>
        buildKubeRestConf clusterName location project userAgent TokenSrc
    end.

End Resolver.

(** The calls that reach the provider: building the management-API client
    and the cluster lookup. *)
Definition isNetworkCall (ev : CredEvent) : bool :=
  match ev with
  | EvNewService _ | EvClustersGet _ => true
  | _ => false
  end.

End Gke.

(** ** Package [main] *)
Module Main.
Local Open Scope proc_scope.

Definition version : string := "<unknown>".

(** [runtime.Command] is a string type. *)
Definition Command : Type := string.

(** Modelled from the spec: the constant [runtime.TestCommand] of package
    [pkg/runtime], which is not under src/; the verb is [test]. *)
Definition TestCommand : Command := "test".

(** The flag variables. *)
Record Flags : Type := {
  vaultToken : string;
  namespace : string;
  kubeconfig : string;
  addonRegex : string;
  isopodCtx : string;
  dryRun : bool;
  svcAcctKeyFile : string;
  noSpin : bool;
  kubeDiff : bool;
  showVersion : bool;
  relativePath : string
}.

(** The defaults given to [flag.String] and [flag.Bool]; [VAULT_TOKEN] is
    [os.Getenv("VAULT_TOKEN")], empty when the variable is not set. *)
Definition flagDefaults (VAULT_TOKEN : string) : Flags :=
  {| vaultToken := VAULT_TOKEN;
     namespace := "default";
     kubeconfig := "";
     addonRegex := "";
     isopodCtx := "";
     dryRun := false;
     svcAcctKeyFile := "";
     noSpin := false;
     kubeDiff := false;
     showVersion := false;
     relativePath := "" |}.

(** What [flag.Parse] found: the value of each flag that is given on the
    command line, and [flag.Args()]. *)
Record CommandLine : Type := {
  given_vault_token : option string;
  given_namespace : option string;
  given_kubeconfig : option string;
  given_match_addons : option string;
  given_context : option string;
  given_dry_run : option bool;
  given_sa_key : option string;
  given_nospin : option bool;
  given_kube_diff : option bool;
  given_version : option bool;
  given_rel_path : option string;
  Args : list string
}.

(** [flag.Parse] either stops the process itself (a malformed command
    line, [-help]) or sets the flags that are given. *)
Inductive ParseOutcome : Type :=
| ParseExits (code : Z)
| Parsed (cl : CommandLine).

Definition orDefault {A} (given : option A) (dflt : A) : A :=
  match given with
  | Some v => v
  | None => dflt
  end.

Definition setFlags (d : Flags) (cl : CommandLine) : Flags :=
  {| vaultToken := orDefault (given_vault_token cl) (vaultToken d);
     namespace := orDefault (given_namespace cl) (namespace d);
     kubeconfig := orDefault (given_kubeconfig cl) (kubeconfig d);
     addonRegex := orDefault (given_match_addons cl) (addonRegex d);
     isopodCtx := orDefault (given_context cl) (isopodCtx d);
     dryRun := orDefault (given_dry_run cl) (dryRun d);
     svcAcctKeyFile := orDefault (given_sa_key cl) (svcAcctKeyFile d);
     noSpin := orDefault (given_nospin cl) (noSpin d);
     kubeDiff := orDefault (given_kube_diff cl) (kubeDiff d);
     showVersion := orDefault (given_version cl) (showVersion d);
     relativePath := orDefault (given_rel_path cl) (relativePath d) |}.

Definition init (VAULT_TOKEN : string) (p : ParseOutcome)
  : Proc Event (Flags * list string) :=
  match p with
  | ParseExits code => stop (OsExit code)
  | Parsed cl =>
      let fl := setFlags (flagDefaults VAULT_TOKEN) cl in
      if (vaultToken fl =? "")%string
      then stop (LogFatalf "--vault_token or $VAULT_TOKEN must be set")
      else ret (fl, Args cl)
  end.

(** *** Collaborators *)

Definition Params : Type := list (string * string).
Definition SkyCtx : Type := string.

Inductive Regexp : Type := MkRegexp (expr : string).
Inductive Clientset : Type := MkClientset (c : RestConfig).

Record VaultClient : Type := { token : string }.
Definition SetToken (c : VaultClient) (v : string) : VaultClient :=
  {| token := v |}.

(** [store.New(cs, namespace)]. *)
Record Store : Type := { store_cs : Clientset; store_namespace : string }.

Record RuntimeConfig : Type := {
  EntryFile : string;
  GCPSvcAcctKeyFile : string;
  Config_UserAgent : string;
  KubeConfigPath : string;
  Config_Store : option Store;
  DryRun : bool
}.

Inductive RuntimeOption : Type :=
| WithVault (c : VaultClient)
| WithKube (c : RestConfig) (diff : bool)
| WithHelm (baseDir : string)
| WithAddonRegex (re : Regexp)
| WithNoSpin.

(** [cloud.KubernetesVendor]: what printing the value with [%v] gives,
    and its two methods. *)
Record KubernetesVendor : Type := {
  vendorString : string;
  KubeConfig : Calls.Calls CredEvent (result RestConfig);
  AddonSkyCtx : SkyCtx
}.

(** [runtime.Runtime].  [Clusters] is what [ForEachCluster] hands to its
    visitor, in order, and the error it returns afterwards. *)
Record Runtime : Type := {
  Load : option error;
  Clusters : Params -> list KubernetesVendor * option error;
  Run : Command -> SkyCtx -> option error
}.

(** What the other packages answer.  The number given to [runtime_New],
    [vaultapi_NewClient] and [kubernetes_NewForConfig] counts the earlier
    calls of that function, so that the answers may change from one
    cluster to the next. *)
Record Env : Type := {
  GOOS : string;
  GOARCH : string;
  RunUnitTests : string -> bool * option error;
  ParseCommaSeparatedParams : string -> result Params;
  filepath_Dir : string -> string;
  runtime_New : nat -> RuntimeConfig -> list RuntimeOption -> result Runtime;
  vaultapi_NewClient : nat -> result VaultClient;
  kubernetes_NewForConfig : nat -> RestConfig -> result Clientset;
  regexp_Compile : string -> result Regexp;
  regexp_quote : string -> string
}.

(** [err != nil]. *)
Definition failed (err : option error) : bool :=
  match err with
  | Some _ => true
  | None => false
  end.

(** Modelled from the spec: the method [ForEachCluster] of the clusters
    runtime (package [pkg/runtime], not under src/): the visitor is called
    on every yielded cluster, in the order of discovery, and the error of
    the iteration is returned.  [s] is the state the visitor's closure
    captures, [i] the number of clusters visited before. *)
Fixpoint forEach {S : Type} (fn : nat -> KubernetesVendor -> S -> Proc Event S)
         (i : nat) (vs : list KubernetesVendor) (s : S) : Proc Event S :=
  match vs with
  | [] => ret s
  | v :: vs' => s' <- fn i v s ;; forEach fn (Datatypes.S i) vs' s'
  end.

Definition ForEachCluster {S : Type} (clusters : Runtime) (ctxParams : Params)
           (fn : nat -> KubernetesVendor -> S -> Proc Event S) (s : S)
  : Proc Event (S * option error) :=
  _ <- call EvForEachCluster tt ;;
  s' <- forEach fn 0 (fst (Clusters clusters ctxParams)) s ;;
  ret (s', snd (Clusters clusters ctxParams)).

Section Program.
Variable e : Env.
Variable fl : Flags.

Definition usageAndDie {A : Type} : Proc Event A :=
  _ <- call EvUsage tt ;;
  stop (OsExit 1).

Definition getCmdAndPath (argv : list string)
  : Proc Event (Command * string) :=
  match argv with
  | [] => usageAndDie
  | [cmd] =>
      if (cmd =? TestCommand)%string then ret (cmd, "") else usageAndDie
  | cmd :: path :: _ => ret (cmd, path)
  end.

Definition buildClustersRuntime (mainFile : string) : Proc Event Runtime :=
  r <- call (EvRuntimeNew mainFile)
         (runtime_New e 0
            {| EntryFile := mainFile;
               GCPSvcAcctKeyFile := svcAcctKeyFile fl;
               Config_UserAgent := "Isopod/" ++ version;
               KubeConfigPath := kubeconfig fl;
               Config_Store := None;
               DryRun := dryRun fl |} []) ;;
  match r with
  | Err err => stop (LogExitf ("Failed to initialize clusters runtime: " ++ err))
  | Ok clusters => ret clusters
  end.

(** [regexp.MustCompile]: [Compile], and a panic when it fails. *)
Definition MustCompile (str : string) : Proc Event Regexp :=
  match regexp_Compile e str with
  | Ok re => ret re
  | Err err =>
      stop (Panicked ("regexp: Compile(" ++ regexp_quote e str ++ "): " ++ err))
  end.

(** [i] is the number of clusters visited before this one. *)
Definition buildAddonsRuntime (i : nat) (kubeC : RestConfig) (mainFile : string)
  : Proc Event (result Runtime) :=
  r <- call EvVaultNewClient (vaultapi_NewClient e i) ;;
  match r with
  | Err err => ret (Err ("failed to initialize Vault client: " ++ err))
  | Ok vaultC =>
      let vaultC :=
        if negb (vaultToken fl =? "")%string
        then SetToken vaultC (vaultToken fl) else vaultC in
      r <- call (EvNewForConfig (Host kubeC)) (kubernetes_NewForConfig e i kubeC) ;;
      match r with
      | Err err =>
          ret (Err ("failed to create Kubernetes clientset: " ++ err))
      | Ok cs =>
          let helmBaseDir :=
            if (relativePath fl =? "")%string
            then filepath_Dir e mainFile else relativePath fl in
          let st := {| store_cs := cs; store_namespace := namespace fl |} in
          re <- MustCompile (addonRegex fl) ;;
          let opts :=
            [ WithVault vaultC; WithKube kubeC (kubeDiff fl);
              WithHelm helmBaseDir; WithAddonRegex re ] in
          let opts := if noSpin fl then (opts ++ [WithNoSpin])%list else opts in
          r <- call (EvAddonsNew mainFile)
                 (runtime_New e (S i)
                    {| EntryFile := mainFile;
                       GCPSvcAcctKeyFile := svcAcctKeyFile fl;
                       Config_UserAgent := "Isopod/" ++ version;
                       KubeConfigPath := kubeconfig fl;
                       Config_Store := Some st;
                       DryRun := dryRun fl |} opts) ;;
          match r with
          | Err err =>
              ret (Err ("failed to initialize addons runtime: " ++ err))
          | Ok addons => ret (Ok addons)
          end
      end
  end.

(** The function literal given to [ForEachCluster]; [errorReturned] is
    the variable of [main] it assigns to. *)
Definition visitCluster (cmd : Command) (mainFile : string) (i : nat)
           (k8sVendor : KubernetesVendor) (errorReturned : bool)
  : Proc Event bool :=
  _ <- call (EvKubeConfig (vendorString k8sVendor)) tt ;;
  r <- lift EvCred (KubeConfig k8sVendor) ;;
  match r with
  | Err err =>
      stop (LogExitf ("Failed to build kube rest config for k8s vendor "
                      ++ vendorString k8sVendor ++ ": " ++ err))
  | Ok kubeConfig =>
      r <- buildAddonsRuntime i kubeConfig mainFile ;;
      match r with
      | Err err => stop (LogExitf ("Failed to initialize runtime: " ++ err))
      | Ok addons =>
          r <- call (EvAddonsLoad (vendorString k8sVendor)) (Load addons) ;;
          match r with
          | Some err =>
              stop (LogExitf ("Failed to load addons runtime: " ++ err))
          | None =>
              r <- call (EvAddonsRun (vendorString k8sVendor) cmd)
                     (Run addons cmd (AddonSkyCtx k8sVendor)) ;;
              match r with
              | Some err =>
                  _ <- call (EvLogErrorf ("addons run failed: " ++ err)) tt ;;
                  ret true
              | None => ret errorReturned
              end
          end
      end
  end.

(** [main]; the redirection of the standard log and the flushes of the
    log leave no trace here. *)
Definition main (args : list string) : Proc Event unit :=
  if showVersion fl then
    _ <- call (EvPrintln ("Version: " ++ version)) tt ;;
    _ <- call (EvPrintln ("System: " ++ GOOS e ++ "/" ++ GOARCH e)) tt ;;
    ret tt
  else
    cp <- getCmdAndPath args ;;
    let cmd := fst cp in
    let path := snd cp in
    if (cmd =? TestCommand)%string then
      r <- call (EvRunUnitTests path) (RunUnitTests e path) ;;
      match snd r with
      | Some err => stop (LogExitf ("Failed to run tests: " ++ err))
      | None => if negb (fst r) then stop (OsExit 1) else ret tt
      end
    else
      let mainFile := path in
      if (mainFile =? "")%string then
        stop (LogExitf "path to main Starlark entry file must be set")
      else
        r <- call (EvParseParams (isopodCtx fl))
               (ParseCommaSeparatedParams e (isopodCtx fl)) ;;
        match r with
        | Err err => stop (LogExitf ("Invalid value to --context: " ++ err))
        | Ok ctxParams =>
            clusters <- buildClustersRuntime mainFile ;;
            r <- call (EvLoad mainFile) (Load clusters) ;;
            match r with
            | Some err =>
                stop (LogExitf ("Failed to load clusters runtime: " ++ err))
            | None =>
                let errorReturned := false in
                r <- ForEachCluster clusters ctxParams
                       (visitCluster cmd mainFile) errorReturned ;;
                match snd r with
                | Some err =>
                    stop (LogExitf ("Failed to iterate through clusters: " ++ err))
                | None =>
                    if fst r then stop (OsExit 2) else ret tt
                end
            end
        end.

End Program.

(** Package initialisation, then [main]. *)
Definition process (e : Env) (VAULT_TOKEN : string) (p : ParseOutcome)
  : Proc Event unit :=
  st <- init VAULT_TOKEN p ;;
  main e (fst st) (snd st).

(** The status the process ends with: returning from [main] gives [0];
    glog's [Exitf] calls [os.Exit(1)] and its [Fatalf], in the version of
    the time, [os.Exit(255)]; a panic that is not recovered ends a Go
    program with status [2]. *)
Definition exitStatus {A : Type} (o : Outcome A) : Z :=
  match o with
  | Ret _ => 0
  | Stop (OsExit code) => code
  | Stop (LogExitf _) => 1
  | Stop (LogFatalf _) => 255
  | Stop (Panicked _) => 2
  end.

End Main.

(** ** Reading a run *)
Module Trace.

Definition count {E : Type} (p : E -> bool) (tr : list E) : nat :=
  List.length (filter p tr).

(** Building and loading the clusters runtime, and iterating over it. *)
Definition isDiscoveryCall (ev : Event) : bool :=
  match ev with
  | EvRuntimeNew _ | EvLoad _ | EvForEachCluster => true
  | _ => false
  end.

(** A vendor's [KubeConfig] and everything it calls. *)
Definition isCredentialCall (ev : Event) : bool :=
  match ev with
  | EvKubeConfig _ | EvCred _ => true
  | _ => false
  end.

Definition isKubeConfig (ev : Event) : bool :=
  match ev with
  | EvKubeConfig _ => true
  | _ => false
  end.

Definition isDefaultTokenSource (ev : CredEvent) : bool :=
  match ev with
  | EvDefaultTokenSource => true
  | _ => false
  end.

Definition isReadFile (ev : CredEvent) : bool :=
  match ev with
  | EvReadFile _ => true
  | _ => false
  end.

(** The credential calls of a run, in order. *)
Definition credCalls (tr : list Event) : list CredEvent :=
  flat_map (fun ev => match ev with EvCred c => [c] | _ => [] end) tr.

(** The workload executions of a run, in order: vendor and command. *)
Definition attempts (tr : list Event) : list (string * string) :=
  flat_map (fun ev => match ev with
                      | EvAddonsRun v cmd => [(v, cmd)]
                      | _ => []
                      end) tr.

(** The number of [addons run failed] lines. *)
Definition failuresLogged (tr : list Event) : nat :=
  count (fun ev => match ev with EvLogErrorf _ => true | _ => false end) tr.

End Trace.

(** ** Conditions the statements use *)
Module Conditions.

(** The token source a strategy ends up with: the default one when no
    key path is configured, the one of the key file otherwise. *)
Definition acquired (w : Gke.World) (svcAcctKeyFile : string)
           (tokenSrc : TokenSource) : Prop :=
  (svcAcctKeyFile = "" /\ Gke.DefaultTokenSource w = Ok tokenSrc)
  \/ (svcAcctKeyFile <> ""
      /\ exists b, Gke.ReadFile w svcAcctKeyFile = Ok b
                   /\ Gke.CredentialsFromJSON w b = Ok tokenSrc).

(** Every step before the workload succeeds on every cluster of [vs], the
    first of which is the [i]th visited; [outs] is what the workload
    returns on each, in order. *)
Definition allSetUp (e : Main.Env) (fl : Main.Flags) (cmd : Main.Command)
           (mainFile : string) (i : nat) (vs : list Main.KubernetesVendor)
           (outs : list (option error)) : Prop :=
  forall j v, nth_error vs j = Some v ->
    exists kubeC addons,
      snd (Main.KubeConfig v) = Ok kubeC
      /\ snd (Main.buildAddonsRuntime e fl (i + j) kubeC mainFile)
         = Ret (Ok addons)
      /\ Main.Load addons = None
      /\ nth_error outs j = Some (Main.Run addons cmd (Main.AddonSkyCtx v)).

(** [v] is a GKE cluster: its [KubeConfig] is the resolver's entry point,
    called with the key path [svcAcctKeyFile]. *)
Definition gkeVendor (svcAcctKeyFile : string) (v : Main.KubernetesVendor)
  : Prop :=
  exists w clusterName location project userAgent,
    Main.KubeConfig v
    = Gke.BuildKubeRestConfSACred w clusterName location project
                                  svcAcctKeyFile userAgent.

(** Every cluster a runtime yields is a GKE cluster resolved with the key
    path [svcAcctKeyFile]. *)
Definition gkeClusters (e : Main.Env) (svcAcctKeyFile : string) : Prop :=
  forall n conf opts clusters ctxParams v,
    Main.runtime_New e n conf opts = Ok clusters ->
    In v (fst (Main.Clusters clusters ctxParams)) ->
    gkeVendor svcAcctKeyFile v.

(** How [main]'s loop can stop the process: through [log.Exitf], or by
    the panic of [regexp.MustCompile] on a value that does not compile. *)
Definition loopStop (e : Main.Env) (fl : Main.Flags) (t : Termination) : Prop :=
  match t with
  | LogExitf _ => True
  | Panicked _ =>
      isErr (Main.regexp_Compile e (Main.addonRegex fl)) = true
  | _ => False
  end.

(** [main], called with [cmd :: path :: rest], gets as far as the loop
    over the clusters: [--version] is not given, the command is not
    [test], the path is not empty, the context parameters parse to
    [ctxParams], and the clusters runtime [clusters] is built and its entry
    file loaded. *)
Definition reachesLoop (e : Main.Env) (fl : Main.Flags) (cmd path : string)
           (ctxParams : Main.Params) (clusters : Main.Runtime) : Prop :=
  Main.showVersion fl = false
  /\ cmd <> Main.TestCommand
  /\ path <> ""
  /\ Main.ParseCommaSeparatedParams e (Main.isopodCtx fl) = Ok ctxParams
  /\ snd (Main.buildClustersRuntime e fl path) = Ret clusters
  /\ Main.Load clusters = None.


End Conditions.

(** ** Sample worlds *)
Module Examples.

Definition pem : list byte :=
  list_byte_of_string "-----BEGIN CERTIFICATE-----".

Definition prodName : string :=
  "projects/acme/locations/us-central1/clusters/prod".
Definition canaryName : string :=
  "projects/acme/locations/europe-west1/clusters/canary".
Definition stagingName : string :=
  "projects/acme/locations/us-central1/clusters/staging".

(** A management API that knows [prod] and [canary], with well-formed
    certificates, and [staging], whose certificate field is not base64;
    the key file [/etc/sa.json] can be read, no other file. *)
Definition world : Gke.World :=
  {| Gke.ReadFile := fun path =>
       if (path =? "/etc/sa.json")%string
       then Ok (list_byte_of_string "{}")
       else Err ("open " ++ path ++ ": no such file or directory");
     Gke.CredentialsFromJSON := fun _ => Ok (MkTokenSource 1);
     Gke.DefaultTokenSource := Ok (MkTokenSource 0);
     Gke.NewService := fun ts => Ok (ContainerSvc ts);
     Gke.ClustersGet := fun _ name =>
       if (name =? prodName)%string then
         Ok {| Gke.Endpoint := "10.0.0.1";
               Gke.ClusterCaCertificate := Base64.EncodeToString pem |}
       else if (name =? canaryName)%string then
         Ok {| Gke.Endpoint := "10.0.0.3";
               Gke.ClusterCaCertificate := Base64.EncodeToString pem |}
       else if (name =? stagingName)%string then
         Ok {| Gke.Endpoint := "10.0.0.2";
               Gke.ClusterCaCertificate := "not*base64" |}
       else Err "googleapi: Error 404: Not found" |}.

(** The same later on: the environment hands out another token source. *)
Definition worldLater : Gke.World :=
  {| Gke.ReadFile := Gke.ReadFile world;
     Gke.CredentialsFromJSON := Gke.CredentialsFromJSON world;
     Gke.DefaultTokenSource := Ok (MkTokenSource 2);
     Gke.NewService := Gke.NewService world;
     Gke.ClustersGet := Gke.ClustersGet world |}.

Definition userAgent : string := "Isopod/" ++ Main.version.

(** A GKE cluster of project [acme]: its [KubeConfig] is the resolver's
    entry point with no key path. *)
Definition gke (w : Gke.World) (clusterName location : string)
  : Main.KubernetesVendor :=
  {| Main.vendorString := clusterName;
     Main.KubeConfig :=
       Gke.BuildKubeRestConfSACred w clusterName location "acme" "" userAgent;
     Main.AddonSkyCtx := clusterName |}.

Definition prod : Main.KubernetesVendor := gke world "prod" "us-central1".
Definition canary : Main.KubernetesVendor :=
  gke worldLater "canary" "europe-west1".
Definition staging : Main.KubernetesVendor := gke world "staging" "us-central1".

(** A runtime that yields [vs]; its workload fails on the clusters whose
    name [failing] accepts. *)
Definition runtimeOf (vs : list Main.KubernetesVendor) (failing : string -> bool)
  : Main.Runtime :=
  {| Main.Load := None;
     Main.Clusters := fun _ => (vs, None);
     Main.Run := fun _ ctx =>
       if failing ctx then Some "apply: connection refused" else None |}.

(** Collaborators that all answer; [compile] is the regular-expression
    compiler. *)
Definition envOf (vs : list Main.KubernetesVendor) (failing : string -> bool)
           (tests : bool * option error) (compile : string -> result Main.Regexp)
           (vault : result Main.VaultClient) : Main.Env :=
  {| Main.GOOS := "linux";
     Main.GOARCH := "amd64";
     Main.RunUnitTests := fun _ => tests;
     Main.ParseCommaSeparatedParams := fun _ => Ok [];
     Main.filepath_Dir := fun _ => ".";
     Main.runtime_New := fun _ _ _ => Ok (runtimeOf vs failing);
     Main.vaultapi_NewClient := fun _ => vault;
     Main.kubernetes_NewForConfig := fun _ c => Ok (Main.MkClientset c);
     Main.regexp_Compile := compile;
     Main.regexp_quote := fun s => "`" ++ s ++ "`" |}.

Definition compileAll (s : string) : result Main.Regexp := Ok (Main.MkRegexp s).

(** A compiler that rejects an unclosed bracket, as Go's does. *)
Definition compileStrict (s : string) : result Main.Regexp :=
  if (s =? "[")%string
  then Err "error parsing regexp: missing closing ]: `[`"
  else Ok (Main.MkRegexp s).

Definition vaultOk : result Main.VaultClient := Ok {| Main.token := "" |}.

Definition vaultDown : result Main.VaultClient :=
  Err "parse VAULT_ADDR: invalid URI".

(** A command line that gives no flag. *)
Definition bare (args : list string) : Main.CommandLine :=
  {| Main.given_vault_token := None; Main.given_namespace := None;
     Main.given_kubeconfig := None; Main.given_match_addons := None;
     Main.given_context := None; Main.given_dry_run := None;
     Main.given_sa_key := None; Main.given_nospin := None;
     Main.given_kube_diff := None; Main.given_version := None;
     Main.given_rel_path := None; Main.Args := args |}.

(** The flags of [isopod install main.ipd] with [VAULT_TOKEN] set. *)
Definition flags : Main.Flags :=
  Main.setFlags (Main.flagDefaults "s.token") (bare []).

(** The same with [--match_addons=[]. *)
Definition flagsBadRegex : Main.Flags :=
  Main.setFlags (Main.flagDefaults "s.token")
    {| Main.given_vault_token := None; Main.given_namespace := None;
       Main.given_kubeconfig := None; Main.given_match_addons := Some "[";
       Main.given_context := None; Main.given_dry_run := None;
       Main.given_sa_key := None; Main.given_nospin := None;
       Main.given_kube_diff := None; Main.given_version := None;
       Main.given_rel_path := None; Main.Args := [] |}.

(** Two sound clusters; the workload fails on [canary]. *)
Definition envCanaryFails : Main.Env :=
  envOf [prod; canary] (fun ctx => (ctx =? "canary")%string) (true, None)
        compileAll vaultOk.

(** Two sound clusters, nothing fails. *)
Definition envAllGood : Main.Env :=
  envOf [prod; canary] (fun _ => false) (true, None) compileAll vaultOk.

(** [staging], with its broken certificate, is yielded before [prod]. *)
Definition envBrokenFirst : Main.Env :=
  envOf [staging; prod] (fun _ => false) (true, None) compileAll vaultOk.

(** The tests fail. *)
Definition envTestsFail : Main.Env :=
  envOf [prod] (fun _ => false) (false, None) compileAll vaultOk.

(** Vault's client cannot be built. *)
Definition envVaultDown : Main.Env :=
  envOf [prod] (fun _ => false) (true, None) compileStrict vaultDown.

Definition prodConf : RestConfig :=
  {| Host := "https://10.0.0.1"; CAData := pem;
     WrapTransport := MkTokenSource 0; UserAgent := userAgent |}.
Definition canaryConf : RestConfig :=
  {| Host := "https://10.0.0.3"; CAData := pem;
     WrapTransport := MkTokenSource 2; UserAgent := userAgent |}.

End Examples.

(** ** More to read off a run, and more sample worlds *)
Module Coverage.
Import Main Examples.

Definition isNewService (ev : CredEvent) : bool :=
  match ev with
  | EvNewService _ => true
  | _ => false
  end.

Definition isClustersGet (ev : CredEvent) : bool :=
  match ev with
  | EvClustersGet _ => true
  | _ => false
  end.

(** The configuration [buildClustersRuntime] hands to [runtime.New]. *)
Definition clustersConfig (fl : Flags) (mainFile : string) : RuntimeConfig :=
  {| EntryFile := mainFile;
     GCPSvcAcctKeyFile := svcAcctKeyFile fl;
     Config_UserAgent := "Isopod/" ++ version;
     KubeConfigPath := kubeconfig fl;
     Config_Store := None;
     DryRun := dryRun fl |}.

(** A clusters runtime whose entry file does not load. *)
Definition runtimeUnloadable : Runtime :=
  {| Load := Some "main.ipd:3:1: undefined: clusters";
     Clusters := fun _ => ([prod], None);
     Run := fun _ _ => None |}.

Definition envUnloadable : Env :=
  {| GOOS := "linux";
     GOARCH := "amd64";
     RunUnitTests := fun _ => (true, None);
     ParseCommaSeparatedParams := fun _ => Ok [];
     filepath_Dir := fun _ => ".";
     runtime_New := fun _ _ _ => Ok runtimeUnloadable;
     vaultapi_NewClient := fun _ => vaultOk;
     kubernetes_NewForConfig := fun _ c => Ok (MkClientset c);
     regexp_Compile := compileAll;
     regexp_quote := fun s => "`" ++ s ++ "`" |}.

(** A clusters runtime whose iteration returns an error after [prod]. *)
Definition runtimeBadEntry : Runtime :=
  {| Load := None;
     Clusters := fun _ => ([prod], Some "clusters: got int, want vendor");
     Run := fun _ _ => None |}.

Definition envBadEntry : Env :=
  {| GOOS := "linux";
     GOARCH := "amd64";
     RunUnitTests := fun _ => (true, None);
     ParseCommaSeparatedParams := fun _ => Ok [];
     filepath_Dir := fun _ => ".";
     runtime_New := fun _ _ _ => Ok runtimeBadEntry;
     vaultapi_NewClient := fun _ => vaultOk;
     kubernetes_NewForConfig := fun _ c => Ok (MkClientset c);
     regexp_Compile := compileAll;
     regexp_quote := fun s => "`" ++ s ++ "`" |}.

(** Discovery yields nothing. *)
Definition envNoClusters : Env :=
  envOf [] (fun _ => false) (true, None) compileAll vaultOk.

(** The workload fails on [canary], yielded first; [staging], with its
    broken certificate, comes second and [prod] third. *)
Definition envFailsThenBroken : Env :=
  envOf [canary; staging; prod] (fun ctx => (ctx =? "canary")%string)
        (true, None) compileAll vaultOk.

(** [--vault_token=s.flag] and nothing else. *)
Definition tokenGiven (args : list string) : CommandLine :=
  {| given_vault_token := Some "s.flag"; given_namespace := None;
     given_kubeconfig := None; given_match_addons := None;
     given_context := None; given_dry_run := None;
     given_sa_key := None; given_nospin := None;
     given_kube_diff := None; given_version := None;
     given_rel_path := None; Args := args |}.

(** [--version] and nothing else. *)
Definition versionGiven (args : list string) : CommandLine :=
  {| given_vault_token := None; given_namespace := None;
     given_kubeconfig := None; given_match_addons := None;
     given_context := None; given_dry_run := None;
     given_sa_key := None; given_nospin := None;
     given_kube_diff := None; given_version := Some true;
     given_rel_path := None; Args := args |}.

(** A clusters runtime that yields [prod] and [canary] and whose
    iteration then returns an error; the workload fails on [canary]. *)
Definition runtimeFailsBadEntry : Runtime :=
  {| Load := None;
     Clusters := fun _ =>
       ([prod; canary], Some "clusters: got int, want vendor");
     Run := fun _ ctx =>
       if (ctx =? "canary")%string
       then Some "apply: connection refused" else None |}.

Definition envFailsBadEntry : Env :=
  {| GOOS := "linux";
     GOARCH := "amd64";
     RunUnitTests := fun _ => (true, None);
     ParseCommaSeparatedParams := fun _ => Ok [];
     filepath_Dir := fun _ => ".";
     runtime_New := fun _ _ _ => Ok runtimeFailsBadEntry;
     vaultapi_NewClient := fun _ => vaultOk;
     kubernetes_NewForConfig := fun _ c => Ok (MkClientset c);
     regexp_Compile := compileAll;
     regexp_quote := fun s => "`" ++ s ++ "`" |}.

(** One sound cluster, and a compiler that rejects an unclosed bracket. *)
Definition envStrict : Env :=
  envOf [prod] (fun _ => false) (true, None) compileStrict vaultOk.

End Coverage.

Local Open Scope proc_scope.

(** ** Base64: decoding an encoding *)
Module Base64Facts.
Import Base64.
Local Open Scope Z_scope.

Lemma lor_disjoint k a b :
  0 <= k -> a mod 2 ^ k = 0 -> 0 <= b < 2 ^ k -> Z.lor a b = a + b.
Proof.
  intros Hk Ha Hb.
  rewrite <- Z.add_lor_land.
  assert (E : Z.land a b = 0).
  { apply Z.bits_inj'. intros n Hn.
    rewrite Z.land_spec, Z.bits_0.
    destruct (Z_lt_le_dec n k) as [Hlt | Hge].
    - rewrite (Z.mod_divide a (2 ^ k)) in Ha by (apply Z.pow_nonzero; lia).
      destruct Ha as [q ->].
      rewrite <- Z.shiftl_mul_pow2 by lia.
      rewrite Z.shiftl_spec_low by lia. reflexivity.
    - destruct (Z.eq_dec b 0) as [-> | Hb0].
      + rewrite Z.bits_0. apply andb_false_r.
      + rewrite (Z.bits_above_log2 b n); [apply andb_false_r | lia |].
        apply Z.log2_lt_pow2; [lia |].
        apply Z.lt_le_trans with (2 ^ k); [lia |].
        apply Z.pow_le_mono_r; lia. }
  rewrite E. lia.
Qed.

Lemma land_63 a : Z.land a 63 = a mod 64.
Proof. change 63 with (Z.ones 6). rewrite Z.land_ones by lia. reflexivity. Qed.

Lemma land_255 a : Z.land a 255 = a mod 256.
Proof. change 255 with (Z.ones 8). rewrite Z.land_ones by lia. reflexivity. Qed.

Lemma shiftr_div a n : 0 <= n -> Z.shiftr a n = a / 2 ^ n.
Proof. intros; apply Z.shiftr_div_pow2; assumption. Qed.

Lemma shiftl_mul a n : 0 <= n -> Z.shiftl a n = a * 2 ^ n.
Proof. intros; apply Z.shiftl_mul_pow2; assumption. Qed.

(** The 24-bit group of three bytes. *)
Lemma group3 x0 x1 x2 :
  0 <= x0 < 256 -> 0 <= x1 < 256 -> 0 <= x2 < 256 ->
  Z.lor (Z.lor (Z.shiftl x0 16) (Z.shiftl x1 8)) x2 = x0 * 65536 + x1 * 256 + x2.
Proof.
  intros H0 H1 H2.
  rewrite !shiftl_mul by lia. change (2 ^ 16) with 65536. change (2 ^ 8) with 256.
  rewrite (lor_disjoint 16 (x0 * 65536) (x1 * 256)); [| lia | | ].
  - rewrite (lor_disjoint 8); [lia | lia | | lia].
    change (2 ^ 8) with 256. Z.div_mod_to_equations. lia.
  - change (2 ^ 16) with 65536. Z.div_mod_to_equations. lia.
  - change (2 ^ 16) with 65536. lia.
Qed.

(** Four six-bit values put together again. *)
Lemma regroup s0 s1 s2 s3 :
  0 <= s0 < 64 -> 0 <= s1 < 64 -> 0 <= s2 < 64 -> 0 <= s3 < 64 ->
  Z.lor (Z.lor (Z.lor (Z.shiftl s0 18) (Z.shiftl s1 12)) (Z.shiftl s2 6)) s3
  = s0 * 262144 + s1 * 4096 + s2 * 64 + s3.
Proof.
  intros H0 H1 H2 H3.
  rewrite !shiftl_mul by lia.
  change (2 ^ 18) with 262144. change (2 ^ 12) with 4096. change (2 ^ 6) with 64.
  rewrite (lor_disjoint 18 (s0 * 262144) (s1 * 4096)).
  2: lia. 2: change (2 ^ 18) with 262144; Z.div_mod_to_equations; lia.
  2: change (2 ^ 18) with 262144; lia.
  rewrite (lor_disjoint 12 _ (s2 * 64)).
  2: lia. 2: change (2 ^ 12) with 4096; Z.div_mod_to_equations; lia.
  2: change (2 ^ 12) with 4096; lia.
  rewrite (lor_disjoint 6 _ s3).
  2: lia. 2: change (2 ^ 6) with 64; Z.div_mod_to_equations; lia.
  2: change (2 ^ 6) with 64; lia.
  reflexivity.
Qed.

Lemma sextet_range a k : 0 <= k -> 0 <= Z.land (Z.shiftr a k) 63 < 64.
Proof. intros. rewrite land_63. apply Z.mod_pos_bound. lia. Qed.

Lemma sextets_val val :
  0 <= val < 16777216 ->
  Z.land (Z.shiftr val 18) 63 * 262144 + Z.land (Z.shiftr val 12) 63 * 4096
  + Z.land (Z.shiftr val 6) 63 * 64 + Z.land val 63 = val.
Proof.
  intros H. rewrite !land_63, !shiftr_div by lia.
  change (2 ^ 18) with 262144. change (2 ^ 12) with 4096. change (2 ^ 6) with 64.
  Z.div_mod_to_equations. lia.
Qed.

Lemma uint_range b : 0 <= uint b < 256.
Proof.
  unfold uint. pose proof (Byte.to_N_bounded b). lia.
Qed.

Lemma byte_of_uint v b : v mod 256 = uint b -> byte_of v = b.
Proof.
  intros Hv. unfold byte_of. rewrite land_255, Hv. unfold uint.
  rewrite N2Z.id, Byte.of_to_N. reflexivity.
Qed.

Lemma decodeMap_encode v : 0 <= v < 64 -> decodeMap (encode v) = v.
Proof.
  intros Hv.
  assert (A : forallb (fun n => decodeMap (encode (Z.of_nat n)) =? Z.of_nat n)
                      (seq 0 64) = true) by (vm_compute; reflexivity).
  rewrite forallb_forall in A.
  specialize (A (Z.to_nat v)).
  rewrite Z2Nat.id in A by lia.
  apply Z.eqb_eq, A, in_seq. lia.
Qed.

Lemma encode_not_special v :
  0 <= v < 64 -> (decodeMap (encode v) =? 255) = false.
Proof.
  intros Hv. rewrite decodeMap_encode by assumption. apply Z.eqb_neq. lia.
Qed.

(** One step of the decoder on a character of the alphabet. *)
Lemma decodeFrom_alphabet v rest si dbuf out :
  0 <= v < 64 ->
  decodeFrom (encode v :: rest) si dbuf out =
  if (List.length (dbuf ++ [v]) =? 4)%nat
  then decodeFrom rest (S si) [] (out ++ quantumBytes (dbuf ++ [v]))
  else decodeFrom rest (S si) (dbuf ++ [v]) out.
Proof.
  intros Hv. cbn [decodeFrom].
  rewrite encode_not_special by assumption. cbn [negb].
  rewrite decodeMap_encode by assumption. reflexivity.
Qed.

Lemma decodeFrom_pad1 si d0 d1 d2 out :
  decodeFrom [padChar] si [d0; d1; d2] out
  = Decoded (out ++ quantumBytes [d0; d1; d2]).
Proof. reflexivity. Qed.

Lemma decodeFrom_pad2 si d0 d1 out :
  decodeFrom [padChar; padChar] si [d0; d1] out
  = Decoded (out ++ quantumBytes [d0; d1]).
Proof. reflexivity. Qed.

Lemma quantumBytes4 b0 b1 b2 :
  let val := Z.lor (Z.lor (Z.shiftl (uint b0) 16) (Z.shiftl (uint b1) 8)) (uint b2) in
  quantumBytes [ Z.land (Z.shiftr val 18) 63; Z.land (Z.shiftr val 12) 63;
                 Z.land (Z.shiftr val 6) 63; Z.land val 63 ] = [b0; b1; b2].
Proof.
  intros val.
  pose proof (uint_range b0) as H0. pose proof (uint_range b1) as H1.
  pose proof (uint_range b2) as H2.
  assert (Ev : val = uint b0 * 65536 + uint b1 * 256 + uint b2)
    by (apply group3; assumption).
  unfold quantumBytes. cbn [nth List.length Nat.sub firstn].
  rewrite regroup by (try apply sextet_range; try lia;
                      rewrite land_63; apply Z.mod_pos_bound; lia).
  rewrite sextets_val by lia.
  rewrite !shiftr_div by lia.
  change (2 ^ 16) with 65536. change (2 ^ 8) with 256. change (2 ^ 0) with 1.
  f_equal; [| f_equal; [| f_equal]]; apply byte_of_uint.
  all: rewrite Ev; Z.div_mod_to_equations; lia.
Qed.

Lemma quantumBytes3 b0 b1 :
  let val := Z.lor (Z.shiftl (uint b0) 16) (Z.shiftl (uint b1) 8) in
  quantumBytes [ Z.land (Z.shiftr val 18) 63; Z.land (Z.shiftr val 12) 63;
                 Z.land (Z.shiftr val 6) 63 ] = [b0; b1].
Proof.
  intros val.
  pose proof (uint_range b0) as H0. pose proof (uint_range b1) as H1.
  assert (Ev : val = uint b0 * 65536 + uint b1 * 256 + 0).
  { rewrite <- (group3 (uint b0) (uint b1) 0) by lia.
    rewrite Z.lor_0_r. reflexivity. }
  unfold quantumBytes. cbn [nth List.length Nat.sub firstn].
  rewrite regroup by (try apply sextet_range; lia).
  rewrite !shiftr_div by lia.
  change (2 ^ 16) with 65536. change (2 ^ 8) with 256.
  f_equal; [| f_equal]; apply byte_of_uint.
  all: rewrite ?land_63, ?shiftr_div by lia;
    change (2 ^ 18) with 262144; change (2 ^ 12) with 4096; change (2 ^ 6) with 64;
    rewrite Ev; Z.div_mod_to_equations; lia.
Qed.

Lemma quantumBytes2 b0 :
  let val := Z.shiftl (uint b0) 16 in
  quantumBytes [ Z.land (Z.shiftr val 18) 63; Z.land (Z.shiftr val 12) 63 ] = [b0].
Proof.
  intros val.
  pose proof (uint_range b0) as H0.
  assert (Ev : val = uint b0 * 65536).
  { unfold val. rewrite shiftl_mul by lia. reflexivity. }
  unfold quantumBytes. cbn [nth List.length Nat.sub firstn].
  rewrite regroup by (try apply sextet_range; lia).
  rewrite !shiftr_div by lia.
  change (2 ^ 16) with 65536.
  f_equal. apply byte_of_uint.
  rewrite ?land_63, ?shiftr_div by lia;
    change (2 ^ 18) with 262144; change (2 ^ 12) with 4096;
    rewrite Ev; Z.div_mod_to_equations; lia.
Qed.

Lemma list_ind3 {A} (P : list A -> Prop) :
  P [] -> (forall a, P [a]) -> (forall a b, P [a; b]) ->
  (forall a b c l, P l -> P (a :: b :: c :: l)) ->
  forall l, P l.
Proof.
  intros H0 H1 H2 H3.
  fix IH 1.
  intros [| a [| b [| c l]]]; [apply H0 | apply H1 | apply H2 | apply H3, IH].
Qed.

Lemma decodeFrom_Encode src : forall si out,
  decodeFrom (Encode src) si [] out = Decoded (out ++ src).
Proof.
  induction src as [| b0 | b0 b1 | b0 b1 b2 rest IH] using list_ind3; intros si out.
  - cbn. rewrite app_nil_r. reflexivity.
  - cbn [Encode].
    rewrite !decodeFrom_alphabet by (apply sextet_range; lia).
    cbn [app List.length Nat.eqb].
    rewrite decodeFrom_pad2, quantumBytes2. reflexivity.
  - cbn [Encode].
    rewrite !decodeFrom_alphabet by (apply sextet_range; lia).
    cbn [app List.length Nat.eqb].
    rewrite decodeFrom_pad1, quantumBytes3. reflexivity.
  - cbn [Encode].
    assert (R : forall a, 0 <= Z.land a 63 < 64)
      by (intros a; rewrite land_63; apply Z.mod_pos_bound; lia).
    rewrite !decodeFrom_alphabet by (try apply sextet_range; try apply R; lia).
    cbn [app List.length Nat.eqb].
    rewrite quantumBytes4, IH, <- app_assoc. reflexivity.
Qed.

Theorem DecodeString_EncodeToString X :
  DecodeString (EncodeToString X) = Decoded X.
Proof.
  unfold DecodeString, EncodeToString.
  rewrite list_byte_of_string_of_list_byte.
  apply decodeFrom_Encode.
Qed.

End Base64Facts.

(** ** Laws of the effect layer *)
Section ProcLaws.
Context {E A B : Type}.

Lemma bind_ret (a : A) (f : A -> Proc E B) : bind (ret a) f = f a.
Proof. unfold bind, ret; cbn. destruct (f a); reflexivity. Qed.

Lemma bind_call (ev : E) (a : A) (f : A -> Proc E B) :
  bind (call ev a) f = (ev :: fst (f a), snd (f a)).
Proof. reflexivity. Qed.

Lemma bind_stop (t : Termination) (f : A -> Proc E B) :
  bind (stop t) f = stop t.
Proof. reflexivity. Qed.

Lemma bind_Ret (m : Proc E A) (a : A) (f : A -> Proc E B) :
  snd m = Ret a -> bind m f = ((fst m ++ fst (f a))%list, snd (f a)).
Proof. intros H. unfold bind. rewrite H. reflexivity. Qed.

Lemma bind_Stop (m : Proc E A) (t : Termination) (f : A -> Proc E B) :
  snd m = Stop t -> bind m f = (fst m, Stop t).
Proof. intros H. unfold bind. rewrite H. reflexivity. Qed.

End ProcLaws.

Lemma calls_bind_call {E A B} (ev : E) (a : A) (f : A -> Calls.Calls E B) :
  Calls.bind (Calls.call ev a) f = (ev :: fst (f a), snd (f a)).
Proof. reflexivity. Qed.

Lemma bind_lift {E E' A B} (inj : E -> E') (m : Calls.Calls E A)
      (f : A -> Proc E' B) :
  bind (lift inj m) f = ((map inj (fst m) ++ fst (f (snd m)))%list, snd (f (snd m))).
Proof. reflexivity. Qed.

Lemma eqb_empty_false (s : string) : s <> "" -> (s =? "")%string = false.
Proof. intros H. apply String.eqb_neq. exact H. Qed.

Module GkeFacts.
Import Gke.

Section Resolver.
Variable w : World.
Variables clusterName location project userAgent : string.

Lemma lookup_decoded tokenSrc svc cluster caCert :
  NewService w tokenSrc = Ok svc ->
  ClustersGet w svc ("projects/" ++ project ++ "/locations/" ++ location
                     ++ "/clusters/" ++ clusterName) = Ok cluster ->
  Base64.DecodeString (ClusterCaCertificate cluster) = Base64.Decoded caCert ->
  buildKubeRestConf w clusterName location project userAgent tokenSrc
  = ([EvNewService tokenSrc;
      EvClustersGet ("projects/" ++ project ++ "/locations/" ++ location
                     ++ "/clusters/" ++ clusterName)],
     Ok {| Host := "https://" ++ Endpoint cluster;
           CAData := caCert;
           WrapTransport := tokenSrc;
           UserAgent := userAgent |}).
Proof.
  intros Hs Hc Hd. unfold buildKubeRestConf.
  rewrite calls_bind_call, Hs, calls_bind_call, Hc, Hd. reflexivity.
Qed.

Lemma lookup_corrupt tokenSrc svc cluster off :
  NewService w tokenSrc = Ok svc ->
  ClustersGet w svc ("projects/" ++ project ++ "/locations/" ++ location
                     ++ "/clusters/" ++ clusterName) = Ok cluster ->
  Base64.DecodeString (ClusterCaCertificate cluster) = Base64.CorruptInputError off ->
  buildKubeRestConf w clusterName location project userAgent tokenSrc
  = ([EvNewService tokenSrc;
      EvClustersGet ("projects/" ++ project ++ "/locations/" ++ location
                     ++ "/clusters/" ++ clusterName)],
     Err ("failed to base64 decode the cluster CA cert: "
          ++ Base64.CorruptInputError_Error off)).
Proof.
  intros Hs Hc Hd. unfold buildKubeRestConf.
  rewrite calls_bind_call, Hs, calls_bind_call, Hc, Hd. reflexivity.
Qed.

Lemma entry_point_lookup svcAcctKeyFile tokenSrc :
  Conditions.acquired w svcAcctKeyFile tokenSrc ->
  snd (BuildKubeRestConfSACred w clusterName location project
                               svcAcctKeyFile userAgent)
  = snd (buildKubeRestConf w clusterName location project userAgent tokenSrc).
Proof.
  intros [[-> Hd] | [Hne [b [Hr Hc]]]]; unfold BuildKubeRestConfSACred.
  - cbn [String.eqb]. unfold BuildKubeRestConfDefaultCred.
    rewrite calls_bind_call, Hd. reflexivity.
  - rewrite (eqb_empty_false _ Hne).
    unfold GoogleCredTokenSourceFromSAKey.
    rewrite calls_bind_call, Hr, calls_bind_call, Hc. reflexivity.
Qed.

(** C6: when the management API answers with a CA certificate field that
    is the standard base64 encoding of the bytes [X], the resolver, with
    either credential strategy, succeeds; the configuration it returns has
    CA data [X] and host [https://] followed by the endpoint returned. *)
Theorem ca_certificate_round_trip
        (X : list byte) svcAcctKeyFile tokenSrc svc cluster :
  Conditions.acquired w svcAcctKeyFile tokenSrc ->
  NewService w tokenSrc = Ok svc ->
  ClustersGet w svc ("projects/" ++ project ++ "/locations/" ++ location
                     ++ "/clusters/" ++ clusterName) = Ok cluster ->
  ClusterCaCertificate cluster = Base64.EncodeToString X ->
  exists conf,
    snd (BuildKubeRestConfSACred w clusterName location project
                                 svcAcctKeyFile userAgent) = Ok conf
    /\ CAData conf = X
    /\ Host conf = "https://" ++ Endpoint cluster
    /\ Base64.DecodeString (Base64.EncodeToString X) = Base64.Decoded X.
Proof.
  intros Ha Hs Hc Hca.
  pose proof (Base64Facts.DecodeString_EncodeToString X) as Hrt.
  eexists. rewrite (entry_point_lookup _ _ Ha).
  erewrite lookup_decoded by (try eassumption; rewrite Hca; exact Hrt).
  cbn. repeat split. exact Hrt.
Qed.

(** C8: when the configured key file cannot be read, resolution fails
    with the error of the file read, and the read is the only call made:
    neither the management-API client is built nor a cluster looked up. *)
Theorem unreadable_key_file_fails_first svcAcctKeyFile err :
  svcAcctKeyFile <> "" ->
  ReadFile w svcAcctKeyFile = Err err ->
  BuildKubeRestConfSACred w clusterName location project svcAcctKeyFile userAgent
  = ([EvReadFile svcAcctKeyFile],
     Err ("failed to get token source from service account: "
          ++ "failed to read the SA key json file `" ++ svcAcctKeyFile
          ++ "': " ++ err))
  /\ GoogleCredTokenSourceFromSAKey w svcAcctKeyFile
     = ([EvReadFile svcAcctKeyFile],
        Err ("failed to read the SA key json file `" ++ svcAcctKeyFile
             ++ "': " ++ err))
  /\ existsb isNetworkCall
       (fst (BuildKubeRestConfSACred w clusterName location project
                                     svcAcctKeyFile userAgent)) = false.
Proof.
  intros Hne Hr.
  assert (G : GoogleCredTokenSourceFromSAKey w svcAcctKeyFile
              = ([EvReadFile svcAcctKeyFile],
                 Err ("failed to read the SA key json file `"
                      ++ svcAcctKeyFile ++ "': " ++ err))).
  { unfold GoogleCredTokenSourceFromSAKey. rewrite calls_bind_call, Hr. reflexivity. }
  assert (B : BuildKubeRestConfSACred w clusterName location project
                                      svcAcctKeyFile userAgent
              = ([EvReadFile svcAcctKeyFile],
                 Err ("failed to get token source from service account: "
                      ++ "failed to read the SA key json file `"
                      ++ svcAcctKeyFile ++ "': " ++ err))).
  { unfold BuildKubeRestConfSACred. rewrite (eqb_empty_false _ Hne), G.
    reflexivity. }
  rewrite B. split; [reflexivity | split; [exact G | reflexivity]].
Qed.

Lemma lookup_no_token_calls tokenSrc :
  Trace.count Trace.isDefaultTokenSource
    (fst (buildKubeRestConf w clusterName location project userAgent tokenSrc)) = 0
  /\ Trace.count Trace.isReadFile
       (fst (buildKubeRestConf w clusterName location project userAgent tokenSrc)) = 0.
Proof.
  unfold buildKubeRestConf. rewrite calls_bind_call.
  destruct (NewService w tokenSrc) as [svc | err]; [| split; reflexivity].
  rewrite calls_bind_call.
  destruct (ClustersGet w svc _) as [cluster | err]; [| split; reflexivity].
  destruct (Base64.DecodeString _); split; reflexivity.
Qed.

Lemma default_strategy_calls :
  hd_error (fst (BuildKubeRestConfDefaultCred w clusterName location project
                                              userAgent))
  = Some EvDefaultTokenSource
  /\ Trace.count Trace.isDefaultTokenSource
       (fst (BuildKubeRestConfDefaultCred w clusterName location project
                                          userAgent)) = 1
  /\ Trace.count Trace.isReadFile
       (fst (BuildKubeRestConfDefaultCred w clusterName location project
                                          userAgent)) = 0.
Proof.
  unfold BuildKubeRestConfDefaultCred. rewrite calls_bind_call.
  destruct (DefaultTokenSource w) as [ts | err]; [| repeat split].
  destruct (lookup_no_token_calls ts) as [Hd Hr].
  cbn [fst hd_error]. unfold Trace.count in *. cbn [filter Trace.isDefaultTokenSource
    Trace.isReadFile List.length]. rewrite Hd, Hr. repeat split.
Qed.

Lemma key_strategy_calls svcAcctKeyFile :
  svcAcctKeyFile <> "" ->
  hd_error (fst (BuildKubeRestConfSACred w clusterName location project
                                         svcAcctKeyFile userAgent))
  = Some (EvReadFile svcAcctKeyFile)
  /\ Trace.count Trace.isDefaultTokenSource
       (fst (BuildKubeRestConfSACred w clusterName location project
                                     svcAcctKeyFile userAgent)) = 0
  /\ Trace.count Trace.isReadFile
       (fst (BuildKubeRestConfSACred w clusterName location project
                                     svcAcctKeyFile userAgent)) = 1.
Proof.
  intros Hne. unfold BuildKubeRestConfSACred.
  rewrite (eqb_empty_false _ Hne). unfold GoogleCredTokenSourceFromSAKey.
  rewrite calls_bind_call.
  destruct (ReadFile w svcAcctKeyFile) as [b | err]; [| repeat split].
  rewrite calls_bind_call.
  destruct (CredentialsFromJSON w b) as [ts | err]; [| repeat split].
  destruct (lookup_no_token_calls ts) as [Hd Hr].
  unfold Calls.bind. cbn [fst snd hd_error app Calls.ret]. unfold Trace.count in *.
  cbn [filter Trace.isDefaultTokenSource Trace.isReadFile List.length].
  rewrite Hd, Hr. repeat split.
Qed.

Lemma strategy_calls svcAcctKeyFile :
  hd_error (fst (BuildKubeRestConfSACred w clusterName location project
                                         svcAcctKeyFile userAgent))
  = Some (if (svcAcctKeyFile =? "")%string
          then EvDefaultTokenSource else EvReadFile svcAcctKeyFile)
  /\ Trace.count Trace.isDefaultTokenSource
       (fst (BuildKubeRestConfSACred w clusterName location project
                                     svcAcctKeyFile userAgent))
     = (if (svcAcctKeyFile =? "")%string then 1 else 0)
  /\ Trace.count Trace.isReadFile
       (fst (BuildKubeRestConfSACred w clusterName location project
                                     svcAcctKeyFile userAgent))
     = (if (svcAcctKeyFile =? "")%string then 0 else 1).
Proof.
  destruct (String.eqb_spec svcAcctKeyFile "") as [-> | Hne].
  - change (BuildKubeRestConfSACred w clusterName location project "" userAgent)
      with (BuildKubeRestConfDefaultCred w clusterName location project userAgent).
    exact default_strategy_calls.
  - exact (key_strategy_calls _ Hne).
Qed.

(** A configuration that is returned carries the token source the lookup
    was given. *)
Lemma lookup_transport tokenSrc conf :
  snd (buildKubeRestConf w clusterName location project userAgent tokenSrc)
  = Ok conf ->
  WrapTransport conf = tokenSrc.
Proof.
  unfold buildKubeRestConf. rewrite calls_bind_call.
  destruct (NewService w tokenSrc) as [svc | err]; [| discriminate].
  rewrite calls_bind_call.
  destruct (ClustersGet w svc _) as [cluster | err]; [| discriminate].
  destruct (Base64.DecodeString _); [| discriminate].
  cbn. intros H. injection H as <-. reflexivity.
Qed.

(** C7: the entry point chooses the strategy by the key path, for every
    input.  With an empty path it is the default-credential resolver, call
    for call and result for result: the default token source is asked
    for, and the lookup is made with it.  With any other path the
    service-account strategy is run: the key file is read, its bytes are
    parsed, and the lookup is made with the token source they give; a
    failure of the read or of the parsing is returned, wrapped, and the
    other strategy is not tried.  A configuration that is returned carries
    the token source of the strategy chosen.  The strategy also shows in
    the first call made, and neither strategy makes the other's call. *)
Theorem entry_point_dispatch svcAcctKeyFile :
  BuildKubeRestConfSACred w clusterName location project "" userAgent
  = BuildKubeRestConfDefaultCred w clusterName location project userAgent
  /\ BuildKubeRestConfSACred w clusterName location project
                             svcAcctKeyFile userAgent
     = (if (svcAcctKeyFile =? "")%string then
          match DefaultTokenSource w with
          | Err err =>
              ([EvDefaultTokenSource],
               Err ("failed to create the google DefaultTokenSource: " ++ err))
          | Ok tokenSrc =>
              (EvDefaultTokenSource
                 :: fst (buildKubeRestConf w clusterName location project
                                           userAgent tokenSrc),
               snd (buildKubeRestConf w clusterName location project
                                      userAgent tokenSrc))
          end
        else
          match ReadFile w svcAcctKeyFile with
          | Err err =>
              ([EvReadFile svcAcctKeyFile],
               Err ("failed to get token source from service account: "
                    ++ "failed to read the SA key json file `"
                    ++ svcAcctKeyFile ++ "': " ++ err))
          | Ok b =>
              match CredentialsFromJSON w b with
              | Err err =>
                  ([EvReadFile svcAcctKeyFile; EvCredentialsFromJSON b],
                   Err ("failed to get token source from service account: "
                        ++ "failed to extract credentials from json: " ++ err))
              | Ok tokenSrc =>
                  (EvReadFile svcAcctKeyFile :: EvCredentialsFromJSON b
                     :: fst (buildKubeRestConf w clusterName location project
                                               userAgent tokenSrc),
                   snd (buildKubeRestConf w clusterName location project
                                          userAgent tokenSrc))
              end
          end)
  /\ (forall conf,
        snd (BuildKubeRestConfSACred w clusterName location project
                                     svcAcctKeyFile userAgent) = Ok conf ->
        Conditions.acquired w svcAcctKeyFile (WrapTransport conf))
  /\ hd_error (fst (BuildKubeRestConfSACred w clusterName location project
                                            svcAcctKeyFile userAgent))
     = Some (if (svcAcctKeyFile =? "")%string
             then EvDefaultTokenSource else EvReadFile svcAcctKeyFile)
  /\ Trace.count Trace.isDefaultTokenSource
       (fst (BuildKubeRestConfSACred w clusterName location project
                                     svcAcctKeyFile userAgent))
     = (if (svcAcctKeyFile =? "")%string then 1 else 0)
  /\ Trace.count Trace.isReadFile
       (fst (BuildKubeRestConfSACred w clusterName location project
                                     svcAcctKeyFile userAgent))
     = (if (svcAcctKeyFile =? "")%string then 0 else 1).
Proof.
  split; [reflexivity |].
  split; [| split; [| apply strategy_calls]].
  - unfold BuildKubeRestConfSACred.
    destruct (svcAcctKeyFile =? "")%string.
    + unfold BuildKubeRestConfDefaultCred. rewrite calls_bind_call.
      destruct (DefaultTokenSource w) as [tokenSrc | err]; reflexivity.
    + unfold GoogleCredTokenSourceFromSAKey. rewrite calls_bind_call.
      destruct (ReadFile w svcAcctKeyFile) as [b | err]; [| reflexivity].
      rewrite calls_bind_call.
      destruct (CredentialsFromJSON w b) as [tokenSrc | err]; reflexivity.
  - intros conf. unfold BuildKubeRestConfSACred.
    destruct (String.eqb_spec svcAcctKeyFile "") as [-> | Hne].
    + unfold BuildKubeRestConfDefaultCred. rewrite calls_bind_call.
      destruct (DefaultTokenSource w) as [tokenSrc | err] eqn:Hd;
        [| discriminate].
      intros H. apply lookup_transport in H. subst tokenSrc.
      left. split; [reflexivity | exact Hd].
    + unfold GoogleCredTokenSourceFromSAKey. rewrite calls_bind_call.
      destruct (ReadFile w svcAcctKeyFile) as [b | err] eqn:Hr; [| discriminate].
      rewrite calls_bind_call.
      destruct (CredentialsFromJSON w b) as [tokenSrc | err] eqn:Hc;
        [| discriminate].
      intros H. apply lookup_transport in H. subst tokenSrc.
      right. split; [exact Hne |]. exists b. split; assumption.
Qed.

End Resolver.
End GkeFacts.

Module TraceFacts.
Import Trace.

Lemma count_app {E} (p : E -> bool) (a b : list E) :
  count p (a ++ b)%list = count p a + count p b.
Proof. unfold count. rewrite filter_app, length_app. reflexivity. Qed.

Lemma attempts_app a b : attempts (a ++ b)%list = (attempts a ++ attempts b)%list.
Proof. apply flat_map_app. Qed.

Lemma credCalls_app a b : credCalls (a ++ b)%list = (credCalls a ++ credCalls b)%list.
Proof. apply flat_map_app. Qed.

Lemma failuresLogged_app a b :
  failuresLogged (a ++ b)%list = failuresLogged a + failuresLogged b.
Proof. apply count_app. Qed.

Lemma failuresLogged_cons ev l :
  failuresLogged (ev :: l)
  = match ev with EvLogErrorf _ => 1 | _ => 0 end + failuresLogged l.
Proof. destruct ev; reflexivity. Qed.

Lemma attempts_cred (l : list CredEvent) : attempts (map EvCred l) = [].
Proof. induction l; [reflexivity | exact IHl]. Qed.

Lemma failuresLogged_cred (l : list CredEvent) : failuresLogged (map EvCred l) = 0.
Proof. induction l; [reflexivity | exact IHl]. Qed.

Lemma credCalls_cred (l : list CredEvent) : credCalls (map EvCred l) = l.
Proof. induction l as [| c l IH]; [reflexivity | cbn; f_equal; exact IH]. Qed.

Lemma count_isKubeConfig_cred (l : list CredEvent) :
  count isKubeConfig (map EvCred l) = 0.
Proof. induction l; [reflexivity | exact IHl]. Qed.

End TraceFacts.

Module MainFacts.
Import Main Trace TraceFacts.

Section Program.
Variable e : Env.
Variable fl : Flags.

(** The calls of [buildAddonsRuntime] are the constructors' only. *)
Lemma buildAddonsRuntime_calls i kubeC mainFile :
  attempts (fst (buildAddonsRuntime e fl i kubeC mainFile)) = []
  /\ failuresLogged (fst (buildAddonsRuntime e fl i kubeC mainFile)) = 0
  /\ credCalls (fst (buildAddonsRuntime e fl i kubeC mainFile)) = []
  /\ count isKubeConfig (fst (buildAddonsRuntime e fl i kubeC mainFile)) = 0.
Proof.
  unfold buildAddonsRuntime. rewrite bind_call.
  destruct (vaultapi_NewClient e i) as [vaultC | err]; [| repeat split].
  rewrite bind_call.
  destruct (kubernetes_NewForConfig e i kubeC) as [cs | err]; [| repeat split].
  unfold MustCompile.
  destruct (regexp_Compile e (addonRegex fl)) as [re | err]; [| repeat split].
  rewrite bind_ret, bind_call.
  destruct (runtime_New e (S i) _ _) as [addons | err]; repeat split.
Qed.

Lemma visitCluster_runs cmd mainFile i v s kubeC addons :
  snd (KubeConfig v) = Ok kubeC ->
  snd (buildAddonsRuntime e fl i kubeC mainFile) = Ret (Ok addons) ->
  Load addons = None ->
  visitCluster e fl cmd mainFile i v s
  = ((EvKubeConfig (vendorString v) :: map EvCred (fst (KubeConfig v)))
       ++ fst (buildAddonsRuntime e fl i kubeC mainFile)
       ++ [EvAddonsLoad (vendorString v); EvAddonsRun (vendorString v) cmd]
       ++ match Run addons cmd (AddonSkyCtx v) with
          | Some err => [EvLogErrorf ("addons run failed: " ++ err)]
          | None => []
          end,
     Ret (failed (Run addons cmd (AddonSkyCtx v)) || s))%list.
Proof.
  intros Hk Hb Hl. unfold visitCluster.
  rewrite bind_call.
  rewrite bind_lift, Hk. cbn [fst snd].
  rewrite (bind_Ret _ (Ok addons)) by exact Hb.
  rewrite bind_call, Hl, bind_call.
  destruct (Run addons cmd (AddonSkyCtx v)) as [err |]; cbn; reflexivity.
Qed.

Lemma visitCluster_credential_failure cmd mainFile i v s err :
  snd (KubeConfig v) = Err err ->
  visitCluster e fl cmd mainFile i v s
  = (EvKubeConfig (vendorString v) :: map EvCred (fst (KubeConfig v)),
     Stop (LogExitf ("Failed to build kube rest config for k8s vendor "
                     ++ vendorString v ++ ": " ++ err))).
Proof.
  intros Hk. unfold visitCluster.
  rewrite bind_call.
  rewrite bind_lift, Hk. cbn. rewrite app_nil_r. reflexivity.
Qed.

Lemma forEach_stops {S} (fn : nat -> KubernetesVendor -> S -> Proc Event S)
      i v rest s t :
  snd (fn i v s) = Stop t ->
  forEach fn i (v :: rest) s = (fst (fn i v s), Stop t).
Proof. intros H. cbn [forEach]. apply bind_Stop, H. Qed.

Lemma forEach_continues {S} (fn : nat -> KubernetesVendor -> S -> Proc Event S)
      i v rest s s' :
  snd (fn i v s) = Ret s' ->
  forEach fn i (v :: rest) s
  = ((fst (fn i v s) ++ fst (forEach fn (Datatypes.S i) rest s'))%list,
     snd (forEach fn (Datatypes.S i) rest s')).
Proof. intros H. cbn [forEach]. apply bind_Ret, H. Qed.

Lemma forEach_all_attempted cmd mainFile vs : forall i outs s,
  List.length outs = List.length vs ->
  Conditions.allSetUp e fl cmd mainFile i vs outs ->
  snd (forEach (visitCluster e fl cmd mainFile) i vs s)
  = Ret (existsb failed outs || s)
  /\ attempts (fst (forEach (visitCluster e fl cmd mainFile) i vs s))
     = map (fun v => (vendorString v, cmd)) vs
  /\ failuresLogged (fst (forEach (visitCluster e fl cmd mainFile) i vs s))
     = List.length (filter failed outs).
Proof.
  induction vs as [| v vs IH]; intros i outs s Hlen Hall.
  - destruct outs; [| discriminate]. repeat split.
  - destruct outs as [| o outs]; [discriminate |].
    destruct (Hall 0 v eq_refl) as [kubeC [addons [Hk [Hb [Hl Ho]]]]].
    rewrite Nat.add_0_r in Hb. cbn in Ho. injection Ho as Ho.
    pose proof (visitCluster_runs cmd mainFile i v s kubeC addons Hk Hb Hl) as Hv.
    rewrite <- Ho in Hv.
    assert (Hall' : Conditions.allSetUp e fl cmd mainFile (S i) vs outs).
    { intros j v' Hj. specialize (Hall (S j) v' Hj).
      rewrite Nat.add_succ_r in Hall. exact Hall. }
    injection Hlen as Hlen.
    destruct (IH (S i) outs (failed o || s) Hlen Hall') as [I1 [I2 I3]].
    rewrite (forEach_continues _ i v vs s (failed o || s)) by (rewrite Hv; reflexivity).
    cbn [fst snd]. rewrite I1, attempts_app, failuresLogged_app, I2, I3, Hv.
    cbn [fst].
    destruct (buildAddonsRuntime_calls i kubeC mainFile) as [B1 [B2 _]].
    change (EvKubeConfig (vendorString v) :: map EvCred (fst (KubeConfig v)))
      with ([EvKubeConfig (vendorString v)] ++ map EvCred (fst (KubeConfig v)))%list.
    rewrite !attempts_app, !failuresLogged_app, attempts_cred, failuresLogged_cred, B1, B2.
    cbn [existsb map filter].
    split; [| split].
    + rewrite orb_assoc, (orb_comm (failed o)). reflexivity.
    + destruct o; reflexivity.
    + destruct o; reflexivity.
Qed.

Lemma buildClustersRuntime_calls mainFile :
  fst (buildClustersRuntime e fl mainFile) = [EvRuntimeNew mainFile].
Proof.
  unfold buildClustersRuntime. rewrite bind_call.
  destruct (runtime_New e 0 _ _); reflexivity.
Qed.

Lemma ForEachCluster_unfold {S} clusters ctxParams
      (fn : nat -> KubernetesVendor -> S -> Proc Event S) s :
  ForEachCluster clusters ctxParams fn s
  = (EvForEachCluster :: fst (forEach fn 0 (fst (Clusters clusters ctxParams)) s),
     match snd (forEach fn 0 (fst (Clusters clusters ctxParams)) s) with
     | Ret s' => Ret (s', snd (Clusters clusters ctxParams))
     | Stop t => Stop t
     end).
Proof.
  unfold ForEachCluster. rewrite bind_call. unfold bind.
  destruct (snd (forEach fn 0 _ s)); cbn; [rewrite app_nil_r |]; reflexivity.
Qed.

(** A run that reaches the per-cluster phase. *)
Lemma main_per_cluster_phase (cmd path : string) rest ctxParams clusters :
  showVersion fl = false ->
  cmd <> TestCommand ->
  path <> "" ->
  ParseCommaSeparatedParams e (isopodCtx fl) = Ok ctxParams ->
  snd (buildClustersRuntime e fl path) = Ret clusters ->
  Load clusters = None ->
  main e fl (cmd :: path :: rest)
  = ([EvParseParams (isopodCtx fl); EvRuntimeNew path; EvLoad path; EvForEachCluster]
       ++ fst (forEach (visitCluster e fl cmd path) 0
                       (fst (Clusters clusters ctxParams)) false),
     match snd (forEach (visitCluster e fl cmd path) 0
                        (fst (Clusters clusters ctxParams)) false) with
     | Ret errorReturned =>
         match snd (Clusters clusters ctxParams) with
         | Some err =>
             Stop (LogExitf ("Failed to iterate through clusters: " ++ err))
         | None => if errorReturned then Stop (OsExit 2) else Ret tt
         end
     | Stop t => Stop t
     end)%list.
Proof.
  intros Hv Hc Hp Hparse Hnew Hload. unfold main. rewrite Hv.
  cbn [getCmdAndPath]. rewrite bind_ret. cbn [fst snd].
  apply String.eqb_neq in Hc. rewrite Hc.
  rewrite (eqb_empty_false _ Hp).
  rewrite bind_call, Hparse.
  rewrite (bind_Ret _ clusters) by exact Hnew.
  rewrite buildClustersRuntime_calls.
  rewrite bind_call, Hload, ForEachCluster_unfold.
  unfold bind. cbn [fst snd].
  destruct (snd (forEach _ 0 _ false)) as [b |t]; [| reflexivity].
  cbn [fst snd].
  destruct (snd (Clusters clusters ctxParams)); [| destruct b];
    cbn [fst snd stop ret app]; rewrite ?app_nil_r; reflexivity.
Qed.

Lemma buildAddonsRuntime_stop i kubeC mainFile t :
  snd (buildAddonsRuntime e fl i kubeC mainFile) = Stop t ->
  exists err,
    regexp_Compile e (addonRegex fl) = Err err
    /\ t = Panicked ("regexp: Compile(" ++ regexp_quote e (addonRegex fl)
                     ++ "): " ++ err).
Proof.
  unfold buildAddonsRuntime. rewrite bind_call.
  destruct (vaultapi_NewClient e i) as [vaultC | verr]; [| discriminate].
  rewrite bind_call.
  destruct (kubernetes_NewForConfig e i kubeC) as [cs | kerr]; [| discriminate].
  unfold MustCompile.
  destruct (regexp_Compile e (addonRegex fl)) as [re | err].
  - rewrite bind_ret, bind_call.
    destruct (runtime_New e (S i) _ _); discriminate.
  - rewrite bind_stop. cbn. intros H. injection H as <-.
    exists err. split; reflexivity.
Qed.

Lemma visitCluster_outcome cmd mainFile i v s :
  match snd (visitCluster e fl cmd mainFile i v s) with
  | Ret b =>
      b = ((0 <? failuresLogged (fst (visitCluster e fl cmd mainFile i v s)))%nat
           || s)
  | Stop t => Conditions.loopStop e fl t
  end.
Proof.
  destruct (snd (KubeConfig v)) as [kubeC | err] eqn:Hk.
  2: { rewrite (visitCluster_credential_failure cmd mainFile i v s err Hk).
       exact I. }
  destruct (snd (buildAddonsRuntime e fl i kubeC mainFile))
    as [[addons | err] | t] eqn:Hb.
  - destruct (Load addons) as [err |] eqn:Hl.
    + unfold visitCluster. rewrite bind_call, bind_lift, Hk.
      rewrite (bind_Ret _ (Ok addons)) by exact Hb.
      rewrite bind_call, Hl. exact I.
    + rewrite (visitCluster_runs cmd mainFile i v s kubeC addons Hk Hb Hl).
      cbn [fst snd].
      destruct (buildAddonsRuntime_calls i kubeC mainFile) as [_ [Hlog _]].
      rewrite failuresLogged_app, failuresLogged_cons, failuresLogged_cred.
      rewrite failuresLogged_app, Hlog.
      destruct (Run addons cmd (AddonSkyCtx v)); reflexivity.
  - unfold visitCluster. rewrite bind_call, bind_lift, Hk.
    rewrite (bind_Ret _ (Err err)) by exact Hb. exact I.
  - unfold visitCluster. rewrite bind_call, bind_lift, Hk.
    rewrite (bind_Stop _ t) by exact Hb. cbn [fst snd].
    destruct (buildAddonsRuntime_stop i kubeC mainFile t Hb) as [err [Hc ->]].
    cbn. rewrite Hc. reflexivity.
Qed.

Lemma forEach_outcome cmd mainFile vs : forall i s,
  match snd (forEach (visitCluster e fl cmd mainFile) i vs s) with
  | Ret b =>
      b = ((0 <? failuresLogged
                   (fst (forEach (visitCluster e fl cmd mainFile) i vs s)))%nat
           || s)
  | Stop t => Conditions.loopStop e fl t
  end.
Proof.
  induction vs as [| v vs IH]; intros i s; [reflexivity |].
  pose proof (visitCluster_outcome cmd mainFile i v s) as Hv.
  destruct (snd (visitCluster e fl cmd mainFile i v s)) as [b | t] eqn:Ev.
  - rewrite (forEach_continues _ i v vs s b Ev). cbn [fst snd].
    specialize (IH (S i) b).
    destruct (snd (forEach (visitCluster e fl cmd mainFile) (S i) vs b)) as [b' | t];
      [| exact IH].
    rewrite failuresLogged_app. subst b b'.
    destruct (failuresLogged (fst (visitCluster e fl cmd mainFile i v s)));
      destruct (failuresLogged
                  (fst (forEach (visitCluster e fl cmd mainFile) (S i) vs _)));
      cbn; rewrite ?orb_true_r; reflexivity.
  - rewrite (forEach_stops _ i v vs s t Ev). exact Hv.
Qed.

(** The test command: what [main] does when the first argument is [test]
    and [--version] is not given. *)
Lemma main_test rest :
  showVersion fl = false ->
  main e fl (TestCommand :: rest)
  = ([EvRunUnitTests (hd "" rest)],
     match snd (RunUnitTests e (hd "" rest)) with
     | Some err => Stop (LogExitf ("Failed to run tests: " ++ err))
     | None => if fst (RunUnitTests e (hd "" rest)) then Ret tt
               else Stop (OsExit 1)
     end).
Proof.
  intros Hv. unfold main. rewrite Hv.
  destruct rest as [| path rest]; cbn [getCmdAndPath hd];
    rewrite ?String.eqb_refl, bind_ret; cbn [fst snd];
    rewrite String.eqb_refl, bind_call;
    destruct (RunUnitTests e _) as [[|] [err |]]; reflexivity.
Qed.

Lemma visitCluster_construction_failure cmd mainFile i v s kubeC err :
  snd (KubeConfig v) = Ok kubeC ->
  snd (buildAddonsRuntime e fl i kubeC mainFile) = Ret (Err err) ->
  visitCluster e fl cmd mainFile i v s
  = ((EvKubeConfig (vendorString v) :: map EvCred (fst (KubeConfig v)))
       ++ fst (buildAddonsRuntime e fl i kubeC mainFile),
     Stop (LogExitf ("Failed to initialize runtime: " ++ err)))%list.
Proof.
  intros Hk Hb. unfold visitCluster. rewrite bind_call, bind_lift, Hk.
  rewrite (bind_Ret _ (Err err)) by exact Hb. cbn [fst snd stop].
  rewrite app_nil_r. reflexivity.
Qed.

Lemma visitCluster_construction_stop cmd mainFile i v s kubeC t :
  snd (KubeConfig v) = Ok kubeC ->
  snd (buildAddonsRuntime e fl i kubeC mainFile) = Stop t ->
  visitCluster e fl cmd mainFile i v s
  = ((EvKubeConfig (vendorString v) :: map EvCred (fst (KubeConfig v)))
       ++ fst (buildAddonsRuntime e fl i kubeC mainFile),
     Stop t)%list.
Proof.
  intros Hk Hb. unfold visitCluster. rewrite bind_call, bind_lift, Hk.
  rewrite (bind_Stop _ t) by exact Hb. reflexivity.
Qed.

Lemma visitCluster_load_failure cmd mainFile i v s kubeC addons err :
  snd (KubeConfig v) = Ok kubeC ->
  snd (buildAddonsRuntime e fl i kubeC mainFile) = Ret (Ok addons) ->
  Load addons = Some err ->
  visitCluster e fl cmd mainFile i v s
  = ((EvKubeConfig (vendorString v) :: map EvCred (fst (KubeConfig v)))
       ++ fst (buildAddonsRuntime e fl i kubeC mainFile)
       ++ [EvAddonsLoad (vendorString v)],
     Stop (LogExitf ("Failed to load addons runtime: " ++ err)))%list.
Proof.
  intros Hk Hb Hl. unfold visitCluster. rewrite bind_call, bind_lift, Hk.
  rewrite (bind_Ret _ (Ok addons)) by exact Hb.
  rewrite bind_call, Hl. reflexivity.
Qed.

(** The credential calls of a visit are those of the vendor's
    [KubeConfig], and [KubeConfig] is called once. *)
Lemma visitCluster_calls cmd mainFile i v s :
  credCalls (fst (visitCluster e fl cmd mainFile i v s)) = fst (KubeConfig v)
  /\ count isKubeConfig (fst (visitCluster e fl cmd mainFile i v s)) = 1.
Proof.
  assert (Head : forall l,
    credCalls ((EvKubeConfig (vendorString v) :: map EvCred (fst (KubeConfig v)))
                 ++ l) = (fst (KubeConfig v) ++ credCalls l)%list
    /\ count isKubeConfig
         ((EvKubeConfig (vendorString v) :: map EvCred (fst (KubeConfig v)))
            ++ l) = 1 + count isKubeConfig l).
  { intros l.
    change (EvKubeConfig (vendorString v) :: map EvCred (fst (KubeConfig v)))
      with ([EvKubeConfig (vendorString v)] ++ map EvCred (fst (KubeConfig v)))%list.
    rewrite !credCalls_app, !count_app, credCalls_cred, count_isKubeConfig_cred.
    split; reflexivity. }
  destruct (snd (KubeConfig v)) as [kubeC | err] eqn:Hk.
  2: { rewrite (visitCluster_credential_failure cmd mainFile i v s err Hk).
       cbn [fst]. destruct (Head []) as [H1 H2].
       rewrite app_nil_r in H1, H2. rewrite H1, H2, app_nil_r.
       split; reflexivity. }
  destruct (buildAddonsRuntime_calls i kubeC mainFile) as [_ [_ [Hc Hn]]].
  destruct (snd (buildAddonsRuntime e fl i kubeC mainFile))
    as [[addons | err] | t] eqn:Hb.
  - destruct (Load addons) as [err |] eqn:Hl.
    + rewrite (visitCluster_load_failure cmd mainFile i v s kubeC addons err Hk Hb Hl).
      cbn [fst]. destruct (Head (fst (buildAddonsRuntime e fl i kubeC mainFile)
                                  ++ [EvAddonsLoad (vendorString v)])%list)
        as [-> ->].
      rewrite credCalls_app, count_app, Hc, Hn. cbn. rewrite app_nil_r.
      split; reflexivity.
    + rewrite (visitCluster_runs cmd mainFile i v s kubeC addons Hk Hb Hl).
      cbn [fst].
      destruct (Head (fst (buildAddonsRuntime e fl i kubeC mainFile)
                        ++ [EvAddonsLoad (vendorString v);
                            EvAddonsRun (vendorString v) cmd]
                        ++ match Run addons cmd (AddonSkyCtx v) with
                           | Some err => [EvLogErrorf ("addons run failed: " ++ err)]
                           | None => []
                           end)%list) as [-> ->].
      rewrite credCalls_app, count_app, Hc, Hn.
      destruct (Run addons cmd (AddonSkyCtx v)); cbn; rewrite app_nil_r;
        split; reflexivity.
  - rewrite (visitCluster_construction_failure cmd mainFile i v s kubeC err Hk Hb).
    cbn [fst]. destruct (Head (fst (buildAddonsRuntime e fl i kubeC mainFile)))
      as [-> ->].
    rewrite Hc, Hn, app_nil_r. split; reflexivity.
  - rewrite (visitCluster_construction_stop cmd mainFile i v s kubeC t Hk Hb).
    cbn [fst]. destruct (Head (fst (buildAddonsRuntime e fl i kubeC mainFile)))
      as [-> ->].
    rewrite Hc, Hn, app_nil_r. split; reflexivity.
Qed.

(** Over GKE clusters resolved with one key path, the loop asks for one
    token source per [KubeConfig] call: the default one when the path is
    empty, the key file's otherwise. *)
Lemma forEach_token_sources cmd mainFile sa vs : forall i s,
  Forall (Conditions.gkeVendor sa) vs ->
  count Trace.isDefaultTokenSource
        (credCalls (fst (forEach (visitCluster e fl cmd mainFile) i vs s)))
  = (if (sa =? "")%string
     then count isKubeConfig (fst (forEach (visitCluster e fl cmd mainFile) i vs s))
     else 0)
  /\ count Trace.isReadFile
          (credCalls (fst (forEach (visitCluster e fl cmd mainFile) i vs s)))
     = (if (sa =? "")%string
        then 0
        else count isKubeConfig
                   (fst (forEach (visitCluster e fl cmd mainFile) i vs s))).
Proof.
  induction vs as [| v vs IH]; intros i s Hall.
  - destruct (sa =? "")%string; split; reflexivity.
  - inversion Hall as [| v' vs' [w [cn [loc [prj [ua Hv]]]]] Hrest]; subst v' vs'.
    destruct (visitCluster_calls cmd mainFile i v s) as [Hc Hk].
    assert (Hone :
      count Trace.isDefaultTokenSource (fst (KubeConfig v))
      = (if (sa =? "")%string then 1 else 0)
      /\ count Trace.isReadFile (fst (KubeConfig v))
         = (if (sa =? "")%string then 0 else 1)).
    { rewrite Hv.
      destruct (GkeFacts.strategy_calls w cn loc prj ua sa) as [_ [H1 H2]].
      split; assumption. }
    destruct Hone as [Hd Hr].
    destruct (snd (visitCluster e fl cmd mainFile i v s)) as [b | t] eqn:Ev.
    + rewrite (forEach_continues _ i v vs s b Ev). cbn [fst].
      destruct (IH (S i) b Hrest) as [I1 I2].
      rewrite !credCalls_app, !count_app, Hc, Hk, Hd, Hr, I1, I2.
      destruct (sa =? "")%string; split; reflexivity.
    + rewrite (forEach_stops _ i v vs s t Ev). cbn [fst].
      rewrite Hc, Hk, Hd, Hr.
      destruct (sa =? "")%string; split; reflexivity.
Qed.

(** Where [main] makes credential calls: in the loop over the clusters
    only. *)
Lemma main_credential_calls args :
  (credCalls (fst (main e fl args)) = []
   /\ count isKubeConfig (fst (main e fl args)) = 0)
  \/ exists (cmd path : string) ctxParams clusters,
       snd (buildClustersRuntime e fl path) = Ret clusters
       /\ credCalls (fst (main e fl args))
          = credCalls (fst (forEach (visitCluster e fl cmd path) 0
                                    (fst (Clusters clusters ctxParams)) false))
       /\ count isKubeConfig (fst (main e fl args))
          = count isKubeConfig
                  (fst (forEach (visitCluster e fl cmd path) 0
                                (fst (Clusters clusters ctxParams)) false)).
Proof.
  destruct (showVersion fl) eqn:Hv.
  { left. unfold main. rewrite Hv. split; reflexivity. }
  assert (Htest : forall rest,
    credCalls (fst (main e fl (TestCommand :: rest))) = []
    /\ count isKubeConfig (fst (main e fl (TestCommand :: rest))) = 0).
  { intros rest. rewrite (main_test rest Hv). split; reflexivity. }
  destruct args as [| cmd [| path rest]].
  - left. unfold main. rewrite Hv. split; reflexivity.
  - destruct (String.eqb_spec cmd TestCommand) as [-> | Hc]; [left; apply Htest |].
    left. unfold main. rewrite Hv. cbn [getCmdAndPath].
    apply String.eqb_neq in Hc. rewrite Hc. split; reflexivity.
  - destruct (String.eqb_spec cmd TestCommand) as [-> | Hc]; [left; apply Htest |].
    pose proof Hc as Hc'. apply String.eqb_neq in Hc'.
    destruct (String.eqb_spec path "") as [-> | Hp].
    { left. unfold main. rewrite Hv. cbn [getCmdAndPath]. rewrite bind_ret.
      cbn [fst snd]. rewrite Hc'. split; reflexivity. }
    destruct (ParseCommaSeparatedParams e (isopodCtx fl)) as [ctxParams | err]
      eqn:Hparse.
    2: { left. unfold main. rewrite Hv. cbn [getCmdAndPath]. rewrite bind_ret.
         cbn [fst snd]. rewrite Hc', (eqb_empty_false _ Hp), bind_call, Hparse.
         split; reflexivity. }
    destruct (snd (buildClustersRuntime e fl path)) as [clusters | t] eqn:Hnew.
    2: { left. unfold main. rewrite Hv. cbn [getCmdAndPath]. rewrite bind_ret.
         cbn [fst snd]. rewrite Hc', (eqb_empty_false _ Hp), bind_call, Hparse.
         rewrite (bind_Stop _ t) by exact Hnew. cbn [fst].
         rewrite buildClustersRuntime_calls. split; reflexivity. }
    destruct (Load clusters) as [err |] eqn:Hload.
    { left. unfold main. rewrite Hv. cbn [getCmdAndPath]. rewrite bind_ret.
      cbn [fst snd]. rewrite Hc', (eqb_empty_false _ Hp), bind_call, Hparse.
      rewrite (bind_Ret _ clusters) by exact Hnew.
      rewrite buildClustersRuntime_calls, bind_call, Hload. split; reflexivity. }
    right. exists cmd, path, ctxParams, clusters.
    rewrite (main_per_cluster_phase cmd path rest ctxParams clusters) by assumption.
    cbn [fst]. rewrite credCalls_app, count_app.
    split; [exact Hnew | split; reflexivity].
Qed.

(** C3, as amended: in a run over GKE clusters the default token source
    is asked for once in every [KubeConfig] call when no key path is
    configured, once per cluster visited and not once per process, and is
    never asked for when a key path is configured; the key file is read
    once in every call in the second case and never in the first. *)
Theorem token_source_per_resolution args sa :
  Conditions.gkeClusters e sa ->
  count Trace.isDefaultTokenSource (credCalls (fst (main e fl args)))
  = (if (sa =? "")%string then count isKubeConfig (fst (main e fl args)) else 0)
  /\ count Trace.isReadFile (credCalls (fst (main e fl args)))
     = (if (sa =? "")%string then 0 else count isKubeConfig (fst (main e fl args))).
Proof.
  intros Hgke.
  destruct (main_credential_calls args)
    as [[Hc Hk] | [cmd [path [ctxParams [clusters [Hnew [Hc Hk]]]]]]].
  - rewrite Hc, Hk. destruct (sa =? "")%string; split; reflexivity.
  - rewrite Hc, Hk. apply forEach_token_sources.
    apply Forall_forall. intros v Hin.
    revert Hnew. unfold buildClustersRuntime. rewrite bind_call.
    destruct (runtime_New e 0 _ _) as [rt | err] eqn:Hrt; [| discriminate].
    cbn. intros H. injection H as <-.
    exact (Hgke _ _ _ _ _ _ Hrt Hin).
Qed.

(** C5, as amended: when the management API answers with a CA
    certificate field that base64 rejects, a GKE cluster's [KubeConfig]
    returns the decode error, whose text no cluster-lookup error has, and
    no configuration; in [main]'s loop that error ends the whole process
    through [log.Exitf] at this cluster, so the clusters yielded after it
    are not visited at all. *)
Theorem corrupt_certificate_is_fatal
        v w clusterName location project sa ua tokenSrc svc cluster off
        (cmd mainFile : string) i rest s :
  KubeConfig v
  = Gke.BuildKubeRestConfSACred w clusterName location project sa ua ->
  Conditions.acquired w sa tokenSrc ->
  Gke.NewService w tokenSrc = Ok svc ->
  Gke.ClustersGet w svc
    ("projects/" ++ project ++ "/locations/" ++ location
     ++ "/clusters/" ++ clusterName) = Ok cluster ->
  Base64.DecodeString (Gke.ClusterCaCertificate cluster)
  = Base64.CorruptInputError off ->
  snd (KubeConfig v)
  = Err ("failed to base64 decode the cluster CA cert: "
         ++ Base64.CorruptInputError_Error off)
  /\ (forall err,
        "failed to base64 decode the cluster CA cert: "
        ++ Base64.CorruptInputError_Error off
        <> "failed to retrieve cluster info: " ++ err)
  /\ forEach (visitCluster e fl cmd mainFile) i (v :: rest) s
     = (EvKubeConfig (vendorString v) :: map EvCred (fst (KubeConfig v)),
        Stop (LogExitf
                ("Failed to build kube rest config for k8s vendor "
                 ++ vendorString v ++ ": "
                 ++ "failed to base64 decode the cluster CA cert: "
                 ++ Base64.CorruptInputError_Error off))).
Proof.
  intros Hv Ha Hs Hc Hd.
  assert (Hk : snd (KubeConfig v)
               = Err ("failed to base64 decode the cluster CA cert: "
                      ++ Base64.CorruptInputError_Error off)).
  { rewrite Hv.
    rewrite (GkeFacts.entry_point_lookup w _ _ _ ua sa tokenSrc Ha).
    rewrite (GkeFacts.lookup_corrupt w _ _ _ ua tokenSrc svc cluster off Hs Hc Hd).
    reflexivity. }
  split; [exact Hk |]. split.
  - intros err H. cbn in H. discriminate H.
  - pose proof (visitCluster_credential_failure cmd mainFile i v s _ Hk) as Hf.
    rewrite (forEach_stops _ i _ rest s _ (f_equal snd Hf)).
    rewrite Hf. reflexivity.
Qed.

End Program.

(** C9: when neither the flag nor the environment gives a vault token,
    package initialisation ends the process with [log.Fatalf]: no call is
    made, and neither the arguments nor [--version] are looked at.  A
    process that gets past initialisation has a vault token that is not
    empty. *)
Theorem vault_token_required (e : Env) VAULT_TOKEN cl :
  given_vault_token cl = None \/ given_vault_token cl = Some "" ->
  VAULT_TOKEN = "" ->
  init VAULT_TOKEN (Parsed cl)
  = ([], Stop (LogFatalf "--vault_token or $VAULT_TOKEN must be set"))
  /\ process e VAULT_TOKEN (Parsed cl)
     = ([], Stop (LogFatalf "--vault_token or $VAULT_TOKEN must be set"))
  /\ exitStatus (snd (process e VAULT_TOKEN (Parsed cl))) <> 0%Z
  /\ (forall VT p st, snd (init VT p) = Ret st -> vaultToken (fst st) <> "").
Proof.
  intros Hflag ->.
  assert (Hi : init "" (Parsed cl)
               = ([], Stop (LogFatalf "--vault_token or $VAULT_TOKEN must be set"))).
  { unfold init, setFlags. cbn [vaultToken flagDefaults].
    destruct Hflag as [-> | ->]; reflexivity. }
  assert (Hp : process e "" (Parsed cl)
               = ([], Stop (LogFatalf "--vault_token or $VAULT_TOKEN must be set"))).
  { unfold process. rewrite Hi. reflexivity. }
  rewrite Hi, Hp.
  split; [reflexivity |]. split; [reflexivity |]. split; [discriminate |].
  intros VT p st. unfold init.
  destruct p as [code | cl']; [discriminate |].
  destruct (String.eqb_spec
              (vaultToken (setFlags (flagDefaults VT) cl')) "") as [Heq | Hne];
    [discriminate |].
  cbn. intros H. injection H as <-. exact Hne.
Qed.

End MainFacts.

(** ** The statements at sample runs *)
Module Runs.
Import Main Examples.

(** C3 fails on two clusters: the default token source is asked for
    twice in one run, and the two clusters' clients are built on the two
    token sources the environment handed out. *)
Lemma two_clusters_two_token_sources :
  Trace.count Trace.isDefaultTokenSource
    (Trace.credCalls (fst (main envAllGood flags ["install"; "main.ipd"]))) = 2
  /\ Trace.credCalls (fst (main envAllGood flags ["install"; "main.ipd"]))
     = [ EvDefaultTokenSource; EvNewService (MkTokenSource 0);
         EvClustersGet prodName;
         EvDefaultTokenSource; EvNewService (MkTokenSource 2);
         EvClustersGet canaryName ]
  /\ snd (main envAllGood flags ["install"; "main.ipd"]) = Ret tt.
Proof.
  vm_compute. repeat split.
Qed.

(** C3, as amended, at that run. *)
Lemma token_source_witness :
  Conditions.gkeClusters envAllGood ""
  /\ Trace.count Trace.isDefaultTokenSource
       (Trace.credCalls (fst (main envAllGood flags ["install"; "main.ipd"])))
     = Trace.count Trace.isKubeConfig
         (fst (main envAllGood flags ["install"; "main.ipd"])).
Proof.
  assert (H : Conditions.gkeClusters envAllGood "").
  { intros n conf opts clusters ctxParams v Hnew Hin.
    cbn in Hnew. injection Hnew as <-. cbn in Hin.
    destruct Hin as [<- | [<- | []]].
    - exists world, "prod", "us-central1", "acme", userAgent. reflexivity.
    - exists worldLater, "canary", "europe-west1", "acme", userAgent.
      reflexivity. }
  split; [exact H |].
  exact (proj1 (MainFacts.token_source_per_resolution
                  envAllGood flags ["install"; "main.ipd"] "" H)).
Defined.

(** C5 fails when a cluster follows the broken one: [staging] is yielded
    first, its certificate does not decode, and the process ends there;
    [prod], yielded second, is never resolved. *)
Lemma corrupt_certificate_aborts_remaining :
  fst (Clusters (runtimeOf [staging; prod] (fun _ => false)) [])
  = [staging; prod]
  /\ main envBrokenFirst flags ["install"; "main.ipd"]
     = ([ EvParseParams ""; EvRuntimeNew "main.ipd"; EvLoad "main.ipd";
          EvForEachCluster; EvKubeConfig "staging";
          EvCred EvDefaultTokenSource;
          EvCred (EvNewService (MkTokenSource 0));
          EvCred (EvClustersGet stagingName) ],
        Stop (LogExitf
                ("Failed to build kube rest config for k8s vendor staging: "
                 ++ "failed to base64 decode the cluster CA cert: "
                 ++ "illegal base64 data at input byte 3")))
  /\ Trace.count Trace.isKubeConfig
       (fst (main envBrokenFirst flags ["install"; "main.ipd"])) = 1
  /\ Trace.attempts (fst (main envBrokenFirst flags ["install"; "main.ipd"])) = [].
Proof.
  vm_compute. repeat split.
Qed.

(** C5, as amended, at [staging] followed by [prod]. *)
Lemma corrupt_certificate_witness :
  Base64.DecodeString "not*base64" = Base64.CorruptInputError 3
  /\ snd (forEach (visitCluster envBrokenFirst flags "install" "main.ipd")
                  0 [staging; prod] false)
     = Stop (LogExitf
               ("Failed to build kube rest config for k8s vendor staging: "
                ++ "failed to base64 decode the cluster CA cert: "
                ++ "illegal base64 data at input byte 3")).
Proof.
  split; [reflexivity |].
  destruct (MainFacts.corrupt_certificate_is_fatal
              envBrokenFirst flags staging world "staging" "us-central1" "acme"
              "" userAgent (MkTokenSource 0) (ContainerSvc (MkTokenSource 0))
              {| Gke.Endpoint := "10.0.0.2";
                 Gke.ClusterCaCertificate := "not*base64" |}
              3 "install" "main.ipd" 0 [prod] false) as [_ [_ A]].
  - reflexivity.
  - left. split; reflexivity.
  - reflexivity.
  - reflexivity.
  - reflexivity.
  - rewrite A. reflexivity.
Defined.

(** C6 at [prod], whose certificate field is the encoding of [pem]. *)
Lemma ca_certificate_witness :
  Gke.ClusterCaCertificate
    {| Gke.Endpoint := "10.0.0.1";
       Gke.ClusterCaCertificate := Base64.EncodeToString pem |}
  = "LS0tLS1CRUdJTiBDRVJUSUZJQ0FURS0tLS0t"
  /\ exists conf,
       snd (Gke.BuildKubeRestConfSACred world "prod" "us-central1" "acme" ""
                                        userAgent) = Ok conf
       /\ CAData conf = pem
       /\ Host conf = "https://10.0.0.1".
Proof.
  split; [reflexivity |].
  destruct (GkeFacts.ca_certificate_round_trip
              world "prod" "us-central1" "acme" userAgent pem ""
              (MkTokenSource 0) (ContainerSvc (MkTokenSource 0))
              {| Gke.Endpoint := "10.0.0.1";
                 Gke.ClusterCaCertificate := Base64.EncodeToString pem |})
    as [conf [A [B [C _]]]].
  - left. split; reflexivity.
  - reflexivity.
  - reflexivity.
  - reflexivity.
  - exists conf. split; [exact A |]. split; [exact B | exact C].
Defined.

(** C7 at the key file [/etc/sa.json]: the file is read, its bytes are
    parsed, and the lookup of [prod] is made with the token source they
    give, which the configuration carries. *)
Lemma entry_point_witness :
  Gke.BuildKubeRestConfSACred world "prod" "us-central1" "acme"
                              "/etc/sa.json" userAgent
  = ([ EvReadFile "/etc/sa.json";
       EvCredentialsFromJSON (list_byte_of_string "{}");
       EvNewService (MkTokenSource 1); EvClustersGet prodName ],
     Ok {| Host := "https://10.0.0.1"; CAData := pem;
           WrapTransport := MkTokenSource 1; UserAgent := userAgent |})
  /\ Conditions.acquired world "/etc/sa.json" (MkTokenSource 1).
Proof.
  destruct (GkeFacts.entry_point_dispatch
              world "prod" "us-central1" "acme" userAgent "/etc/sa.json")
    as [_ [A [B _]]].
  split.
  - rewrite A. reflexivity.
  - apply (B {| Host := "https://10.0.0.1"; CAData := pem;
                WrapTransport := MkTokenSource 1; UserAgent := userAgent |}).
    rewrite A. reflexivity.
Defined.

(** C8 at a key file that does not exist. *)
Lemma unreadable_key_file_witness :
  Gke.ReadFile world "/etc/missing.json"
  = Err "open /etc/missing.json: no such file or directory"
  /\ Gke.BuildKubeRestConfSACred world "prod" "us-central1" "acme"
                                 "/etc/missing.json" userAgent
     = ([EvReadFile "/etc/missing.json"],
        Err ("failed to get token source from service account: "
             ++ "failed to read the SA key json file `/etc/missing.json': "
             ++ "open /etc/missing.json: no such file or directory")).
Proof.
  split; [reflexivity |].
  apply (GkeFacts.unreadable_key_file_fails_first
           world "prod" "us-central1" "acme" userAgent "/etc/missing.json"
           "open /etc/missing.json: no such file or directory").
  - discriminate.
  - reflexivity.
Defined.

(** C9 at [isopod install main.ipd] with no token anywhere. *)
Lemma vault_token_witness :
  given_vault_token (bare ["install"; "main.ipd"]) = None
  /\ process envAllGood "" (Parsed (bare ["install"; "main.ipd"]))
     = ([], Stop (LogFatalf "--vault_token or $VAULT_TOKEN must be set")).
Proof.
  split; [reflexivity |].
  apply (MainFacts.vault_token_required
           envAllGood "" (bare ["install"; "main.ipd"]) (or_introl eq_refl) eq_refl).
Defined.

(** C10 fails when Vault's client cannot be built: the value [[] of
    [--match_addons] does not compile, yet [buildAddonsRuntime] returns the
    error of the Vault step and [main] leaves through [log.Exitf]; nothing
    panics. *)
Lemma vault_failure_preempts_panic :
  regexp_Compile envVaultDown (addonRegex flagsBadRegex)
  = Err "error parsing regexp: missing closing ]: `[`"
  /\ buildAddonsRuntime envVaultDown flagsBadRegex 0 prodConf "main.ipd"
     = ([EvVaultNewClient],
        Ret (Err ("failed to initialize Vault client: "
                  ++ "parse VAULT_ADDR: invalid URI")))
  /\ panics (snd (buildAddonsRuntime envVaultDown flagsBadRegex 0 prodConf
                                     "main.ipd")) = false
  /\ snd (main envVaultDown flagsBadRegex ["install"; "main.ipd"])
     = Stop (LogExitf ("Failed to initialize runtime: "
                       ++ "failed to initialize Vault client: "
                       ++ "parse VAULT_ADDR: invalid URI")).
Proof.
  vm_compute. repeat split.
Qed.

End Runs.

(** ** More about package [gke] *)
Module GkeCoverage.
Import Gke Coverage.

Section Resolver.
Variable w : World.
Variables clusterName location project userAgent : string.

(** What the shared lookup returns, by the first step that fails. *)
Lemma lookup_cases tokenSrc :
  buildKubeRestConf w clusterName location project userAgent tokenSrc
  = match NewService w tokenSrc with
    | Err err =>
        ([EvNewService tokenSrc],
         Err ("failed to create the container service: " ++ err))
    | Ok svc =>
        ([EvNewService tokenSrc;
          EvClustersGet ("projects/" ++ project ++ "/locations/" ++ location
                         ++ "/clusters/" ++ clusterName)],
         match ClustersGet w svc ("projects/" ++ project ++ "/locations/"
                                  ++ location ++ "/clusters/" ++ clusterName) with
         | Err err => Err ("failed to retrieve cluster info: " ++ err)
         | Ok cluster =>
             match Base64.DecodeString (ClusterCaCertificate cluster) with
             | Base64.CorruptInputError off =>
                 Err ("failed to base64 decode the cluster CA cert: "
                      ++ Base64.CorruptInputError_Error off)
             | Base64.Decoded caCert =>
                 Ok {| Host := "https://" ++ Endpoint cluster;
                       CAData := caCert;
                       WrapTransport := tokenSrc;
                       UserAgent := userAgent |}
             end
         end)
    end.
Proof.
  unfold buildKubeRestConf. rewrite calls_bind_call.
  destruct (NewService w tokenSrc) as [svc | err]; [| reflexivity].
  rewrite calls_bind_call.
  destruct (ClustersGet w svc _) as [cluster | err]; [| reflexivity].
  destruct (Base64.DecodeString _); reflexivity.
Qed.

(** What the entry point does before the lookup: nothing but acquire the
    token source, and stop there when that fails. *)
Lemma entry_point_cases svcAcctKeyFile :
  (exists tokenSrc,
     Conditions.acquired w svcAcctKeyFile tokenSrc
     /\ exists pre,
          BuildKubeRestConfSACred w clusterName location project
                                  svcAcctKeyFile userAgent
          = ((pre ++ fst (buildKubeRestConf w clusterName location project
                                            userAgent tokenSrc))%list,
             snd (buildKubeRestConf w clusterName location project
                                    userAgent tokenSrc))
          /\ existsb isNetworkCall pre = false
          /\ Trace.count Trace.isDefaultTokenSource pre
             + Trace.count Trace.isReadFile pre = 1)
  \/ (exists msg pre,
        BuildKubeRestConfSACred w clusterName location project
                                svcAcctKeyFile userAgent = (pre, Err msg)
        /\ existsb isNetworkCall pre = false
        /\ Trace.count Trace.isDefaultTokenSource pre
           + Trace.count Trace.isReadFile pre = 1
        /\ ((svcAcctKeyFile = ""
             /\ exists err,
                  DefaultTokenSource w = Err err
                  /\ msg = "failed to create the google DefaultTokenSource: "
                           ++ err)
            \/ (svcAcctKeyFile <> ""
                /\ exists err,
                     ReadFile w svcAcctKeyFile = Err err
                     /\ msg = "failed to get token source from service account: "
                              ++ "failed to read the SA key json file `"
                              ++ svcAcctKeyFile ++ "': " ++ err)
            \/ (svcAcctKeyFile <> ""
                /\ exists b err,
                     ReadFile w svcAcctKeyFile = Ok b
                     /\ CredentialsFromJSON w b = Err err
                     /\ msg = "failed to get token source from service account: "
                              ++ "failed to extract credentials from json: "
                              ++ err))).
Proof.
  unfold BuildKubeRestConfSACred.
  destruct (String.eqb_spec svcAcctKeyFile "") as [-> | Hne].
  - unfold BuildKubeRestConfDefaultCred. rewrite calls_bind_call.
    destruct (DefaultTokenSource w) as [ts | err] eqn:Hd.
    + left. exists ts. split; [left; split; first [assumption | reflexivity] |].
      exists [EvDefaultTokenSource]. repeat split.
    + right. eexists. exists [EvDefaultTokenSource].
      split; [reflexivity |]. split; [reflexivity |]. split; [reflexivity |].
      left. split; [reflexivity |]. exists err. split; first [assumption | reflexivity].
  - unfold GoogleCredTokenSourceFromSAKey. rewrite calls_bind_call.
    destruct (ReadFile w svcAcctKeyFile) as [b | err] eqn:Hr.
    + rewrite calls_bind_call.
      destruct (CredentialsFromJSON w b) as [ts | err] eqn:Hc.
      * left. exists ts. split.
        { right. split; [exact Hne |]. exists b. split; first [assumption | reflexivity]. }
        exists [EvReadFile svcAcctKeyFile; EvCredentialsFromJSON b].
        repeat split.
      * right. eexists.
        exists [EvReadFile svcAcctKeyFile; EvCredentialsFromJSON b].
        split; [reflexivity |]. split; [reflexivity |]. split; [reflexivity |].
        right. right. split; [exact Hne |]. exists b, err. repeat split; first [assumption | reflexivity].
    + right. eexists. exists [EvReadFile svcAcctKeyFile].
      split; [reflexivity |]. split; [reflexivity |]. split; [reflexivity |].
      right. left. split; [exact Hne |]. exists err. split; first [assumption | reflexivity].
Qed.

(** X1: a configuration the resolver returns was built from an answer of
    the management API: a token source was acquired by the strategy the
    key path selects, the client was built on it, the lookup returned a
    cluster, the configuration's CA data is what base64 decodes the
    cluster's certificate field to, its host is [https://] followed by the
    cluster's endpoint, its transport wraps that token source and its user
    agent is the one given. *)
Theorem resolved_configuration_origin svcAcctKeyFile conf :
  snd (BuildKubeRestConfSACred w clusterName location project
                               svcAcctKeyFile userAgent) = Ok conf ->
  exists tokenSrc svc cluster,
    Conditions.acquired w svcAcctKeyFile tokenSrc
    /\ NewService w tokenSrc = Ok svc
    /\ ClustersGet w svc ("projects/" ++ project ++ "/locations/" ++ location
                          ++ "/clusters/" ++ clusterName) = Ok cluster
    /\ Base64.DecodeString (ClusterCaCertificate cluster)
       = Base64.Decoded (CAData conf)
    /\ Host conf = "https://" ++ Endpoint cluster
    /\ WrapTransport conf = tokenSrc
    /\ UserAgent conf = userAgent.
Proof.
  destruct (entry_point_cases svcAcctKeyFile)
    as [[ts [Ha [pre [-> _]]]] | [msg [pre [-> _]]]]; [| discriminate].
  cbn [snd]. rewrite lookup_cases.
  destruct (NewService w ts) as [svc | err] eqn:Hs; [| discriminate].
  cbn [snd].
  destruct (ClustersGet w svc _) as [cluster | err] eqn:Hc; [| discriminate].
  destruct (Base64.DecodeString (ClusterCaCertificate cluster))
    as [caCert | off] eqn:Hd; [| discriminate].
  intros H. injection H as <-.
  exists ts, svc, cluster. repeat split; assumption.
Qed.

(** X2: the resolver reaches the provider only with a token source it has
    acquired: every client it builds is built on that token source, and
    the one cluster it looks up, after the client was built, is named
    [projects/P/locations/L/clusters/N]. *)
Theorem network_calls_use_acquired_token svcAcctKeyFile ev :
  In ev (fst (BuildKubeRestConfSACred w clusterName location project
                                      svcAcctKeyFile userAgent)) ->
  isNetworkCall ev = true ->
  exists tokenSrc,
    Conditions.acquired w svcAcctKeyFile tokenSrc
    /\ (ev = EvNewService tokenSrc
        \/ (exists svc, NewService w tokenSrc = Ok svc)
           /\ ev = EvClustersGet ("projects/" ++ project ++ "/locations/"
                                  ++ location ++ "/clusters/" ++ clusterName)).
Proof.
  intros Hin Hnet.
  destruct (entry_point_cases svcAcctKeyFile)
    as [[ts [Ha [pre [E [Hpre _]]]]] | [msg [pre [E [Hpre _]]]]];
    rewrite E in Hin; cbn [fst] in Hin.
  - exists ts. split; [exact Ha |].
    apply in_app_or in Hin. destruct Hin as [Hin | Hin].
    + exfalso. assert (existsb isNetworkCall pre = true)
        by (apply existsb_exists; exists ev; split; assumption).
      congruence.
    + rewrite lookup_cases in Hin.
      destruct (NewService w ts) as [svc | err] eqn:Hs; cbn [fst] in Hin.
      * destruct Hin as [<- | [<- | []]]; [left; reflexivity |].
        right. split; [exists svc; reflexivity | reflexivity].
      * destruct Hin as [<- | []]. left. reflexivity.
  - exfalso. assert (existsb isNetworkCall pre = true)
      by (apply existsb_exists; exists ev; split; assumption).
    congruence.
Qed.

(** X3: an error of the resolver is the wrapped error of the first step
    that failed, and of no other: the default token source, the read of
    the key file, the parsing of its bytes, the building of the client,
    the lookup, or the decoding of the certificate. *)
Theorem resolution_error_cause svcAcctKeyFile msg :
  snd (BuildKubeRestConfSACred w clusterName location project
                               svcAcctKeyFile userAgent) = Err msg ->
  (svcAcctKeyFile = ""
   /\ exists err,
        DefaultTokenSource w = Err err
        /\ msg = "failed to create the google DefaultTokenSource: " ++ err)
  \/ (svcAcctKeyFile <> ""
      /\ exists err,
           ReadFile w svcAcctKeyFile = Err err
           /\ msg = "failed to get token source from service account: "
                    ++ "failed to read the SA key json file `"
                    ++ svcAcctKeyFile ++ "': " ++ err)
  \/ (svcAcctKeyFile <> ""
      /\ exists b err,
           ReadFile w svcAcctKeyFile = Ok b
           /\ CredentialsFromJSON w b = Err err
           /\ msg = "failed to get token source from service account: "
                    ++ "failed to extract credentials from json: " ++ err)
  \/ (exists tokenSrc err,
        Conditions.acquired w svcAcctKeyFile tokenSrc
        /\ NewService w tokenSrc = Err err
        /\ msg = "failed to create the container service: " ++ err)
  \/ (exists tokenSrc svc err,
        Conditions.acquired w svcAcctKeyFile tokenSrc
        /\ NewService w tokenSrc = Ok svc
        /\ ClustersGet w svc ("projects/" ++ project ++ "/locations/"
                              ++ location ++ "/clusters/" ++ clusterName)
           = Err err
        /\ msg = "failed to retrieve cluster info: " ++ err)
  \/ (exists tokenSrc svc cluster off,
        Conditions.acquired w svcAcctKeyFile tokenSrc
        /\ NewService w tokenSrc = Ok svc
        /\ ClustersGet w svc ("projects/" ++ project ++ "/locations/"
                              ++ location ++ "/clusters/" ++ clusterName)
           = Ok cluster
        /\ Base64.DecodeString (ClusterCaCertificate cluster)
           = Base64.CorruptInputError off
        /\ msg = "failed to base64 decode the cluster CA cert: "
                 ++ Base64.CorruptInputError_Error off).
Proof.
  destruct (entry_point_cases svcAcctKeyFile)
    as [[ts [Ha [pre [-> _]]]] | [msg' [pre [-> [_ [_ Hcause]]]]]]; cbn [snd].
  - rewrite lookup_cases.
    destruct (NewService w ts) as [svc | err] eqn:Hs; cbn [snd].
    + destruct (ClustersGet w svc _) as [cluster | err] eqn:Hc.
      * destruct (Base64.DecodeString (ClusterCaCertificate cluster))
          as [caCert | off] eqn:Hd; [discriminate |].
        intros H. injection H as <-.
        do 5 right. exists ts, svc, cluster, off. repeat split; assumption.
      * intros H. injection H as <-.
        do 4 right. left. exists ts, svc, err. repeat split; assumption.
    + intros H. injection H as <-.
      do 3 right. left. exists ts, err. repeat split; assumption.
  - intros H. injection H as <-.
    destruct Hcause as [H | [H | H]]; [left | right; left | right; right; left];
      exact H.
Qed.

(** X4: [GoogleCredTokenSourceFromSAKey] returns a token source exactly
    when the file can be read and its bytes parse to that token source; it
    reads the file first, parses only what it has read, and makes no call
    to the provider. *)
Theorem key_file_token_source svcAcctKeyFile tokenSrc :
  (snd (GoogleCredTokenSourceFromSAKey w svcAcctKeyFile) = Ok tokenSrc
   <-> exists b, ReadFile w svcAcctKeyFile = Ok b
                 /\ CredentialsFromJSON w b = Ok tokenSrc)
  /\ hd_error (fst (GoogleCredTokenSourceFromSAKey w svcAcctKeyFile))
     = Some (EvReadFile svcAcctKeyFile)
  /\ existsb isNetworkCall (fst (GoogleCredTokenSourceFromSAKey w svcAcctKeyFile))
     = false
  /\ (forall b,
        In (EvCredentialsFromJSON b)
           (fst (GoogleCredTokenSourceFromSAKey w svcAcctKeyFile)) ->
        ReadFile w svcAcctKeyFile = Ok b).
Proof.
  unfold GoogleCredTokenSourceFromSAKey. rewrite calls_bind_call.
  destruct (ReadFile w svcAcctKeyFile) as [b | err] eqn:Hr.
  - rewrite calls_bind_call.
    destruct (CredentialsFromJSON w b) as [ts | err] eqn:Hc; cbn [fst snd Calls.ret].
    + repeat split.
      * intros H. injection H as <-. exists b. split; [reflexivity | exact Hc].
      * intros [b' [Hb' Hc']]. injection Hb' as <-. rewrite Hc in Hc'. exact Hc'.
      * intros b' [H | [H | []]]; [discriminate H |]. injection H as <-. reflexivity.
    + repeat split.
      * discriminate.
      * intros [b' [Hb' Hc']]. injection Hb' as <-. rewrite Hc in Hc'.
        discriminate Hc'.
      * intros b' [H | [H | []]]; [discriminate H |]. injection H as <-. reflexivity.
  - cbn [fst snd Calls.ret]. repeat split.
    + discriminate.
    + intros [b' [Hb' _]]. discriminate Hb'.
    + intros b' [H | []]. discriminate H.
Qed.

(** X5: the resolver tries each step once: in one call it asks for one
    token source, by exactly one of the two strategies, builds at most one
    client and looks up at most one cluster, and never looks a cluster up
    without having built the client. *)
Theorem resolver_tries_each_step_once svcAcctKeyFile :
  Trace.count Trace.isDefaultTokenSource
    (fst (BuildKubeRestConfSACred w clusterName location project
                                  svcAcctKeyFile userAgent))
  + Trace.count Trace.isReadFile
      (fst (BuildKubeRestConfSACred w clusterName location project
                                    svcAcctKeyFile userAgent)) = 1
  /\ Trace.count isClustersGet
       (fst (BuildKubeRestConfSACred w clusterName location project
                                     svcAcctKeyFile userAgent))
     <= Trace.count isNewService
          (fst (BuildKubeRestConfSACred w clusterName location project
                                        svcAcctKeyFile userAgent))
  /\ Trace.count isNewService
       (fst (BuildKubeRestConfSACred w clusterName location project
                                     svcAcctKeyFile userAgent)) <= 1.
Proof.
  destruct (GkeFacts.strategy_calls w clusterName location project userAgent
                                    svcAcctKeyFile) as [_ [Hd Hr]].
  rewrite Hd, Hr.
  split; [destruct (svcAcctKeyFile =? "")%string; reflexivity |].
  assert (Hnet : forall pre, existsb isNetworkCall pre = false ->
                 Trace.count isClustersGet pre = 0
                 /\ Trace.count isNewService pre = 0).
  { induction pre as [| ev pre IH]; [split; reflexivity |].
    cbn [existsb]. intros H. apply orb_false_iff in H. destruct H as [Hev Hp].
    destruct (IH Hp) as [I1 I2].
    destruct ev; cbn in Hev; try discriminate; split; assumption. }
  destruct (entry_point_cases svcAcctKeyFile)
    as [[ts [_ [pre [-> [Hpre _]]]]] | [msg [pre [-> [Hpre _]]]]]; cbn [fst].
  - destruct (Hnet pre Hpre) as [H1 H2].
    rewrite !TraceFacts.count_app, H1, H2, lookup_cases.
    destruct (NewService w ts); cbn; lia.
  - destruct (Hnet pre Hpre) as [-> ->]. lia.
Qed.

End Resolver.
End GkeCoverage.

(** ** More about package [main] *)
Module MainCoverage.
Import Main Trace TraceFacts MainFacts Coverage.

Section Program.
Variable e : Env.
Variable fl : Flags.

(** A visit either goes through to the workload or stops the process
    before it, with no workload attempted and no failure logged. *)
Lemma visitCluster_cases cmd mainFile i v s :
  (exists kubeC addons,
     snd (KubeConfig v) = Ok kubeC
     /\ snd (buildAddonsRuntime e fl i kubeC mainFile) = Ret (Ok addons)
     /\ Load addons = None
     /\ snd (visitCluster e fl cmd mainFile i v s)
        = Ret (failed (Run addons cmd (AddonSkyCtx v)) || s)
     /\ attempts (fst (visitCluster e fl cmd mainFile i v s))
        = [(vendorString v, cmd)]
     /\ failuresLogged (fst (visitCluster e fl cmd mainFile i v s))
        = if failed (Run addons cmd (AddonSkyCtx v)) then 1 else 0)
  \/ (exists t,
        snd (visitCluster e fl cmd mainFile i v s) = Stop t
        /\ attempts (fst (visitCluster e fl cmd mainFile i v s)) = []
        /\ failuresLogged (fst (visitCluster e fl cmd mainFile i v s)) = 0).
Proof.
  assert (Head : forall l,
    attempts ((EvKubeConfig (vendorString v) :: map EvCred (fst (KubeConfig v)))
                ++ l) = attempts l
    /\ failuresLogged
         ((EvKubeConfig (vendorString v) :: map EvCred (fst (KubeConfig v)))
            ++ l) = failuresLogged l).
  { intros l.
    change (EvKubeConfig (vendorString v) :: map EvCred (fst (KubeConfig v)))
      with ([EvKubeConfig (vendorString v)] ++ map EvCred (fst (KubeConfig v)))%list.
    rewrite !attempts_app, !failuresLogged_app, attempts_cred, failuresLogged_cred.
    split; reflexivity. }
  destruct (snd (KubeConfig v)) as [kubeC | err] eqn:Hk.
  2: { right. eexists.
       rewrite (visitCluster_credential_failure e fl cmd mainFile i v s err Hk).
       cbn [fst snd]. destruct (Head []) as [H1 H2].
       rewrite app_nil_r in H1, H2. rewrite H1, H2. repeat split. }
  destruct (buildAddonsRuntime_calls e fl i kubeC mainFile) as [Ha [Hf _]].
  destruct (snd (buildAddonsRuntime e fl i kubeC mainFile))
    as [[addons | err] | t] eqn:Hb.
  - destruct (Load addons) as [err |] eqn:Hl.
    + right. eexists.
      rewrite (visitCluster_load_failure e fl cmd mainFile i v s kubeC addons err
                                         Hk Hb Hl).
      cbn [fst snd].
      destruct (Head (fst (buildAddonsRuntime e fl i kubeC mainFile)
                        ++ [EvAddonsLoad (vendorString v)])%list) as [-> ->].
      rewrite attempts_app, failuresLogged_app, Ha, Hf. repeat split.
    + left. exists kubeC, addons.
      rewrite (visitCluster_runs e fl cmd mainFile i v s kubeC addons Hk Hb Hl).
      cbn [fst snd].
      destruct (Head (fst (buildAddonsRuntime e fl i kubeC mainFile)
                        ++ [EvAddonsLoad (vendorString v);
                            EvAddonsRun (vendorString v) cmd]
                        ++ match Run addons cmd (AddonSkyCtx v) with
                           | Some err => [EvLogErrorf ("addons run failed: " ++ err)]
                           | None => []
                           end)%list) as [-> ->].
      rewrite attempts_app, failuresLogged_app, Ha, Hf.
      destruct (Run addons cmd (AddonSkyCtx v)); repeat split; assumption.
  - right. eexists.
    rewrite (visitCluster_construction_failure e fl cmd mainFile i v s kubeC err
                                               Hk Hb).
    cbn [fst snd].
    destruct (Head (fst (buildAddonsRuntime e fl i kubeC mainFile))) as [-> ->].
    rewrite Ha, Hf. repeat split.
  - right. exists t.
    rewrite (visitCluster_construction_stop e fl cmd mainFile i v s kubeC t Hk Hb).
    cbn [fst snd].
    destruct (Head (fst (buildAddonsRuntime e fl i kubeC mainFile))) as [-> ->].
    rewrite Ha, Hf. repeat split.
Qed.

(** The loop over a list that starts with clusters on which it does not
    stop: it goes on with the rest, from the state they left. *)
Lemma forEach_app_Ret {S} (fn : nat -> KubernetesVendor -> S -> Proc Event S)
      rest pre : forall i s b,
  snd (forEach fn i pre s) = Ret b ->
  forEach fn i (pre ++ rest) s
  = ((fst (forEach fn i pre s)
        ++ fst (forEach fn (List.length pre + i) rest b))%list,
     snd (forEach fn (List.length pre + i) rest b)).
Proof.
  induction pre as [| v pre IH]; intros i s b H.
  - cbn in H. injection H as <-. cbn.
    destruct (forEach fn i rest s); reflexivity.
  - destruct (snd (fn i v s)) as [s1 | t] eqn:Hv.
    + rewrite (forEach_continues fn i v pre s s1 Hv) in H. cbn [snd] in H.
      cbn [app]. rewrite (forEach_continues fn i v (pre ++ rest) s s1 Hv).
      rewrite (forEach_continues fn i v pre s s1 Hv).
      rewrite (IH (Datatypes.S i) s1 b H). cbn [fst snd List.length].
      rewrite Nat.add_succ_r, app_assoc. reflexivity.
    + rewrite (forEach_stops fn i v pre s t Hv) in H. discriminate H.
Qed.

(** What the loop leaves in the trace, however it ends. *)
Lemma forEach_attempts cmd mainFile vs : forall i s,
  Forall (fun a => a = (fst a, cmd))
         (attempts (fst (forEach (visitCluster e fl cmd mainFile) i vs s)))
  /\ failuresLogged (fst (forEach (visitCluster e fl cmd mainFile) i vs s))
     <= List.length
          (attempts (fst (forEach (visitCluster e fl cmd mainFile) i vs s)))
  /\ List.length
       (attempts (fst (forEach (visitCluster e fl cmd mainFile) i vs s)))
     <= count isKubeConfig
              (fst (forEach (visitCluster e fl cmd mainFile) i vs s))
  /\ (forall b,
        snd (forEach (visitCluster e fl cmd mainFile) i vs s) = Ret b ->
        attempts (fst (forEach (visitCluster e fl cmd mainFile) i vs s))
        = map (fun v => (vendorString v, cmd)) vs).
Proof.
  induction vs as [| v vs IH]; intros i s.
  - cbn. repeat split; [constructor | lia | lia].
  - destruct (visitCluster_calls e fl cmd mainFile i v s) as [_ Hk].
    destruct (visitCluster_cases cmd mainFile i v s)
      as [[kubeC [addons [_ [_ [_ [Hs [Ha Hf]]]]]]] | [t [Hs [Ha Hf]]]].
    + rewrite (forEach_continues _ i v vs s _ Hs). cbn [fst snd].
      destruct (IH (S i) (failed (Run addons cmd (AddonSkyCtx v)) || s))
        as [I1 [I2 [I3 I4]]].
      rewrite attempts_app, failuresLogged_app, count_app, Ha, Hf, Hk.
      cbn [app List.length map].
      split; [constructor; [reflexivity | exact I1] |].
      split; [destruct (failed _); lia |].
      split; [lia |].
      intros b Hb. rewrite (I4 b Hb). reflexivity.
    + rewrite (forEach_stops _ i v vs s t Hs). cbn [fst snd].
      rewrite Ha, Hf, Hk. repeat split; [constructor | lia | cbn; lia | discriminate].
Qed.

(** Which runs reach the loop over the clusters. *)
Lemma main_reaches_loop_or_not args :
  (attempts (fst (main e fl args)) = []
   /\ failuresLogged (fst (main e fl args)) = 0
   /\ count isKubeConfig (fst (main e fl args)) = 0
   /\ snd (main e fl args) <> Stop (OsExit 2))
  \/ exists (cmd path : string) rest ctxParams clusters,
       args = cmd :: path :: rest
       /\ showVersion fl = false
       /\ cmd <> TestCommand
       /\ path <> ""
       /\ ParseCommaSeparatedParams e (isopodCtx fl) = Ok ctxParams
       /\ snd (buildClustersRuntime e fl path) = Ret clusters
       /\ Load clusters = None.
Proof.
  destruct (showVersion fl) eqn:Hv.
  { left. unfold main. rewrite Hv. repeat split. discriminate. }
  assert (Htest : forall rest,
    attempts (fst (main e fl (TestCommand :: rest))) = []
    /\ failuresLogged (fst (main e fl (TestCommand :: rest))) = 0
    /\ count isKubeConfig (fst (main e fl (TestCommand :: rest))) = 0
    /\ snd (main e fl (TestCommand :: rest)) <> Stop (OsExit 2)).
  { intros rest. rewrite (main_test e fl rest Hv). repeat split.
    cbn [snd]. destruct (RunUnitTests e (hd "" rest)) as [[|] [err |]];
      discriminate. }
  destruct args as [| cmd [| path rest]].
  - left. unfold main. rewrite Hv. repeat split. discriminate.
  - destruct (String.eqb_spec cmd TestCommand) as [-> | Hc]; [left; apply Htest |].
    left. unfold main. rewrite Hv. cbn [getCmdAndPath].
    apply String.eqb_neq in Hc. rewrite Hc. repeat split. discriminate.
  - destruct (String.eqb_spec cmd TestCommand) as [-> | Hc]; [left; apply Htest |].
    pose proof Hc as Hc'. apply String.eqb_neq in Hc'.
    destruct (String.eqb_spec path "") as [-> | Hp].
    { left. unfold main. rewrite Hv. cbn [getCmdAndPath]. rewrite bind_ret.
      cbn [fst snd]. rewrite Hc'. repeat split. discriminate. }
    destruct (ParseCommaSeparatedParams e (isopodCtx fl)) as [ctxParams | err]
      eqn:Hparse.
    2: { left. unfold main. rewrite Hv. cbn [getCmdAndPath]. rewrite bind_ret.
         cbn [fst snd]. rewrite Hc', (eqb_empty_false _ Hp), bind_call, Hparse.
         repeat split. discriminate. }
    destruct (snd (buildClustersRuntime e fl path)) as [clusters | t] eqn:Hnew.
    2: { left. unfold main. rewrite Hv. cbn [getCmdAndPath]. rewrite bind_ret.
         cbn [fst snd]. rewrite Hc', (eqb_empty_false _ Hp), bind_call, Hparse.
         rewrite (bind_Stop _ t) by exact Hnew. cbn [fst snd].
         rewrite buildClustersRuntime_calls. repeat split.
         revert Hnew. unfold buildClustersRuntime. rewrite bind_call.
         destruct (runtime_New e 0 _ _); cbn; [discriminate |].
         intros H. injection H as <-. discriminate. }
    destruct (Load clusters) as [err |] eqn:Hload.
    { left. unfold main. rewrite Hv. cbn [getCmdAndPath]. rewrite bind_ret.
      cbn [fst snd]. rewrite Hc', (eqb_empty_false _ Hp), bind_call, Hparse.
      rewrite (bind_Ret _ clusters) by exact Hnew.
      rewrite buildClustersRuntime_calls, bind_call, Hload. repeat split.
      discriminate. }
    right. exists cmd, path, rest, ctxParams, clusters. repeat split; assumption.
Qed.

(** X6: the workload is attempted on a cluster only when everything
    before it succeeded there: an attempt in the calls of a visit is the
    one on this cluster with the command given, and then the vendor's
    [KubeConfig] returned a configuration, the addons runtime was built
    from it and loaded. *)
Theorem workload_needs_setup (cmd mainFile : string) i v s a :
  In a (attempts (fst (visitCluster e fl cmd mainFile i v s))) ->
  a = (vendorString v, cmd)
  /\ exists kubeC addons,
       snd (KubeConfig v) = Ok kubeC
       /\ snd (buildAddonsRuntime e fl i kubeC mainFile) = Ret (Ok addons)
       /\ Load addons = None
       /\ snd (visitCluster e fl cmd mainFile i v s)
          = Ret (failed (Run addons cmd (AddonSkyCtx v)) || s).
Proof.
  intros Hin.
  destruct (visitCluster_cases cmd mainFile i v s)
    as [[kubeC [addons [Hk [Hb [Hl [Hs [Ha _]]]]]]] | [t [_ [Ha _]]]];
    rewrite Ha in Hin.
  - destruct Hin as [<- | []]. split; [reflexivity |].
    exists kubeC, addons. repeat split; assumption.
  - destruct Hin.
Qed.

(** X7: in every run, each workload attempt is made with the command
    given on the command line, which is then not [test]; no more failures
    are logged than workloads were attempted, and no more workloads are
    attempted than [KubeConfig] was called. *)
Theorem attempts_follow_the_command_line args :
  Forall (fun a => snd a = hd "" args /\ hd "" args <> TestCommand)
         (attempts (fst (main e fl args)))
  /\ failuresLogged (fst (main e fl args))
     <= List.length (attempts (fst (main e fl args)))
  /\ List.length (attempts (fst (main e fl args)))
     <= count isKubeConfig (fst (main e fl args)).
Proof.
  destruct (main_reaches_loop_or_not args)
    as [[Ha [Hf [Hk _]]]
       | [cmd [path [rest [ctxParams [clusters
           [-> [Hv [Hc [Hp [Hparse [Hnew Hload]]]]]]]]]]]].
  - rewrite Ha, Hf, Hk. split; [apply Forall_nil | split; cbn; lia].
  - rewrite (main_per_cluster_phase e fl cmd path rest ctxParams clusters)
      by assumption.
    cbn [fst]. rewrite attempts_app, failuresLogged_app, count_app.
    cbn [attempts flat_map app failuresLogged count filter isKubeConfig
         List.length Nat.add].
    destruct (forEach_attempts cmd path (fst (Clusters clusters ctxParams)) 0 false)
      as [I1 [I2 [I3 _]]].
    split; [| split; assumption].
    apply Forall_forall. intros a Hin.
    rewrite Forall_forall in I1. rewrite (I1 a Hin). cbn [snd hd].
    split; [reflexivity | exact Hc].
Qed.

(** X8: when [main] ends with [os.Exit(2)], the loop went over every
    cluster discovery yielded: the workload was attempted on each of them,
    in order, the iteration returned no error, and at least one failure
    was logged. *)
Theorem exit_2_after_all_clusters args :
  snd (main e fl args) = Stop (OsExit 2) ->
  exists (cmd path : string) rest ctxParams clusters,
    args = cmd :: path :: rest
    /\ ParseCommaSeparatedParams e (isopodCtx fl) = Ok ctxParams
    /\ snd (buildClustersRuntime e fl path) = Ret clusters
    /\ snd (Clusters clusters ctxParams) = None
    /\ attempts (fst (main e fl args))
       = map (fun v => (vendorString v, cmd)) (fst (Clusters clusters ctxParams))
    /\ 0 < failuresLogged (fst (main e fl args)).
Proof.
  intros Hexit.
  destruct (main_reaches_loop_or_not args)
    as [[_ [_ [_ Hne]]]
       | [cmd [path [rest [ctxParams [clusters
           [-> [Hv [Hc [Hp [Hparse [Hnew Hload]]]]]]]]]]]]; [contradiction |].
  exists cmd, path, rest, ctxParams, clusters.
  rewrite (main_per_cluster_phase e fl cmd path rest ctxParams clusters)
    in * by assumption.
  cbn [fst snd] in *.
  pose proof (forEach_outcome e fl cmd path (fst (Clusters clusters ctxParams))
                              0 false) as Ho.
  destruct (forEach_attempts cmd path (fst (Clusters clusters ctxParams)) 0 false)
    as [_ [_ [_ Hall]]].
  destruct (snd (forEach (visitCluster e fl cmd path) 0
                         (fst (Clusters clusters ctxParams)) false))
    as [b | t].
  - destruct (snd (Clusters clusters ctxParams)); [discriminate |].
    destruct b; [| discriminate].
    rewrite attempts_app, failuresLogged_app, (Hall true eq_refl).
    cbn [attempts flat_map app failuresLogged count filter List.length Nat.add].
    rewrite orb_false_r in Ho. symmetry in Ho. apply Nat.ltb_lt in Ho.
    repeat split; assumption.
  - injection Hexit as ->. cbn in Ho. contradiction.
Qed.

(** X9: when discovery yields no cluster, [main] returns after the
    discovery calls: no [KubeConfig], no Vault client, no workload. *)
Theorem no_cluster_is_success (cmd path : string) rest ctxParams clusters :
  showVersion fl = false ->
  cmd <> TestCommand ->
  path <> "" ->
  ParseCommaSeparatedParams e (isopodCtx fl) = Ok ctxParams ->
  snd (buildClustersRuntime e fl path) = Ret clusters ->
  Load clusters = None ->
  Clusters clusters ctxParams = ([], None) ->
  main e fl (cmd :: path :: rest)
  = ([EvParseParams (isopodCtx fl); EvRuntimeNew path; EvLoad path;
      EvForEachCluster], Ret tt)
  /\ exitStatus (snd (main e fl (cmd :: path :: rest))) = 0%Z.
Proof.
  intros Hv Hc Hp Hparse Hnew Hload Hcl.
  rewrite (main_per_cluster_phase e fl cmd path rest ctxParams clusters)
    by assumption.
  rewrite Hcl. split; reflexivity.
Qed.

(** X10: when the clusters runtime cannot be set up, because the context
    parameters do not parse, [runtime.New] fails or the entry file does not
    load, [main] ends through [log.Exitf] before the loop: no [KubeConfig]
    is called, no credential call is made and no workload attempted. *)
Theorem discovery_failure_is_fatal (cmd path : string) rest :
  showVersion fl = false ->
  cmd <> TestCommand ->
  path <> "" ->
  (forall ctxParams clusters,
     ParseCommaSeparatedParams e (isopodCtx fl) = Ok ctxParams ->
     snd (buildClustersRuntime e fl path) = Ret clusters ->
     Load clusters <> None) ->
  (exists msg, snd (main e fl (cmd :: path :: rest)) = Stop (LogExitf msg))
  /\ count isKubeConfig (fst (main e fl (cmd :: path :: rest))) = 0
  /\ credCalls (fst (main e fl (cmd :: path :: rest))) = []
  /\ attempts (fst (main e fl (cmd :: path :: rest))) = []
  /\ existsb (fun ev => match ev with EvForEachCluster => true | _ => false end)
             (fst (main e fl (cmd :: path :: rest))) = false.
Proof.
  intros Hv Hc Hp Hfail.
  pose proof Hc as Hc'. apply String.eqb_neq in Hc'.
  unfold main. rewrite Hv. cbn [getCmdAndPath]. rewrite bind_ret.
  cbn [fst snd]. rewrite Hc', (eqb_empty_false _ Hp), bind_call.
  destruct (ParseCommaSeparatedParams e (isopodCtx fl)) as [ctxParams | err]
    eqn:Hparse.
  2: { repeat split. eexists. reflexivity. }
  destruct (snd (buildClustersRuntime e fl path)) as [clusters | t] eqn:Hnew.
  2: { rewrite (bind_Stop _ t) by exact Hnew. cbn [fst snd].
       rewrite buildClustersRuntime_calls. repeat split.
       revert Hnew. unfold buildClustersRuntime. rewrite bind_call.
       destruct (runtime_New e 0 _ _); cbn; [discriminate |].
       intros H. injection H as <-. eexists. reflexivity. }
  rewrite (bind_Ret _ clusters) by exact Hnew.
  rewrite buildClustersRuntime_calls, bind_call.
  destruct (Load clusters) as [err |] eqn:Hload.
  - repeat split. eexists. reflexivity.
  - exfalso. exact (Hfail ctxParams clusters eq_refl eq_refl Hload).
Qed.

(** X11: a credential failure hides the workload failures before it: when
    the clusters [pre] are gone through and the next cluster's [KubeConfig]
    returns an error, [main] ends through [log.Exitf], status 1, whatever
    failed on [pre]; the workloads of [pre] were attempted and their
    failures logged, and nothing is attempted on the clusters after. *)
Theorem credential_failure_hides_workload_failures
        (cmd path : string) rest ctxParams clusters pre v post iterErr outs err :
  showVersion fl = false ->
  cmd <> TestCommand ->
  path <> "" ->
  ParseCommaSeparatedParams e (isopodCtx fl) = Ok ctxParams ->
  snd (buildClustersRuntime e fl path) = Ret clusters ->
  Load clusters = None ->
  Clusters clusters ctxParams = ((pre ++ v :: post)%list, iterErr) ->
  List.length outs = List.length pre ->
  Conditions.allSetUp e fl cmd path 0 pre outs ->
  snd (KubeConfig v) = Err err ->
  snd (main e fl (cmd :: path :: rest))
  = Stop (LogExitf ("Failed to build kube rest config for k8s vendor "
                    ++ vendorString v ++ ": " ++ err))
  /\ exitStatus (snd (main e fl (cmd :: path :: rest))) = 1%Z
  /\ attempts (fst (main e fl (cmd :: path :: rest)))
     = map (fun v => (vendorString v, cmd)) pre
  /\ failuresLogged (fst (main e fl (cmd :: path :: rest)))
     = List.length (filter failed outs).
Proof.
  intros Hv Hc Hp Hparse Hnew Hload Hcl Hlen Hall Hk.
  rewrite (main_per_cluster_phase e fl cmd path rest ctxParams clusters)
    by assumption.
  rewrite Hcl. cbn [fst snd].
  destruct (forEach_all_attempted e fl cmd path pre 0 outs false Hlen Hall)
    as [L1 [L2 L3]].
  rewrite (forEach_app_Ret _ (v :: post) pre 0 false _ L1).
  pose proof (visitCluster_credential_failure e fl cmd path
                (List.length pre + 0) v (existsb failed outs || false) err Hk)
    as Hf.
  rewrite (forEach_stops _ _ v post _ _ (f_equal snd Hf)). rewrite Hf.
  cbn [fst snd].
  rewrite !attempts_app, !failuresLogged_app, L2, L3.
  change (EvKubeConfig (vendorString v) :: map EvCred (fst (KubeConfig v)))
    with ([EvKubeConfig (vendorString v)] ++ map EvCred (fst (KubeConfig v)))%list.
  rewrite attempts_app, failuresLogged_app, attempts_cred, failuresLogged_cred.
  cbn [attempts flat_map app failuresLogged count filter List.length Nat.add].
  rewrite app_nil_r, Nat.add_0_r. repeat split.
Qed.

(** X15: an error of the iteration is fatal after the fact: when every
    cluster yielded was gone through and [ForEachCluster] then returns an
    error, [main] ends through [log.Exitf] with that error, whether or not
    a workload failed; the workloads were attempted all the same. *)
Theorem iteration_error_is_fatal
        (cmd path : string) rest ctxParams clusters vs outs err :
  showVersion fl = false ->
  cmd <> TestCommand ->
  path <> "" ->
  ParseCommaSeparatedParams e (isopodCtx fl) = Ok ctxParams ->
  snd (buildClustersRuntime e fl path) = Ret clusters ->
  Load clusters = None ->
  Clusters clusters ctxParams = (vs, Some err) ->
  List.length outs = List.length vs ->
  Conditions.allSetUp e fl cmd path 0 vs outs ->
  snd (main e fl (cmd :: path :: rest))
  = Stop (LogExitf ("Failed to iterate through clusters: " ++ err))
  /\ attempts (fst (main e fl (cmd :: path :: rest)))
     = map (fun v => (vendorString v, cmd)) vs
  /\ failuresLogged (fst (main e fl (cmd :: path :: rest)))
     = List.length (filter failed outs).
Proof.
  intros Hv Hc Hp Hparse Hnew Hload Hcl Hlen Hall.
  rewrite (main_per_cluster_phase e fl cmd path rest ctxParams clusters)
    by assumption.
  rewrite Hcl. cbn [fst snd].
  destruct (forEach_all_attempted e fl cmd path vs 0 outs false Hlen Hall)
    as [L1 [L2 L3]].
  rewrite L1, attempts_app, failuresLogged_app, L2, L3.
  repeat split.
Qed.

(** X16: an error [buildAddonsRuntime] returns is the wrapped error of
    the first constructor that failed: Vault's client, after which nothing
    else is called; the Kubernetes clientset, after which [runtime.New] is
    not called; or [runtime.New] itself. *)
Theorem construction_error_cause i kubeC mainFile msg :
  snd (buildAddonsRuntime e fl i kubeC mainFile) = Ret (Err msg) ->
  (exists err,
     vaultapi_NewClient e i = Err err
     /\ msg = "failed to initialize Vault client: " ++ err
     /\ fst (buildAddonsRuntime e fl i kubeC mainFile) = [EvVaultNewClient])
  \/ (exists err,
        isErr (vaultapi_NewClient e i) = false
        /\ kubernetes_NewForConfig e i kubeC = Err err
        /\ msg = "failed to create Kubernetes clientset: " ++ err
        /\ fst (buildAddonsRuntime e fl i kubeC mainFile)
           = [EvVaultNewClient; EvNewForConfig (Host kubeC)])
  \/ (exists conf opts err,
        isErr (vaultapi_NewClient e i) = false
        /\ isErr (kubernetes_NewForConfig e i kubeC) = false
        /\ isErr (regexp_Compile e (addonRegex fl)) = false
        /\ runtime_New e (S i) conf opts = Err err
        /\ EntryFile conf = mainFile
        /\ msg = "failed to initialize addons runtime: " ++ err
        /\ fst (buildAddonsRuntime e fl i kubeC mainFile)
           = [EvVaultNewClient; EvNewForConfig (Host kubeC);
              EvAddonsNew mainFile]).
Proof.
  unfold buildAddonsRuntime. rewrite bind_call.
  destruct (vaultapi_NewClient e i) as [vaultC | verr].
  2: { cbn. intros H. injection H as <-. left. exists verr. repeat split. }
  rewrite bind_call.
  destruct (kubernetes_NewForConfig e i kubeC) as [cs | kerr].
  2: { cbn. intros H. injection H as <-. right. left. exists kerr. repeat split. }
  unfold MustCompile.
  destruct (regexp_Compile e (addonRegex fl)) as [re | rerr]; [| discriminate].
  rewrite bind_ret, bind_call.
  destruct (runtime_New e (S i) _ _) as [a | nerr] eqn:Hn; [discriminate |].
  cbn. intros H. injection H as <-. right. right.
  eexists. eexists. exists nerr.
  split; [reflexivity |]. split; [reflexivity |]. split; [reflexivity |].
  split; [exact Hn |]. repeat split.
Qed.

End Program.

(** X12: [getCmdAndPath] returns a command and a path exactly when two
    arguments are given, the command being the first and the path the
    second whatever follows, or when [test] is the only argument, the path
    then being empty; in every other case it prints the usage and ends
    the process with status 1. *)
Theorem getCmdAndPath_returns (argv : list string) (cmd path : string) :
  (snd (getCmdAndPath argv) = Ret (cmd, path)
   <-> (exists rest, argv = cmd :: path :: rest)
       \/ (argv = [TestCommand] /\ cmd = TestCommand /\ path = ""))
  /\ ((forall cp, snd (getCmdAndPath argv) <> Ret cp) ->
      getCmdAndPath argv = ([EvUsage], Stop (OsExit 1)))
  /\ (forall cp : Command * string,
        snd (getCmdAndPath argv) = Ret cp -> fst (getCmdAndPath argv) = []).
Proof.
  destruct argv as [| c [| p rest]]; cbn [getCmdAndPath].
  - repeat split; try discriminate.
    intros [[rest H] | [H _]]; discriminate H.
  - destruct (String.eqb_spec c TestCommand) as [-> | Hc].
    + repeat split.
      * intros H. cbn in H. injection H as <- <-. right. repeat split.
      * intros [[rest H] | [_ [-> ->]]]; [discriminate H | reflexivity].
      * intros H. exfalso. exact (H _ eq_refl).
    + repeat split; try discriminate.
      intros [[rest H] | [H _]]; [discriminate H |].
      injection H as H. contradiction.
  - repeat split.
    + intros H. cbn in H. injection H as <- <-. left. exists rest. reflexivity.
    + intros [[rest' H] | [H _]]; [| discriminate H].
      injection H as -> -> _. reflexivity.
    + intros H. exfalso. exact (H _ eq_refl).
Qed.

(** X13: a vault token given on the command line takes the place of the
    environment's: initialisation then does not depend on [VAULT_TOKEN],
    it passes with the given token when that is not empty, and an empty
    token given by flag is fatal even when [VAULT_TOKEN] is set.  The
    arguments left by [flag.Parse] are handed on unchanged. *)
Theorem flag_token_overrides_environment VAULT_TOKEN cl tok :
  given_vault_token cl = Some tok ->
  snd (init VAULT_TOKEN (Parsed cl))
  = (if (tok =? "")%string
     then Stop (LogFatalf "--vault_token or $VAULT_TOKEN must be set")
     else Ret (setFlags (flagDefaults VAULT_TOKEN) cl, Args cl))
  /\ vaultToken (setFlags (flagDefaults VAULT_TOKEN) cl) = tok
  /\ fst (init VAULT_TOKEN (Parsed cl)) = []
  /\ (forall VT' st st',
        snd (init VAULT_TOKEN (Parsed cl)) = Ret st ->
        snd (init VT' (Parsed cl)) = Ret st' ->
        vaultToken (fst st) = vaultToken (fst st') /\ snd st = snd st').
Proof.
  intros Hg.
  assert (Htok : forall VT, vaultToken (setFlags (flagDefaults VT) cl) = tok).
  { intros VT. unfold setFlags. cbn [vaultToken]. rewrite Hg. reflexivity. }
  assert (Hinit : forall VT,
    init VT (Parsed cl)
    = ([], if (tok =? "")%string
           then Stop (LogFatalf "--vault_token or $VAULT_TOKEN must be set")
           else Ret (setFlags (flagDefaults VT) cl, Args cl))).
  { intros VT. unfold init. cbv zeta. rewrite (Htok VT).
    destruct (tok =? "")%string; reflexivity. }
  rewrite Hinit. cbn [fst snd].
  split; [reflexivity |]. split; [apply Htok |]. split; [reflexivity |].
  intros VT' st st'. rewrite Hinit. cbn [snd].
  destruct (tok =? "")%string; [discriminate |].
  intros H H'. injection H as <-. injection H' as <-.
  cbn [fst snd]. rewrite !Htok. split; reflexivity.
Qed.

(** X14: after initialisation the addons runtime always gets a Vault
    client that carries the configured token: when [init] has returned
    the flags and [buildAddonsRuntime] returns a runtime, that runtime is
    the answer of [runtime.New] to a list of options that starts with the
    Vault client with the flags' token, the cluster's configuration with
    the diff flag, the chart directory ([--rel_path], or the entry file's
    directory when that is empty) and the compiled filter, and ends with
    the no-spinner option exactly when [--nospin] is set; the metadata
    store is in the flags' namespace. *)
Theorem addons_runtime_options e VAULT_TOKEN p fl args i kubeC mainFile addons :
  snd (init VAULT_TOKEN p) = Ret (fl, args) ->
  snd (buildAddonsRuntime e fl i kubeC mainFile) = Ret (Ok addons) ->
  exists cs re,
    kubernetes_NewForConfig e i kubeC = Ok cs
    /\ regexp_Compile e (addonRegex fl) = Ok re
    /\ vaultToken fl <> ""
    /\ runtime_New e (S i)
         {| EntryFile := mainFile;
            GCPSvcAcctKeyFile := svcAcctKeyFile fl;
            Config_UserAgent := "Isopod/" ++ version;
            KubeConfigPath := kubeconfig fl;
            Config_Store := Some {| store_cs := cs;
                                    store_namespace := namespace fl |};
            DryRun := dryRun fl |}
         ([ WithVault {| token := vaultToken fl |};
            WithKube kubeC (kubeDiff fl);
            WithHelm (if (relativePath fl =? "")%string
                      then filepath_Dir e mainFile else relativePath fl);
            WithAddonRegex re ]
            ++ if noSpin fl then [WithNoSpin] else [])%list
       = Ok addons.
Proof.
  intros Hinit Hb.
  assert (Htok : vaultToken fl <> "").
  { revert Hinit. unfold init. destruct p as [code | cl]; [discriminate |].
    destruct (String.eqb_spec
                (vaultToken (setFlags (flagDefaults VAULT_TOKEN) cl)) "")
      as [Heq | Hne]; [discriminate |].
    cbn. intros H. injection H as <- _. exact Hne. }
  revert Hb. unfold buildAddonsRuntime. rewrite bind_call.
  destruct (vaultapi_NewClient e i) as [vaultC | verr]; [| discriminate].
  rewrite bind_call.
  destruct (kubernetes_NewForConfig e i kubeC) as [cs | kerr]; [| discriminate].
  unfold MustCompile.
  destruct (regexp_Compile e (addonRegex fl)) as [re | rerr]; [| discriminate].
  rewrite bind_ret, bind_call.
  rewrite (eqb_empty_false _ Htok). cbn [negb]. unfold SetToken.
  intros H. exists cs, re.
  split; [reflexivity |]. split; [reflexivity |]. split; [exact Htok |].
  destruct (noSpin fl); cbn [app] in *;
    destruct (runtime_New e (S i) _ _) as [a | rerr]; cbn in H;
    try discriminate; injection H as <-; reflexivity.
Qed.

End MainCoverage.

(** ** The further statements at sample runs *)
Module CoverageRuns.
Import Main Examples Coverage.

(** X1 at [prod]. *)
Lemma resolved_configuration_witness :
  snd (Gke.BuildKubeRestConfSACred world "prod" "us-central1" "acme" ""
                                   userAgent) = Ok prodConf
  /\ exists tokenSrc svc cluster,
       Conditions.acquired world "" tokenSrc
       /\ Gke.NewService world tokenSrc = Ok svc
       /\ Gke.ClustersGet world svc prodName = Ok cluster
       /\ Base64.DecodeString (Gke.ClusterCaCertificate cluster)
          = Base64.Decoded pem.
Proof.
  split; [reflexivity |].
  destruct (GkeCoverage.resolved_configuration_origin
              world "prod" "us-central1" "acme" userAgent "" prodConf eq_refl)
    as [ts [svc [cluster [A [B [C [D _]]]]]]].
  exists ts, svc, cluster. repeat split; assumption.
Defined.

(** X2 at the lookup of [prod]. *)
Lemma network_calls_witness :
  In (EvClustersGet prodName)
     (fst (Gke.BuildKubeRestConfSACred world "prod" "us-central1" "acme" ""
                                       userAgent))
  /\ exists tokenSrc,
       Conditions.acquired world "" tokenSrc
       /\ (EvClustersGet prodName = EvNewService tokenSrc
           \/ (exists svc, Gke.NewService world tokenSrc = Ok svc)
              /\ EvClustersGet prodName = EvClustersGet prodName).
Proof.
  assert (H : In (EvClustersGet prodName)
                 (fst (Gke.BuildKubeRestConfSACred world "prod" "us-central1"
                                                   "acme" "" userAgent))).
  { right. right. left. reflexivity. }
  split; [exact H |].
  exact (GkeCoverage.network_calls_use_acquired_token
           world "prod" "us-central1" "acme" userAgent ""
           (EvClustersGet prodName) H eq_refl).
Defined.

(** X3 at [staging], whose certificate does not decode. *)
Lemma resolution_error_witness :
  snd (Gke.BuildKubeRestConfSACred world "staging" "us-central1" "acme" ""
                                   userAgent)
  = Err ("failed to base64 decode the cluster CA cert: "
         ++ "illegal base64 data at input byte 3")
  /\ exists tokenSrc svc cluster off,
       Gke.ClustersGet world svc stagingName = Ok cluster
       /\ Gke.NewService world tokenSrc = Ok svc
       /\ Base64.DecodeString (Gke.ClusterCaCertificate cluster)
          = Base64.CorruptInputError off.
Proof.
  split; [reflexivity |].
  destruct (GkeCoverage.resolution_error_cause
              world "staging" "us-central1" "acme" userAgent "" _ eq_refl)
    as [[_ [err [H _]]] | [[H _] | [[H _] | [H | [H | H]]]]].
  - discriminate H.
  - exfalso. exact (H eq_refl).
  - exfalso. exact (H eq_refl).
  - destruct H as [ts [err [_ [H _]]]]. discriminate H.
  - destruct H as [ts [svc [err [_ [Hs [H _]]]]]].
    cbn in Hs. injection Hs as <-. discriminate H.
  - destruct H as [ts [svc [cluster [off [_ [Hs [Hc [Hd _]]]]]]]].
    exists ts, svc, cluster, off. repeat split; assumption.
Defined.

(** X6 at the visit of [prod]. *)
Lemma workload_needs_setup_witness :
  In ("prod", "install")
     (Trace.attempts (fst (visitCluster envAllGood flags "install" "main.ipd"
                                        0 prod false)))
  /\ snd (KubeConfig prod) = Ok prodConf
  /\ exists addons,
       snd (buildAddonsRuntime envAllGood flags 0 prodConf "main.ipd")
       = Ret (Ok addons).
Proof.
  assert (H : In ("prod", "install")
                 (Trace.attempts
                    (fst (visitCluster envAllGood flags "install" "main.ipd"
                                       0 prod false)))).
  { vm_compute. left. reflexivity. }
  split; [exact H |]. split; [reflexivity |].
  destruct (MainCoverage.workload_needs_setup
              envAllGood flags "install" "main.ipd" 0 prod false
              ("prod", "install") H)
    as [_ [kubeC [addons [Hk [Hb _]]]]].
  exists addons.
  assert (E : snd (KubeConfig prod) = Ok prodConf) by reflexivity.
  rewrite E in Hk. injection Hk as <-. exact Hb.
Defined.

(** X8 at the run in which [canary] fails. *)
Lemma exit_2_witness :
  snd (main envCanaryFails flags ["install"; "main.ipd"]) = Stop (OsExit 2)
  /\ exists (cmd path : string) rest ctxParams clusters,
       ["install"; "main.ipd"] = cmd :: path :: rest
       /\ Trace.attempts (fst (main envCanaryFails flags ["install"; "main.ipd"]))
          = map (fun v => (vendorString v, cmd))
                (fst (Clusters clusters ctxParams)).
Proof.
  split; [reflexivity |].
  destruct (MainCoverage.exit_2_after_all_clusters
              envCanaryFails flags ["install"; "main.ipd"] eq_refl)
    as [cmd [path [rest [ctxParams [clusters [A [_ [_ [_ [B _]]]]]]]]]].
  exists cmd, path, rest, ctxParams, clusters. split; assumption.
Defined.

(** X9 at a discovery that yields nothing. *)
Lemma no_cluster_witness :
  Clusters (runtimeOf [] (fun _ => false)) [] = ([], None)
  /\ main envNoClusters flags ["install"; "main.ipd"]
     = ([EvParseParams ""; EvRuntimeNew "main.ipd"; EvLoad "main.ipd";
         EvForEachCluster], Ret tt).
Proof.
  split; [reflexivity |].
  apply (MainCoverage.no_cluster_is_success
           envNoClusters flags "install" "main.ipd" [] []
           (runtimeOf [] (fun _ => false)));
    try reflexivity; discriminate.
Defined.

(** X10 at an entry file that does not load. *)
Lemma discovery_failure_witness :
  Load runtimeUnloadable = Some "main.ipd:3:1: undefined: clusters"
  /\ (exists msg,
        snd (main envUnloadable flags ["install"; "main.ipd"])
        = Stop (LogExitf msg))
  /\ Trace.count Trace.isKubeConfig
       (fst (main envUnloadable flags ["install"; "main.ipd"])) = 0.
Proof.
  split; [reflexivity |].
  destruct (MainCoverage.discovery_failure_is_fatal
              envUnloadable flags "install" "main.ipd" [])
    as [A [B _]]; try reflexivity; try discriminate.
  - intros ctxParams clusters _ Hnew. cbn in Hnew. injection Hnew as <-.
    discriminate.
  - split; assumption.
Defined.

(** X11 at [canary], whose workload fails, followed by [staging], whose
    certificate does not decode, and [prod]. *)
Lemma credential_failure_witness :
  Conditions.allSetUp envFailsThenBroken flags "install" "main.ipd" 0
    [canary] [Some "apply: connection refused"]
  /\ snd (main envFailsThenBroken flags ["install"; "main.ipd"])
     = Stop (LogExitf
               ("Failed to build kube rest config for k8s vendor staging: "
                ++ "failed to base64 decode the cluster CA cert: "
                ++ "illegal base64 data at input byte 3"))
  /\ Trace.failuresLogged
       (fst (main envFailsThenBroken flags ["install"; "main.ipd"])) = 1.
Proof.
  assert (H : Conditions.allSetUp envFailsThenBroken flags "install" "main.ipd" 0
                [canary] [Some "apply: connection refused"]).
  { intros j v Hj. destruct j as [| j]; cbn in Hj.
    - injection Hj as <-. exists canaryConf.
      exists (runtimeOf [canary; staging; prod]
                        (fun ctx => (ctx =? "canary")%string)).
      repeat split.
    - destruct j; discriminate Hj. }
  split; [exact H |].
  destruct (MainCoverage.credential_failure_hides_workload_failures
              envFailsThenBroken flags "install" "main.ipd" [] []
              (runtimeOf [canary; staging; prod]
                         (fun ctx => (ctx =? "canary")%string))
              [canary] staging [prod] None [Some "apply: connection refused"]
              ("failed to base64 decode the cluster CA cert: "
               ++ "illegal base64 data at input byte 3")
              eq_refl ltac:(discriminate) ltac:(discriminate)
              eq_refl eq_refl eq_refl eq_refl eq_refl H
              ltac:(vm_compute; reflexivity))
    as [A [_ [_ B]]].
  split; [exact A | exact B].
Defined.

(** X13 at [--vault_token=s.flag] with [VAULT_TOKEN=s.env]. *)
Lemma flag_token_witness :
  given_vault_token (tokenGiven ["install"; "main.ipd"]) = Some "s.flag"
  /\ vaultToken (setFlags (flagDefaults "s.env")
                          (tokenGiven ["install"; "main.ipd"])) = "s.flag".
Proof.
  split; [reflexivity |].
  exact (proj1 (proj2 (MainCoverage.flag_token_overrides_environment
                         "s.env" (tokenGiven ["install"; "main.ipd"]) "s.flag"
                         eq_refl))).
Defined.

(** X14 at the first cluster of a run with [VAULT_TOKEN=s.token]. *)
Lemma addons_runtime_options_witness :
  snd (init "s.token" (Parsed (bare []))) = Ret (flags, [])
  /\ exists cs re,
       runtime_New envAllGood 1
         {| EntryFile := "main.ipd";
            GCPSvcAcctKeyFile := "";
            Config_UserAgent := "Isopod/" ++ version;
            KubeConfigPath := "";
            Config_Store := Some {| store_cs := cs;
                                    store_namespace := "default" |};
            DryRun := false |}
         [ WithVault {| token := "s.token" |}; WithKube prodConf false;
           WithHelm "."; WithAddonRegex re ]
       = Ok (runtimeOf [prod; canary] (fun _ => false)).
Proof.
  split; [reflexivity |].
  destruct (MainCoverage.addons_runtime_options
              envAllGood "s.token" (Parsed (bare [])) flags [] 0 prodConf
              "main.ipd" (runtimeOf [prod; canary] (fun _ => false))
              eq_refl eq_refl) as [cs [re [_ [_ [_ A]]]]].
  exists cs, re. exact A.
Defined.

(** X15 at an iteration that fails after [prod]. *)
Lemma iteration_error_witness :
  Clusters runtimeBadEntry []
  = ([prod], Some "clusters: got int, want vendor")
  /\ snd (main envBadEntry flags ["install"; "main.ipd"])
     = Stop (LogExitf ("Failed to iterate through clusters: "
                       ++ "clusters: got int, want vendor"))
  /\ Trace.attempts (fst (main envBadEntry flags ["install"; "main.ipd"]))
     = [("prod", "install")].
Proof.
  split; [reflexivity |].
  destruct (MainCoverage.iteration_error_is_fatal
              envBadEntry flags "install" "main.ipd" [] [] runtimeBadEntry
              [prod] [None] "clusters: got int, want vendor"
              eq_refl ltac:(discriminate) ltac:(discriminate)
              eq_refl eq_refl eq_refl eq_refl eq_refl)
    as [A [B _]].
  - intros j v Hj. destruct j as [| j]; cbn in Hj.
    + injection Hj as <-. exists prodConf, runtimeBadEntry.
      split; [vm_compute; reflexivity |]. repeat split.
    + destruct j; discriminate Hj.
  - split; assumption.
Defined.

(** X16 at a Vault client that cannot be built. *)
Lemma construction_error_witness :
  snd (buildAddonsRuntime envVaultDown flags 0 prodConf "main.ipd")
  = Ret (Err ("failed to initialize Vault client: "
              ++ "parse VAULT_ADDR: invalid URI"))
  /\ fst (buildAddonsRuntime envVaultDown flags 0 prodConf "main.ipd")
     = [EvVaultNewClient].
Proof.
  split; [reflexivity |].
  destruct (MainCoverage.construction_error_cause
              envVaultDown flags 0 prodConf "main.ipd" _ eq_refl)
    as [[err [_ [_ A]]] | [[err [H _]] | [conf [opts [err [H _]]]]]].
  - exact A.
  - discriminate H.
  - discriminate H.
Defined.

End CoverageRuns.

(** ** How a run ends *)
Module Outcomes.
Import Main Trace TraceFacts MainFacts MainCoverage Coverage.

Section Program.
Variable e : Env.
Variable fl : Flags.

Lemma main_version (args : list string) :
  showVersion fl = true ->
  main e fl args
  = ([EvPrintln ("Version: " ++ version);
      EvPrintln ("System: " ++ GOOS e ++ "/" ++ GOARCH e)], Ret tt).
Proof. intros Hv. unfold main. rewrite Hv. reflexivity. Qed.

Lemma main_usage (args : list string) :
  showVersion fl = false ->
  args = [] \/ (exists cmd : string, args = [cmd] /\ cmd <> TestCommand) ->
  main e fl args = ([EvUsage], Stop (OsExit 1)).
Proof.
  intros Hv [-> | [cmd [-> Hc]]]; unfold main; rewrite Hv; cbn [getCmdAndPath].
  - reflexivity.
  - apply String.eqb_neq in Hc. rewrite Hc. reflexivity.
Qed.

(** With a command other than [test] and a path, [main] either ends
    through [log.Exitf] before the loop, having made no call of the loop,
    or gets to the loop. *)
Lemma main_stops_before_loop (cmd path : string) rest :
  showVersion fl = false ->
  cmd <> TestCommand ->
  (exists msg,
     snd (main e fl (cmd :: path :: rest)) = Stop (LogExitf msg)
     /\ failuresLogged (fst (main e fl (cmd :: path :: rest))) = 0)
  \/ exists ctxParams clusters,
       Conditions.reachesLoop e fl cmd path ctxParams clusters.
Proof.
  intros Hv Hc.
  pose proof Hc as Hc'. apply String.eqb_neq in Hc'.
  destruct (String.eqb_spec path "") as [-> | Hp].
  { left. eexists. unfold main. rewrite Hv. cbn [getCmdAndPath].
    rewrite bind_ret. cbn [fst snd]. rewrite Hc'. split; reflexivity. }
  destruct (ParseCommaSeparatedParams e (isopodCtx fl)) as [ctxParams | err]
    eqn:Hparse.
  2: { left. eexists. unfold main. rewrite Hv. cbn [getCmdAndPath].
       rewrite bind_ret. cbn [fst snd].
       rewrite Hc', (eqb_empty_false _ Hp), bind_call, Hparse.
       split; reflexivity. }
  destruct (snd (buildClustersRuntime e fl path)) as [clusters | t] eqn:Hnew.
  2: { left. revert Hnew. unfold main, buildClustersRuntime.
       rewrite Hv. cbn [getCmdAndPath].
       rewrite bind_ret. cbn [fst snd].
       rewrite Hc', (eqb_empty_false _ Hp), bind_call, Hparse, bind_call.
       destruct (runtime_New e 0 _ _) as [clusters | err]; [discriminate |].
       intros _. eexists. split; reflexivity. }
  destruct (Load clusters) as [err |] eqn:Hload.
  { left. eexists. unfold main. rewrite Hv. cbn [getCmdAndPath].
    rewrite bind_ret. cbn [fst snd].
    rewrite Hc', (eqb_empty_false _ Hp), bind_call, Hparse.
    rewrite (bind_Ret _ clusters) by exact Hnew.
    rewrite buildClustersRuntime_calls, bind_call, Hload. split; reflexivity. }
  right. exists ctxParams, clusters. repeat split; assumption.
Qed.

(** What [main] does once it has got to the loop. *)
Lemma main_in_loop (cmd path : string) rest ctxParams clusters :
  Conditions.reachesLoop e fl cmd path ctxParams clusters ->
  main e fl (cmd :: path :: rest)
  = ([EvParseParams (isopodCtx fl); EvRuntimeNew path; EvLoad path;
      EvForEachCluster]
       ++ fst (forEach (visitCluster e fl cmd path) 0
                       (fst (Clusters clusters ctxParams)) false),
     match snd (forEach (visitCluster e fl cmd path) 0
                        (fst (Clusters clusters ctxParams)) false) with
     | Ret errorReturned =>
         match snd (Clusters clusters ctxParams) with
         | Some err =>
             Stop (LogExitf ("Failed to iterate through clusters: " ++ err))
         | None => if errorReturned then Stop (OsExit 2) else Ret tt
         end
     | Stop t => Stop t
     end)%list.
Proof.
  intros [Hv [Hc [Hp [Hparse [Hnew Hload]]]]].
  apply main_per_cluster_phase; assumption.
Qed.

(** The loop that goes over every cluster. *)
Lemma main_loop_to_its_end
      (cmd path : string) rest ctxParams clusters vs iterErr outs :
  Conditions.reachesLoop e fl cmd path ctxParams clusters ->
  Clusters clusters ctxParams = (vs, iterErr) ->
  List.length outs = List.length vs ->
  Conditions.allSetUp e fl cmd path 0 vs outs ->
  snd (main e fl (cmd :: path :: rest))
  = match iterErr with
    | Some err => Stop (LogExitf ("Failed to iterate through clusters: " ++ err))
    | None => if existsb failed outs then Stop (OsExit 2) else Ret tt
    end
  /\ attempts (fst (main e fl (cmd :: path :: rest)))
     = map (fun v => (vendorString v, cmd)) vs
  /\ failuresLogged (fst (main e fl (cmd :: path :: rest)))
     = List.length (filter failed outs).
Proof.
  intros Hr Hcl Hlen Hall.
  rewrite (main_in_loop cmd path rest ctxParams clusters Hr), Hcl.
  cbn [fst snd].
  destruct (forEach_all_attempted e fl cmd path vs 0 outs false Hlen Hall)
    as [L1 [L2 L3]].
  rewrite orb_false_r in L1.
  rewrite L1, attempts_app, failuresLogged_app, L2, L3.
  repeat split.
Qed.


(** How [main] can end, and what has then been done. *)
Lemma main_ends (args : list string) :
  match snd (main e fl args) with
  | Ret _ => failuresLogged (fst (main e fl args)) = 0
  | Stop (OsExit code) =>
      (code = 1%Z
       /\ (fst (main e fl args) = [EvUsage]
           \/ exists path,
                fst (main e fl args) = [EvRunUnitTests path]
                /\ RunUnitTests e path = (false, None)
                /\ hd "" args = TestCommand))
      \/ (code = 2%Z
          /\ 0 < failuresLogged (fst (main e fl args))
          /\ hd "" args <> TestCommand)
  | Stop (LogExitf _) => True
  | Stop (LogFatalf _) => False
  | Stop (Panicked _) => isErr (regexp_Compile e (addonRegex fl)) = true
  end.
Proof.
  destruct (showVersion fl) eqn:Hv.
  { rewrite (main_version args Hv). reflexivity. }
  assert (Htest : forall rest,
    match snd (main e fl (TestCommand :: rest)) with
    | Ret _ => failuresLogged (fst (main e fl (TestCommand :: rest))) = 0
    | Stop (OsExit code) =>
        (code = 1%Z
         /\ (fst (main e fl (TestCommand :: rest)) = [EvUsage]
             \/ exists path,
                  fst (main e fl (TestCommand :: rest)) = [EvRunUnitTests path]
                  /\ RunUnitTests e path = (false, None)
                  /\ hd "" (TestCommand :: rest) = TestCommand))
        \/ (code = 2%Z
            /\ 0 < failuresLogged (fst (main e fl (TestCommand :: rest)))
            /\ hd "" (TestCommand :: rest) <> TestCommand)
    | Stop (LogExitf _) => True
    | Stop (LogFatalf _) => False
    | Stop (Panicked _) => isErr (regexp_Compile e (addonRegex fl)) = true
    end).
  { intros rest. rewrite (main_test e fl rest Hv). cbn [fst snd].
    destruct (RunUnitTests e (hd "" rest)) as [ok [err |]] eqn:Ht; cbn [fst snd].
    - exact I.
    - destruct ok; [reflexivity |].
      left. split; [reflexivity |]. right. exists (hd "" rest).
      repeat split. exact Ht. }
  destruct args as [| cmd [| path rest]].
  - rewrite (main_usage [] Hv (or_introl eq_refl)). cbn [fst snd].
    left. split; [reflexivity |]. left. reflexivity.
  - destruct (String.eqb_spec cmd TestCommand) as [-> | Hc]; [apply Htest |].
    rewrite (main_usage [cmd] Hv (or_intror (ex_intro _ cmd (conj eq_refl Hc)))).
    cbn [fst snd]. left. split; [reflexivity |]. left. reflexivity.
  - destruct (String.eqb_spec cmd TestCommand) as [-> | Hc]; [apply Htest |].
    destruct (main_stops_before_loop cmd path rest Hv Hc)
      as [[msg [Hm _]] | [ctxParams [clusters Hr]]].
    { rewrite Hm. exact I. }
    rewrite (main_in_loop cmd path rest ctxParams clusters Hr).
    cbn [fst snd hd].
    pose proof (forEach_outcome e fl cmd path (fst (Clusters clusters ctxParams))
                                0 false) as Ho.
    rewrite failuresLogged_app.
    cbn [failuresLogged count filter List.length Nat.add].
    fold (failuresLogged
            (fst (forEach (visitCluster e fl cmd path) 0
                          (fst (Clusters clusters ctxParams)) false))).
    destruct (snd (forEach (visitCluster e fl cmd path) 0
                           (fst (Clusters clusters ctxParams)) false))
      as [b | t].
    + destruct (snd (Clusters clusters ctxParams)); [exact I |].
      rewrite orb_false_r in Ho.
      destruct b.
      * right. split; [reflexivity |]. split; [| exact Hc].
        symmetry in Ho. apply Nat.ltb_lt in Ho. exact Ho.
      * symmetry in Ho. apply Nat.ltb_ge in Ho. lia.
    + destruct t; cbn in Ho; try contradiction; [exact I | exact Ho].
Qed.


(** C1, as amended: when discovery yields the clusters [vs], every
    credential resolution and every construction and load of a runtime
    succeeds, and the workload fails on exactly [K] of them, the workload
    is attempted on every cluster, in the order of discovery, whatever
    failed before; [K] failures are logged; and the flag the loop leaves
    is the disjunction of the failures.  How the process then ends also
    depends on the error [iterErr] that [ForEachCluster] returns after the
    last cluster, which [main] looks at before it looks at the flag: when
    there is none the process ends with status 2 for a positive [K] and
    returns, status 0, for [K] zero; when there is one the process ends
    through [log.Exitf], status 1, whatever [K] is. *)
Theorem partial_failure_completes_with_errors
        (cmd path : string) rest ctxParams clusters vs iterErr outs :
  showVersion fl = false ->
  cmd <> TestCommand ->
  path <> "" ->
  ParseCommaSeparatedParams e (isopodCtx fl) = Ok ctxParams ->
  snd (buildClustersRuntime e fl path) = Ret clusters ->
  Load clusters = None ->
  Clusters clusters ctxParams = (vs, iterErr) ->
  List.length outs = List.length vs ->
  Conditions.allSetUp e fl cmd path 0 vs outs ->
  attempts (fst (main e fl (cmd :: path :: rest)))
  = map (fun v => (vendorString v, cmd)) vs
  /\ failuresLogged (fst (main e fl (cmd :: path :: rest)))
     = List.length (filter failed outs)
  /\ snd (ForEachCluster clusters ctxParams (visitCluster e fl cmd path) false)
     = Ret (existsb failed outs, iterErr)
  /\ (iterErr = None ->
      0 < List.length (filter failed outs) ->
      snd (main e fl (cmd :: path :: rest)) = Stop (OsExit 2)
      /\ exitStatus (snd (main e fl (cmd :: path :: rest))) = 2%Z)
  /\ (iterErr = None ->
      List.length (filter failed outs) = 0 ->
      snd (main e fl (cmd :: path :: rest)) = Ret tt
      /\ exitStatus (snd (main e fl (cmd :: path :: rest))) = 0%Z)
  /\ (forall err,
        iterErr = Some err ->
        snd (main e fl (cmd :: path :: rest))
        = Stop (LogExitf ("Failed to iterate through clusters: " ++ err))
        /\ exitStatus (snd (main e fl (cmd :: path :: rest))) = 1%Z).
Proof.
  intros Hv Hc Hp Hparse Hnew Hload Hcl Hlen Hall.
  assert (Hr : Conditions.reachesLoop e fl cmd path ctxParams clusters)
    by (repeat split; assumption).
  destruct (main_loop_to_its_end cmd path rest ctxParams clusters vs iterErr
                                 outs Hr Hcl Hlen Hall) as [Hend [Ha Hf]].
  split; [exact Ha |]. split; [exact Hf |].
  split.
  { rewrite ForEachCluster_unfold, Hcl. cbn [fst snd].
    destruct (forEach_all_attempted e fl cmd path vs 0 outs false Hlen Hall)
      as [L1 _].
    rewrite L1, orb_false_r. reflexivity. }
  assert (Hex : existsb failed outs
               = negb (List.length (filter failed outs) =? 0)%nat).
  { clear. induction outs as [| o outs IH]; [reflexivity |].
    cbn [existsb filter]. destruct (failed o); [reflexivity | exact IH]. }
  rewrite Hend, Hex.
  split; [| split].
  - intros -> HK.
    destruct (Nat.eqb_spec (List.length (filter failed outs)) 0); [lia |].
    split; reflexivity.
  - intros -> HK. rewrite HK. split; reflexivity.
  - intros err ->. split; reflexivity.
Qed.


End Program.

(** C10, as amended: [buildAddonsRuntime] panics exactly when the Vault
    client and the Kubernetes clientset have been built and the
    [--match_addons] value does not compile; the panic is that of
    [regexp.MustCompile], it is the only way the call stops the process, and
    it ends the visit of the cluster, and with it the process, with no
    error returned and no [log.Exitf].  When one of the two earlier steps
    fails, the call returns that step's wrapped error, which the visitor
    reports through [log.Exitf], and nothing panics.  When the value
    compiles, nothing in [main] panics; and so it is when [--match_addons]
    is not given, its default being the empty expression, which Go's
    [regexp] compiles. *)
Theorem addon_regex_panic (e : Env) (fl : Flags) i kubeC mainFile :
  panics (snd (buildAddonsRuntime e fl i kubeC mainFile))
  = negb (isErr (vaultapi_NewClient e i))
    && negb (isErr (kubernetes_NewForConfig e i kubeC))
    && isErr (regexp_Compile e (addonRegex fl))
  /\ (forall t, snd (buildAddonsRuntime e fl i kubeC mainFile) = Stop t ->
      exists err,
        regexp_Compile e (addonRegex fl) = Err err
        /\ t = Panicked ("regexp: Compile(" ++ regexp_quote e (addonRegex fl)
                         ++ "): " ++ err))
  /\ (forall verr, vaultapi_NewClient e i = Err verr ->
      buildAddonsRuntime e fl i kubeC mainFile
      = ([EvVaultNewClient],
         Ret (Err ("failed to initialize Vault client: " ++ verr))))
  /\ (forall kerr,
        isErr (vaultapi_NewClient e i) = false ->
        kubernetes_NewForConfig e i kubeC = Err kerr ->
        buildAddonsRuntime e fl i kubeC mainFile
        = ([EvVaultNewClient; EvNewForConfig (Host kubeC)],
           Ret (Err ("failed to create Kubernetes clientset: " ++ kerr))))
  /\ (forall (cmd : string) v s,
        snd (KubeConfig v) = Ok kubeC ->
        (forall msg,
           snd (buildAddonsRuntime e fl i kubeC mainFile) = Ret (Err msg) ->
           snd (visitCluster e fl cmd mainFile i v s)
           = Stop (LogExitf ("Failed to initialize runtime: " ++ msg)))
        /\ (forall t,
              snd (buildAddonsRuntime e fl i kubeC mainFile) = Stop t ->
              snd (visitCluster e fl cmd mainFile i v s) = Stop t))
  /\ (forall (cmd : string) rest ctxParams clusters v post iterErr err,
        Conditions.reachesLoop e fl cmd mainFile ctxParams clusters ->
        Clusters clusters ctxParams = (v :: post, iterErr) ->
        snd (KubeConfig v) = Ok kubeC ->
        isErr (vaultapi_NewClient e 0) = false ->
        isErr (kubernetes_NewForConfig e 0 kubeC) = false ->
        regexp_Compile e (addonRegex fl) = Err err ->
        snd (main e fl (cmd :: mainFile :: rest))
        = Stop (Panicked ("regexp: Compile(" ++ regexp_quote e (addonRegex fl)
                          ++ "): " ++ err)))
  /\ (isErr (regexp_Compile e (addonRegex fl)) = false ->
      forall args : list string, panics (snd (main e fl args)) = false)
  /\ (forall VAULT_TOKEN cl,
        given_match_addons cl = None ->
        isErr (regexp_Compile e "") = false ->
        addonRegex (setFlags (flagDefaults VAULT_TOKEN) cl) = ""
        /\ panics (snd (process e VAULT_TOKEN (Parsed cl))) = false).
Proof.
  assert (Hstop : forall j c t,
    snd (buildAddonsRuntime e fl j c mainFile) = Stop t ->
    exists err,
      regexp_Compile e (addonRegex fl) = Err err
      /\ t = Panicked ("regexp: Compile(" ++ regexp_quote e (addonRegex fl)
                       ++ "): " ++ err))
    by (intros j c t; apply buildAddonsRuntime_stop).
  assert (Hpanic : forall j c err,
    isErr (vaultapi_NewClient e j) = false ->
    isErr (kubernetes_NewForConfig e j c) = false ->
    regexp_Compile e (addonRegex fl) = Err err ->
    snd (buildAddonsRuntime e fl j c mainFile)
    = Stop (Panicked ("regexp: Compile(" ++ regexp_quote e (addonRegex fl)
                      ++ "): " ++ err))).
  { intros j c err Hvault Hkube Hre. unfold buildAddonsRuntime.
    rewrite bind_call.
    destruct (vaultapi_NewClient e j) as [vaultC | verr]; [| discriminate].
    rewrite bind_call.
    destruct (kubernetes_NewForConfig e j c) as [cs | kerr]; [| discriminate].
    unfold MustCompile. rewrite Hre, bind_stop. reflexivity. }
  assert (Hmain : forall fl' (args : list string),
    isErr (regexp_Compile e (addonRegex fl')) = false ->
    panics (snd (main e fl' args)) = false).
  { intros fl' args Hre. pose proof (main_ends e fl' args) as Hends.
    destruct (snd (main e fl' args)) as [[] | [code | msg | msg | msg]];
      try reflexivity.
    rewrite Hre in Hends. discriminate Hends. }
  split.
  { unfold buildAddonsRuntime. rewrite bind_call.
    destruct (vaultapi_NewClient e i) as [vaultC | verr]; [| reflexivity].
    rewrite bind_call.
    destruct (kubernetes_NewForConfig e i kubeC) as [cs | kerr]; [| reflexivity].
    unfold MustCompile.
    destruct (regexp_Compile e (addonRegex fl)) as [re | err];
      [| rewrite bind_stop; reflexivity].
    rewrite bind_ret, bind_call.
    destruct (runtime_New e (S i) _ _); reflexivity. }
  split; [exact (Hstop i kubeC) |].
  split.
  { intros verr Hvault. unfold buildAddonsRuntime.
    rewrite bind_call, Hvault. reflexivity. }
  split.
  { intros kerr Hvault Hkube. unfold buildAddonsRuntime. rewrite bind_call.
    destruct (vaultapi_NewClient e i) as [vaultC | verr]; [| discriminate].
    rewrite bind_call, Hkube. reflexivity. }
  split.
  { intros cmd v s Hk. split.
    - intros msg Hb.
      rewrite (visitCluster_construction_failure e fl cmd mainFile i v s kubeC
                                                 msg Hk Hb).
      reflexivity.
    - intros t Hb.
      rewrite (visitCluster_construction_stop e fl cmd mainFile i v s kubeC t
                                              Hk Hb).
      reflexivity. }
  split.
  { intros cmd rest ctxParams clusters v post iterErr err
           Hr Hcl Hk Hvault Hkube Hre.
    rewrite (main_in_loop e fl cmd mainFile rest ctxParams clusters Hr), Hcl.
    cbn [fst snd].
    pose proof (Hpanic 0 kubeC err Hvault Hkube Hre) as Hb.
    pose proof (visitCluster_construction_stop e fl cmd mainFile 0 v false
                                               kubeC _ Hk Hb) as Hvisit.
    rewrite (forEach_stops _ 0 v post false _ (f_equal snd Hvisit)).
    reflexivity. }
  split; [intros Hre args; exact (Hmain fl args Hre) |].
  intros VAULT_TOKEN cl Hgiven Hre.
  assert (Hdefault : addonRegex (setFlags (flagDefaults VAULT_TOKEN) cl) = "").
  { unfold setFlags. cbn [addonRegex]. rewrite Hgiven. reflexivity. }
  split; [exact Hdefault |].
  unfold process, init. cbv zeta.
  destruct (vaultToken (setFlags (flagDefaults VAULT_TOKEN) cl) =? "")%string;
    [reflexivity |].
  rewrite bind_ret. cbn [fst snd].
  apply Hmain. rewrite Hdefault. exact Hre.
Qed.


(** C4, as amended: when the command is [test], no discovery call and no
    credential call is made by the process, whatever the path, the flags
    and the environment are.  How the process ends is decided by the
    runner's answer alone only once initialisation has passed and
    [--version] is not given: an empty vault token ends the process in
    package initialisation, and [--version] makes [main] print the version
    and return, both before the command is looked at and without the tests
    being run; otherwise the tests are run on the path and the process
    returns when they pass, ends with [os.Exit(1)] when they fail and
    through [log.Exitf] when the runner returns an error, so that two such
    runs in which the runner answers the same end the same. *)
Theorem test_command_skips_discovery (e : Env) VAULT_TOKEN cl rest :
  Args cl = TestCommand :: rest ->
  existsb isDiscoveryCall (fst (process e VAULT_TOKEN (Parsed cl))) = false
  /\ existsb isCredentialCall (fst (process e VAULT_TOKEN (Parsed cl))) = false
  /\ process e VAULT_TOKEN (Parsed cl)
     = (if (vaultToken (setFlags (flagDefaults VAULT_TOKEN) cl) =? "")%string
        then ([], Stop (LogFatalf "--vault_token or $VAULT_TOKEN must be set"))
        else if showVersion (setFlags (flagDefaults VAULT_TOKEN) cl)
        then ([EvPrintln ("Version: " ++ version);
               EvPrintln ("System: " ++ GOOS e ++ "/" ++ GOARCH e)], Ret tt)
        else ([EvRunUnitTests (hd "" rest)],
              match snd (RunUnitTests e (hd "" rest)) with
              | Some err => Stop (LogExitf ("Failed to run tests: " ++ err))
              | None => if fst (RunUnitTests e (hd "" rest)) then Ret tt
                        else Stop (OsExit 1)
              end))
  /\ (forall (e' : Env) VAULT_TOKEN' cl' rest',
        Args cl' = TestCommand :: rest' ->
        vaultToken (setFlags (flagDefaults VAULT_TOKEN) cl) <> "" ->
        vaultToken (setFlags (flagDefaults VAULT_TOKEN') cl') <> "" ->
        showVersion (setFlags (flagDefaults VAULT_TOKEN) cl) = false ->
        showVersion (setFlags (flagDefaults VAULT_TOKEN') cl') = false ->
        RunUnitTests e (hd "" rest) = RunUnitTests e' (hd "" rest') ->
        snd (process e VAULT_TOKEN (Parsed cl))
        = snd (process e' VAULT_TOKEN' (Parsed cl'))).
Proof.
  intros Hargs.
  assert (Hprocess : forall (e0 : Env) VT cl0 rest0,
    Args cl0 = TestCommand :: rest0 ->
    process e0 VT (Parsed cl0)
    = (if (vaultToken (setFlags (flagDefaults VT) cl0) =? "")%string
       then ([], Stop (LogFatalf "--vault_token or $VAULT_TOKEN must be set"))
       else if showVersion (setFlags (flagDefaults VT) cl0)
       then ([EvPrintln ("Version: " ++ version);
              EvPrintln ("System: " ++ GOOS e0 ++ "/" ++ GOARCH e0)], Ret tt)
       else ([EvRunUnitTests (hd "" rest0)],
             match snd (RunUnitTests e0 (hd "" rest0)) with
             | Some err => Stop (LogExitf ("Failed to run tests: " ++ err))
             | None => if fst (RunUnitTests e0 (hd "" rest0)) then Ret tt
                       else Stop (OsExit 1)
             end))).
  { intros e0 VT cl0 rest0 H0. unfold process, init. cbv zeta.
    destruct (vaultToken (setFlags (flagDefaults VT) cl0) =? "")%string;
      [reflexivity |].
    rewrite bind_ret. cbn [fst snd]. rewrite H0.
    destruct (showVersion (setFlags (flagDefaults VT) cl0)) eqn:Hv.
    - apply main_version. exact Hv.
    - apply main_test. exact Hv. }
  rewrite (Hprocess e VAULT_TOKEN cl rest Hargs).
  split; [| split; [| split; [reflexivity |]]].
  - destruct (vaultToken _ =? "")%string; [reflexivity |].
    destruct (showVersion _); reflexivity.
  - destruct (vaultToken _ =? "")%string; [reflexivity |].
    destruct (showVersion _); reflexivity.
  - intros e' VAULT_TOKEN' cl' rest' Hargs' Htok Htok' Hv Hv' Hrun.
    rewrite (Hprocess e' VAULT_TOKEN' cl' rest' Hargs').
    rewrite (eqb_empty_false _ Htok), (eqb_empty_false _ Htok'), Hv, Hv', Hrun.
    reflexivity.
Qed.

End Outcomes.

(** ** How sample runs end *)
Module OutcomeRuns.
Import Main Examples Coverage.

(** C1, as amended, at two clusters of which the second fails, the
    iteration returning no error: both are attempted, in order, and the
    process ends with status 2. *)
Lemma partial_failure_witness :
  Conditions.allSetUp envCanaryFails flags "install" "main.ipd" 0
    [prod; canary] [None; Some "apply: connection refused"]
  /\ Clusters (runtimeOf [prod; canary] (fun ctx => (ctx =? "canary")%string)) []
     = ([prod; canary], None)
  /\ Trace.attempts (fst (main envCanaryFails flags ["install"; "main.ipd"]))
     = [("prod", "install"); ("canary", "install")]
  /\ snd (main envCanaryFails flags ["install"; "main.ipd"]) = Stop (OsExit 2).
Proof.
  assert (H : Conditions.allSetUp envCanaryFails flags "install" "main.ipd" 0
                [prod; canary] [None; Some "apply: connection refused"]).
  { intros j v Hj. destruct j as [| [| j]]; cbn in Hj.
    - injection Hj as <-. exists prodConf.
      exists (runtimeOf [prod; canary] (fun ctx => (ctx =? "canary")%string)).
      repeat split.
    - injection Hj as <-. exists canaryConf.
      exists (runtimeOf [prod; canary] (fun ctx => (ctx =? "canary")%string)).
      repeat split.
    - destruct j; discriminate Hj. }
  split; [exact H |]. split; [reflexivity |].
  destruct (Outcomes.partial_failure_completes_with_errors
              envCanaryFails flags "install" "main.ipd" [] []
              (runtimeOf [prod; canary] (fun ctx => (ctx =? "canary")%string))
              [prod; canary] None [None; Some "apply: connection refused"]
              eq_refl ltac:(discriminate) ltac:(discriminate) eq_refl eq_refl
              eq_refl eq_refl eq_refl H) as [A [_ [_ [B _]]]].
  split; [exact A |]. apply (B eq_refl). cbn. lia.
Defined.

(** C1 fails when the iteration returns an error after the last cluster:
    [prod] and [canary] are yielded, every step before the workload
    succeeds on both, the workload fails on [canary] alone and both are
    attempted, yet the process ends through [log.Exitf], status 1 and not
    2; and with no workload failing, on [prod] alone, it ends the same
    and not with status 0. *)
Lemma partial_failure_then_iteration_error :
  Clusters runtimeFailsBadEntry []
  = ([prod; canary], Some "clusters: got int, want vendor")
  /\ Conditions.allSetUp envFailsBadEntry flags "install" "main.ipd" 0
       [prod; canary] [None; Some "apply: connection refused"]
  /\ Trace.attempts (fst (main envFailsBadEntry flags ["install"; "main.ipd"]))
     = [("prod", "install"); ("canary", "install")]
  /\ Trace.failuresLogged
       (fst (main envFailsBadEntry flags ["install"; "main.ipd"])) = 1
  /\ snd (main envFailsBadEntry flags ["install"; "main.ipd"])
     = Stop (LogExitf ("Failed to iterate through clusters: "
                       ++ "clusters: got int, want vendor"))
  /\ exitStatus (snd (main envFailsBadEntry flags ["install"; "main.ipd"]))
     = 1%Z
  /\ Trace.attempts (fst (main envBadEntry flags ["install"; "main.ipd"]))
     = [("prod", "install")]
  /\ Trace.failuresLogged
       (fst (main envBadEntry flags ["install"; "main.ipd"])) = 0
  /\ exitStatus (snd (main envBadEntry flags ["install"; "main.ipd"])) = 1%Z.
Proof.
  split; [reflexivity |]. split.
  { intros j v Hj. destruct j as [| [| j]]; cbn in Hj.
    - injection Hj as <-. exists prodConf, runtimeFailsBadEntry. repeat split.
    - injection Hj as <-. exists canaryConf, runtimeFailsBadEntry. repeat split.
    - destruct j; discriminate Hj. }
  vm_compute. repeat split.
Qed.



(** C4 fails on these three invocations of [isopod test testdata], in
    which the runner, were it called, would answer the same: with a vault
    token the tests are run and the process ends with status 1; with
    [--version] as well it prints the version and returns; with no vault
    token it ends in package initialisation.  The tests are run in the
    first only. *)
Lemma test_outcome_not_by_runner_alone :
  RunUnitTests envTestsFail "testdata" = (false, None)
  /\ process envTestsFail "s.token" (Parsed (bare ["test"; "testdata"]))
     = ([EvRunUnitTests "testdata"], Stop (OsExit 1))
  /\ process envTestsFail "s.token" (Parsed (versionGiven ["test"; "testdata"]))
     = ([EvPrintln "Version: <unknown>"; EvPrintln "System: linux/amd64"],
        Ret tt)
  /\ process envTestsFail "" (Parsed (bare ["test"; "testdata"]))
     = ([], Stop (LogFatalf "--vault_token or $VAULT_TOKEN must be set")).
Proof.
  repeat split.
Qed.

(** C4, as amended, at [isopod test testdata] with a vault token and
    failing tests. *)
Lemma test_command_witness :
  Args (bare ["test"; "testdata"]) = TestCommand :: ["testdata"]
  /\ existsb Trace.isDiscoveryCall
       (fst (process envTestsFail "s.token" (Parsed (bare ["test"; "testdata"]))))
     = false
  /\ process envTestsFail "s.token" (Parsed (bare ["test"; "testdata"]))
     = ([EvRunUnitTests "testdata"], Stop (OsExit 1)).
Proof.
  destruct (Outcomes.test_command_skips_discovery
              envTestsFail "s.token" (bare ["test"; "testdata"]) ["testdata"]
              eq_refl) as [A [_ [B _]]].
  split; [reflexivity |]. split; [exact A |]. rewrite B. reflexivity.
Defined.

(** C10, as amended, where the Vault client and the clientset are built:
    [--match_addons=[] makes the construction panic, and the process ends
    by that panic; with no [--match_addons] nothing panics. *)
Lemma addon_regex_witness :
  regexp_Compile envStrict (addonRegex flagsBadRegex)
  = Err "error parsing regexp: missing closing ]: `[`"
  /\ regexp_Compile envStrict "" = Ok (MkRegexp "")
  /\ panics (snd (buildAddonsRuntime envStrict flagsBadRegex 0 prodConf
                                     "main.ipd")) = true
  /\ snd (main envStrict flagsBadRegex ["install"; "main.ipd"])
     = Stop (Panicked ("regexp: Compile(`[`): "
                       ++ "error parsing regexp: missing closing ]: `[`"))
  /\ panics (snd (process envStrict "s.token"
                          (Parsed (bare ["install"; "main.ipd"])))) = false.
Proof.
  destruct (Outcomes.addon_regex_panic envStrict flagsBadRegex 0 prodConf
                                       "main.ipd")
    as [A [_ [_ [_ [_ [B [_ C]]]]]]].
  split; [reflexivity |]. split; [reflexivity |].
  split; [rewrite A; reflexivity |].
  split.
  - apply (B "install" [] [] (runtimeOf [prod] (fun _ => false)) prod [] None
             "error parsing regexp: missing closing ]: `[`");
      try reflexivity.
    repeat split; discriminate.
  - apply (C "s.token" (bare ["install"; "main.ipd"])); reflexivity.
Defined.

End OutcomeRuns.
